(** * ESIO: restart rotation, handle lifecycle and the field transfer engine

    A shallow embedding of the C sources of ESIO (esio.c, layout0.c,
    restart-rename.c) together with the properties of the natural-language
    specification that concern them.

    Conventions of the embedding.
    - A C string is the list of its characters before the terminating NUL;
      reading at the position of the terminator yields NUL.
    - C [int] values are [Z]. Where the source multiplies or adds [int]s
      without a guard (the transfer kernel of layout0.c) the result is
      reduced to the [int] range ([int_of]) and widened to [hsize_t] as the
      C conversion does ([hsize_of]); the one place where the source guards
      against overflow ([restart_nextindex]) is modelled with the guard.
    - The container driver (HDF5), the message layer (MPI) and the file
      system are deterministic state machines inside a [world] record. Every
      call of the ESIO error hook is appended to a log; the embedding
      describes the executions in which the installed hook returns (the
      pass-through hook), so an [ESIO_ERROR] is "log, then return the code". *)

From Stdlib Require Import ZArith Ascii String List Bool Lia DecimalString.
From stdpp Require Import base option list gmap strings.

Open Scope Z_scope.

(** ** Status codes (error.h) *)

(** Modelled from the spec: error.h is not among the sources. The spec fixes
    [0] for success and a closed enumeration of non-zero codes; the numeric
    values below follow the GSL numbering the library mirrors. Only the facts
    that the codes are pairwise distinct and non-zero are ever used. *)
Definition ESIO_SUCCESS : Z := 0.
Definition ESIO_EFAULT  : Z := 3.
Definition ESIO_EINVAL  : Z := 4.
Definition ESIO_EFAILED : Z := 5.
Definition ESIO_ESANITY : Z := 7.
Definition ESIO_ENOMEM  : Z := 8.

(** One call of the error hook: the reason text and the status code. *)
Definition errlog := list (string * Z).

Definition esio_error (reason : string) (code : Z) (log : errlog) : errlog :=
  log ++ [(reason, code)].

(** ** C characters and strings *)

Definition cstr := list ascii.

Definition NUL : ascii := "000"%char.

(** [s @@ i] is the C expression [s[i]] for [i <= strlen s]. *)
Definition char_at (s : cstr) (i : nat) : ascii := default NUL (s !! i).
Infix "@@" := char_at (at level 20, no associativity).

Definition is_nul (c : ascii) : bool := Ascii.eqb c NUL.
Definition is_hash (c : ascii) : bool := Ascii.eqb c "#"%char.
Definition is_slash (c : ascii) : bool := Ascii.eqb c "/"%char.

(** <ctype.h> in the C locale. *)
Definition isdigit (c : ascii) : bool :=
  let n := nat_of_ascii c in (48 <=? n)%nat && (n <=? 57)%nat.

Definition isspace (c : ascii) : bool :=
  let n := nat_of_ascii c in ((9 <=? n)%nat && (n <=? 13)%nat) || (n =? 32)%nat.

Definition digit_value (c : ascii) : Z := Z.of_nat (nat_of_ascii c) - 48.

Definition INT_MAX : Z := 2147483647.
Definition INT_MIN : Z := -2147483648.

(** The value an [int] expression leaves when its mathematical value is
    [z]: the two's complement representative. (Signed overflow is undefined
    in C; this is the result of the usual targets. The theorems that conclude
    a successful transfer bound the block so that nothing overflows.) *)
Definition int_of (z : Z) : Z := (z - INT_MIN) mod 2 ^ 32 + INT_MIN.

(** The conversion of an integer value to [hsize_t] (unsigned, 64 bits). *)
Definition hsize_of (z : Z) : Z := z mod 2 ^ 64.
(** [unsigned long] of an LP64 platform. *)
Definition ULONG_MAX : Z := 18446744073709551615.

(** ** strtoul(nptr, &endptr, 10) *)

(** The digit loop of strtoul from position [pos]: the accumulated value,
    whether it left the range of [unsigned long], and the position of the
    first character that is not a digit. *)
Fixpoint strtoul_digits (s : cstr) (pos : nat) (acc : Z) (ovf : bool)
    (fuel : nat) : Z * bool * nat :=
  match fuel with
  | O => (acc, ovf, pos)
  | S fuel' =>
      if isdigit (s @@ pos) then
        let acc' := acc * 10 + digit_value (s @@ pos) in
        strtoul_digits s (S pos) acc' (ovf || (ULONG_MAX <? acc')) fuel'
      else (acc, ovf, pos)
  end.

Fixpoint skip_space (s : cstr) (pos fuel : nat) : nat :=
  match fuel with
  | O => pos
  | S fuel' => if isspace (s @@ pos) then skip_space s (S pos) fuel' else pos
  end.

(** [strtoul s start] is the pair of the value returned by
    [strtoul(s + start, &endptr, 10)] and the index [endptr - s]. *)
Definition strtoul (s : cstr) (start : nat) : Z * nat :=
  let p := skip_space s start (length s) in
  let neg := Ascii.eqb (s @@ p) "-"%char in
  let p' := if neg || Ascii.eqb (s @@ p) "+"%char then S p else p in
  let '(v, ovf, e) := strtoul_digits s p' 0 false (length s) in
  if (e =? p')%nat then (0, start)
  else if ovf then (ULONG_MAX, e)
  else if neg then ((ULONG_MAX + 1 - v) mod (ULONG_MAX + 1), e)
  else (v, e).

(** ** restart_nextindex (restart-rename.c) *)

(** [while (tmpl[i] && name[i] && tmpl[i] == name[i]) ++i;] *)
Fixpoint advance_both (tmpl name : cstr) (i fuel : nat) : nat :=
  match fuel with
  | O => i
  | S fuel' =>
      if negb (is_nul (tmpl @@ i)) && negb (is_nul (name @@ i))
         && Ascii.eqb (tmpl @@ i) (name @@ i)
      then advance_both tmpl name (S i) fuel'
      else i
  end.

(** [while (tmpl[k]) { if (tmpl[k] == '#') j = k; ++k; }] *)
Fixpoint final_hash (tmpl : cstr) (j k fuel : nat) : nat * nat :=
  match fuel with
  | O => (j, k)
  | S fuel' =>
      if negb (is_nul (tmpl @@ k))
      then final_hash tmpl (if is_hash (tmpl @@ k) then k else j) (S k) fuel'
      else (j, k)
  end.

(** [while (name[l]) ++l;] *)
Fixpoint advance_end (name : cstr) (l fuel : nat) : nat :=
  match fuel with
  | O => l
  | S fuel' =>
      if negb (is_nul (name @@ l)) then advance_end name (S l) fuel' else l
  end.

(** [while (k > j && l > i && tmpl[k] == name[l]) { --k; --l; }] *)
Fixpoint scan_back (tmpl name : cstr) (j i k l fuel : nat) : nat * nat :=
  match fuel with
  | O => (k, l)
  | S fuel' =>
      if (j <? k)%nat && (i <? l)%nat && Ascii.eqb (tmpl @@ k) (name @@ l)
      then scan_back tmpl name j i (k - 1) (l - 1) fuel'
      else (k, l)
  end.

(** [while (i != j) { if (tmpl[i] != '#') return errval; ++i; }]:
    [true] when the loop runs to [j] without returning. *)
Fixpoint single_hash_run (tmpl : cstr) (i j fuel : nat) : bool :=
  match fuel with
  | O => true
  | S fuel' =>
      if (i =? j)%nat then true
      else if is_hash (tmpl @@ i) then single_hash_run tmpl (S i) j fuel'
      else false
  end.

Definition restart_nextindex (tmpl name : cstr) (errval : Z) : Z :=
  (* Advance both until the first hash is encountered *)
  let i := advance_both tmpl name 0 (S (length tmpl)) in
  if is_nul (tmpl @@ i) then errval                      (* Usage error *)
  else if negb (is_hash (tmpl @@ i)) then 0              (* Mismatch *)
  else if negb (isdigit (name @@ i)) then 0              (* Mismatch or sign *)
  else
    (* Advance template until its end, looking for the final hash *)
    let '(j, k) := final_hash tmpl i (S i) (length tmpl) in
    (* Advance name until its end *)
    let l := advance_end name (S i) (length name) in
    (* Scan both backwards until the final hash is encountered *)
    let '(k, l) := scan_back tmpl name j i k l (S (length tmpl)) in
    if negb (is_hash (tmpl @@ k)) then 0                 (* Mismatch *)
    else
      (* Attempt to read a decimal unsigned long from name[i, l] *)
      let '(curr, endptr) := strtoul name i in
      if negb (endptr =? l + 1)%nat then 0               (* Mismatch *)
      else if INT_MAX - 1 <? curr then errval            (* Overflow *)
      else if negb (single_hash_run tmpl i j (length tmpl)) then errval
      else curr + 1.

(** ** strverscmp(3), the comparison handed to scandir *)

(** Character classes of the version comparison: 0 for a non-digit, 1 for
    a digit other than ['0'], 2 for ['0']. *)
Definition vclass (c : ascii) : nat :=
  (if Ascii.eqb c "0"%char then 1 else 0) + (if isdigit c then 1 else 0).

Definition S_N : nat := 0.
Definition S_I : nat := 3.
Definition S_F : nat := 6.
Definition S_Z : nat := 9.

Definition next_state : list nat :=
  [ S_N; S_I; S_Z;
    S_N; S_I; S_I;
    S_N; S_F; S_F;
    S_N; S_F; S_Z ].

Inductive vresult := CMP | LEN | RES (r : Z).

Definition result_type : list vresult :=
  [ CMP; CMP; CMP; CMP; LEN; CMP; CMP; CMP; CMP;
    CMP; RES (-1); RES (-1); RES 1; LEN; LEN; RES 1; LEN; LEN;
    CMP; CMP; CMP; CMP; CMP; CMP; CMP; CMP; CMP;
    CMP; RES 1; RES 1; RES (-1); CMP; CMP; RES (-1); CMP; CMP ].

Definition char_diff (c1 c2 : ascii) : Z :=
  Z.of_nat (nat_of_ascii c1) - Z.of_nat (nat_of_ascii c2).

(** The LEN case: the longer run of digits wins. [p1] and [p2] point one
    past the characters that differed. *)
Fixpoint vers_len (s1 s2 : cstr) (p1 p2 : nat) (diff : Z) (fuel : nat) : Z :=
  match fuel with
  | O => diff
  | S fuel' =>
      if isdigit (s1 @@ p1) then
        if isdigit (s2 @@ p2) then vers_len s1 s2 (S p1) (S p2) diff fuel'
        else 1
      else if isdigit (s2 @@ p2) then -1 else diff
  end.

(** The main loop; [p] is the index of the characters [c1], [c2] under
    comparison and [state] already includes the class of [c1]. *)
Fixpoint vers_loop (s1 s2 : cstr) (p state fuel : nat) : Z :=
  match fuel with
  | O => 0
  | S fuel' =>
      let c1 := s1 @@ p in
      let c2 := s2 @@ p in
      let diff := char_diff c1 c2 in
      if diff =? 0 then
        if is_nul c1 then 0
        else
          vers_loop s1 s2 (S p)
            (default 0%nat (next_state !! state) + vclass (s1 @@ (S p)))%nat fuel'
      else
        match default CMP (result_type !! (state * 3 + vclass c2)%nat) with
        | CMP => diff
        | LEN => vers_len s1 s2 (S p) (S p) diff (S (length s1))
        | RES r => r
        end
  end.

Definition strverscmp (s1 s2 : cstr) : Z :=
  vers_loop s1 s2 0 (S_N + vclass (s1 @@ 0))%nat (S (length s1)).

(** ** dirname(3) and basename(3) *)

Fixpoint take_while {A} (p : A → bool) (l : list A) : list A :=
  match l with
  | [] => []
  | x :: l' => if p x then x :: take_while p l' else []
  end.

Fixpoint drop_while {A} (p : A → bool) (l : list A) : list A :=
  match l with
  | [] => []
  | x :: l' => if p x then drop_while p l' else l
  end.

Definition not_slash (c : ascii) : bool := negb (is_slash c).
Definition not_hash (c : ascii) : bool := negb (is_hash c).

Definition strip_slashes (p : cstr) : cstr :=
  rev (drop_while is_slash (rev p)).

(** The characters after the last ['/'] of [p]. *)
Definition last_component (p : cstr) : cstr :=
  rev (take_while not_slash (rev p)).

(** The characters before the last ['/'] of [p] (nothing without one). *)
Definition before_last_slash (p : cstr) : cstr :=
  rev (drop 1 (drop_while not_slash (rev p))).

Definition has_slash (p : cstr) : bool := existsb is_slash p.

Definition basename (p : cstr) : cstr :=
  match p with
  | [] => ["."%char]
  | _ =>
      match strip_slashes p with
      | [] => ["/"%char]
      | q => last_component q
      end
  end.

Definition dirname (p : cstr) : cstr :=
  match p with
  | [] => ["."%char]
  | _ =>
      match strip_slashes p with
      | [] => ["/"%char]
      | q =>
          if has_slash q then
            match strip_slashes (before_last_slash q) with
            | [] => ["/"%char]
            | d => d
            end
          else ["."%char]
      end
  end.

(** ** The file system seen by restart_rename *)

Definition str (s : cstr) : string := string_of_list_ascii s.
Definition chars (s : string) : cstr := list_ascii_of_string s.

(** Directories are identified by the text of their path; each holds
    regular files by name. File contents are opaque strings. The model
    covers directories whose entries are regular files: an entry that is
    itself a directory, which the real stat(2), scandir(3) and rename(2)
    accept like any other entry, is outside it. *)
Record fsworld := FsWorld {
  dirs : gmap string (gmap string string);
  fs_errors : errlog
}.

Definition fs_report (reason : string) (code : Z) (w : fsworld) : fsworld :=
  FsWorld (dirs w) (esio_error reason code (fs_errors w)).

Definition fs_lookup (path : cstr) (w : fsworld) : option string :=
  d ← dirs w !! str (dirname path); d !! str (basename path).

(** stat(2): 0 when the file exists, -1 otherwise. *)
Definition stat (path : cstr) (w : fsworld) : Z :=
  match fs_lookup path w with Some _ => 0 | None => -1 end.

(** rename(2): the file moves, replacing any file at the new path. *)
Definition rename (old new : cstr) (w : fsworld) : Z * fsworld :=
  match fs_lookup old w, dirs w !! str (dirname new) with
  | Some content, Some _ =>
      if decide (str (dirname old) = str (dirname new)
                 ∧ str (basename old) = str (basename new))
      then (0, w)
      else
        let removed :=
          alter (delete (str (basename old))) (str (dirname old)) (dirs w) in
        let added :=
          alter (insert (str (basename new)) content) (str (dirname new)) removed in
        (0, FsWorld added (fs_errors w))
  | _, _ => (-1, w)
  end.

(** Insertion into a list sorted by [compar]. *)
Fixpoint sort_insert (compar : cstr → cstr → Z) (x : cstr) (l : list cstr)
    : list cstr :=
  match l with
  | [] => [x]
  | y :: l' =>
      if compar x y <=? 0 then x :: l else y :: sort_insert compar x l'
  end.

Definition sort_by (compar : cstr → cstr → Z) (l : list cstr) : list cstr :=
  foldr (sort_insert compar) [] l.

(** scandir(3): the entries of [dir] accepted by [filter], sorted by
    [compar]; [None] when the directory cannot be read. *)
Definition scandir (dir : cstr) (filter : cstr → Z) (compar : cstr → cstr → Z)
    (w : fsworld) : option (list cstr) :=
  d ← dirs w !! str dir;
  let entries := chars "." :: chars ".." :: (chars <$> (map_to_list d).*1) in
  Some (sort_by compar (List.filter (fun n => negb (filter n =? 0)) entries)).

(** ** printf conversions *)

Definition decimal (n : Z) : cstr := chars (NilZero.string_of_int (Z.to_int n)).

(** The conversion [%*d] with width [width]: right-justified, padded with
    blanks on the left. *)
Definition fmt_star_d (width n : Z) : cstr :=
  let d := decimal n in
  replicate (Z.to_nat width - length d) " "%char ++ d.

(** The doubling of a buffer length until snprintf's result fits. *)
Fixpoint grow (len n fuel : nat) : nat :=
  match fuel with
  | O => len
  | S fuel' => if (len <? n)%nat then grow (2 * len) n fuel' else len
  end.

(** [while (len < snprintf(buf, len, ...)) { len *= 2; realloc }]: the final
    length and the text left in the buffer (snprintf writes at most
    [len - 1] characters). Allocation is assumed to succeed. *)
Definition snprintf_grow (len : nat) (text : cstr) : nat * cstr :=
  let len' := grow len (length text) (length text) in
  (len', take (len' - 1) text).

Definition NAME_MAX : nat := 255.

(** ** restart_rename (restart-rename.c) *)

(** [ceil(log(m)/log(10))] for [m >= 1]: the least [n] with [m <= 10^n]. *)
Fixpoint ceil_log10_from (m : Z) (n : Z) (fuel : nat) : Z :=
  match fuel with
  | O => n
  | S fuel' => if m <=? 10 ^ n then n else ceil_log10_from m (n + 1) fuel'
  end.

Definition ceil_log10 (m : Z) : Z := ceil_log10_from m 0 (Z.to_nat m).

(** The pieces of the template's basename around its first run of ['#']:
    [None] when it has no ['#'] at all. *)
Definition split_template (tmpl_basename : cstr) : option (cstr * Z * cstr) :=
  let prefix := take_while not_hash tmpl_basename in
  let rest := drop_while not_hash tmpl_basename in
  match rest with
  | [] => None
  | _ =>
      let run := take_while is_hash rest in
      let suffix := drop_while is_hash rest in
      Some (prefix, Z.of_nat (length run), suffix)
  end.

(** The field width used for the index. *)
Definition index_width (ndigits keep_howmany : Z) : Z :=
  let n := if keep_howmany =? 1 then 1 else ceil_log10 (keep_howmany - 1) in
  if n <? ndigits then ndigits else n.

Definition path_of (dir name : cstr) : cstr := dir ++ "/"%char :: name.

Definition index_path (dir prefix : cstr) (ndigits next : Z) (suffix : cstr) : cstr :=
  dir ++ "/"%char :: prefix ++ fmt_star_d ndigits next ++ suffix.

Definition rename_failed (src dst : cstr) : string :=
  str (take 1023 (chars "Error renaming '" ++ src ++ chars "' to '" ++ dst ++ chars "'")).

(** The loop [while (n--)] over the sorted entries, last entry first.
    [entries] is the name list already reversed. *)
Fixpoint rename_entries (tmpl_dirname tmpl_basename prefix suffix : cstr)
    (ndigits keep_howmany : Z) (entries : list cstr)
    (srclen dstlen : nat) (w : fsworld) : Z * nat * fsworld :=
  match entries with
  | [] => (ESIO_SUCCESS, dstlen, w)
  | name :: rest =>
      let next := restart_nextindex tmpl_basename name (-1) in
      if (next <=? 0) || (keep_howmany <=? next) then
        rename_entries tmpl_dirname tmpl_basename prefix suffix
          ndigits keep_howmany rest srclen dstlen w
      else
        let '(srclen', srcbuf) := snprintf_grow srclen (path_of tmpl_dirname name) in
        let '(dstlen', dstbuf) :=
          snprintf_grow dstlen (index_path tmpl_dirname prefix ndigits next suffix) in
        let '(r, w') := rename srcbuf dstbuf w in
        if negb (r =? 0) then
          (ESIO_EFAILED, dstlen', fs_report (rename_failed srcbuf dstbuf) ESIO_EFAILED w')
        else
          rename_entries tmpl_dirname tmpl_basename prefix suffix
            ndigits keep_howmany rest srclen' dstlen' w'
  end.

Definition restart_rename (src_filename dst_template : option cstr)
    (keep_howmany : Z) (w : fsworld) : Z * fsworld :=
  match src_filename, dst_template with
  | None, _ => (ESIO_EFAULT, fs_report "src_filename == NULL" ESIO_EFAULT w)
  | _, None => (ESIO_EFAULT, fs_report "dst_template == NULL" ESIO_EFAULT w)
  | Some src, Some tmpl =>
      if keep_howmany <? 1 then
        (ESIO_EINVAL, fs_report "keep_howmany < 1" ESIO_EINVAL w)
      else if stat src w <? 0 then
        (ESIO_EFAILED,
         fs_report "Error to stat(2)-ing src_filename during restart_rename"
           ESIO_EFAILED w)
      else
        let tmpl_dirname := dirname tmpl in
        let tmpl_basename := basename tmpl in
        match split_template tmpl_basename with
        | None =>
            (ESIO_EINVAL,
             fs_report "src_filename must contain at least one '#'" ESIO_EINVAL w)
        | Some (prefix, run, suffix) =>
            if existsb is_hash suffix then
              (ESIO_EINVAL,
               fs_report "src_filename cannot contain multiple nonadjacent '#'s"
                 ESIO_EINVAL w)
            else
              let ndigits := index_width run keep_howmany in
              match scandir tmpl_dirname
                      (fun name => restart_nextindex tmpl_basename name 0)
                      strverscmp w with
              | None =>
                  (ESIO_EFAILED,
                   fs_report "Error invoking scandir within restart_rename"
                     ESIO_EFAILED w)
              | Some namelist =>
                  let '(r, dstlen, w1) :=
                    rename_entries tmpl_dirname tmpl_basename prefix suffix
                      ndigits keep_howmany (rev namelist) NAME_MAX NAME_MAX w in
                  if negb (r =? ESIO_SUCCESS) then (r, w1)
                  else
                    let '(_, dstbuf) :=
                      snprintf_grow dstlen
                        (index_path tmpl_dirname prefix ndigits 0 suffix) in
                    let '(r', w2) := rename src dstbuf w1 in
                    if negb (r' =? 0) then
                      (ESIO_EFAILED,
                       fs_report (rename_failed src dstbuf) ESIO_EFAILED w2)
                    else (ESIO_SUCCESS, w2)
              end
        end
  end.

(** ** HDF5 datatypes *)

Inductive H5T_class_t :=
  | H5T_INTEGER | H5T_FLOAT | H5T_TIME | H5T_STRING | H5T_BITFIELD
  | H5T_OPAQUE | H5T_COMPOUND | H5T_REFERENCE | H5T_ENUM | H5T_VLEN
  | H5T_ARRAY.

(** A datatype identifier, by what it denotes. *)
Inductive h5type :=
  | H5T_NATIVE_DOUBLE
  | H5T_NATIVE_FLOAT
  | H5T_NATIVE_INT
  | H5T_array (base : h5type) (dims : list Z)
  | H5T_other (class : H5T_class_t).

Definition H5Tget_class (t : h5type) : H5T_class_t :=
  match t with
  | H5T_NATIVE_DOUBLE | H5T_NATIVE_FLOAT => H5T_FLOAT
  | H5T_NATIVE_INT => H5T_INTEGER
  | H5T_array _ _ => H5T_ARRAY
  | H5T_other c => c
  end.

(** ** The handle (struct esio_state_s) *)

Record esio_state_s := EsioState {
  comm : Z;        (* Communicator used for collective calls *)
  comm_rank : Z;   (* Process rank within in MPI communicator *)
  comm_size : Z;   (* Number of ranks within MPI communicator *)
  info : Z;        (* Info object used for collective calls *)
  file_id : Z;     (* Active HDF file identifier *)
  layout_tag : Z   (* Active field layout_tag within HDF5 file *)
}.

Definition set_file_id (s : esio_state_s) (id : Z) : esio_state_s :=
  EsioState (comm s) (comm_rank s) (comm_size s) (info s) id (layout_tag s).

Definition set_layout_tag (s : esio_state_s) (t : Z) : esio_state_s :=
  EsioState (comm s) (comm_rank s) (comm_size s) (info s) (file_id s) t.

Definition MPI_COMM_NULL : Z := 0.
Definition MPI_INFO_NULL : Z := 0.
Definition MPI_SUCCESS : Z := 0.
Definition MPI_ERR_ARG : Z := 12.

(** Modelled from the spec: version.h is not among the sources; the
    metadata tuple starts with the library version triple. *)
Definition ESIO_MAJOR_VERSION : Z := 0.
Definition ESIO_MINOR_VERSION : Z := 0.
Definition ESIO_POINT_VERSION : Z := 1.

Definition ESIO_FIELD_METADATA_SIZE : nat := 8.

(** ** The container driver, the message layer and the error sinks *)

(** The parameters of the container driver the engine does not fix: the
    element values, the value read from an element never written, which
    conversions between datatypes exist ([H5Tfind] returning non-NULL), what
    they compute, and whether a dataspace fresh from [H5Screate_simple] has
    every element selected or none. *)
Class Hdf5 (V : Type) := {
  fill_value : V;
  H5Tfind : h5type → h5type → bool;
  H5T_convert : h5type → h5type → V → V;
  H5S_fresh_all : bool
}.

(** [Ok a]: execution continues with [a] (for a whole function: it returned
    ESIO_SUCCESS and [a] is what it left in the caller's memory);
    [Ret code]: the function returned [code] early;
    [Crash]: a failed [assert] or undefined behaviour, no return. *)
Inductive outcome (A : Type) :=
  | Ok (a : A)
  | Ret (code : Z)
  | Crash.
Arguments Ok {A} a.
Arguments Ret {A} code.
Arguments Crash {A}.

Section World.
Context {V : Type} `{!Hdf5 V}.

(** A dataset of a container: its stored datatype, the extents of its
    dataspace, its elements by coordinates, and its integer attribute
    ["esio_metadata"] when it has one. *)
Record dataset := Dataset {
  ds_type : h5type;
  ds_dims : list Z;
  ds_data : gmap (list Z) V;
  ds_meta : option (list Z)
}.

(** What a live identifier denotes. *)
Inductive h5obj :=
  | ObjFile (path : string) (writable : bool)
  | ObjDataset (path name : string) (writable : bool).

Record world := World {
  disk : gmap string (gmap string dataset);  (* containers by path *)
  ids : gmap Z h5obj;                        (* live identifiers *)
  next_id : Z;                               (* the next identifier issued *)
  comms : gset Z;                            (* live communicators *)
  infos : gset Z;                            (* live info objects *)
  h5e_auto : Z * Z;       (* automatic error handler of the driver and its
                             client data; 0 is NULL *)
  h5e_printed : list string;   (* driver calls that ran the handler *)
  errors : errlog              (* calls of the ESIO error hook *)
}.

Definition set_disk (d : gmap string (gmap string dataset)) (w : world) : world :=
  World d (ids w) (next_id w) (comms w) (infos w) (h5e_auto w)
    (h5e_printed w) (errors w).

Definition set_ids (i : gmap Z h5obj) (n : Z) (w : world) : world :=
  World (disk w) i n (comms w) (infos w) (h5e_auto w) (h5e_printed w) (errors w).

Definition set_mpi (c i : gset Z) (w : world) : world :=
  World (disk w) (ids w) (next_id w) c i (h5e_auto w) (h5e_printed w) (errors w).

Definition set_h5e_auto (h : Z * Z) (w : world) : world :=
  World (disk w) (ids w) (next_id w) (comms w) (infos w) h
    (h5e_printed w) (errors w).

Definition report (reason : string) (code : Z) (w : world) : world :=
  World (disk w) (ids w) (next_id w) (comms w) (infos w) (h5e_auto w)
    (h5e_printed w) (esio_error reason code (errors w)).

(** A failing driver call runs the automatic handler unless it is NULL. *)
Definition h5_fail (call : string) (w : world) : world :=
  if fst (h5e_auto w) =? 0 then w
  else World (disk w) (ids w) (next_id w) (comms w) (infos w) (h5e_auto w)
         (h5e_printed w ++ [call]) (errors w).

(** *** Control flow of one C function *)

Definition M (A : Type) : Type := world → outcome A * world.

Definition ret {A} (a : A) : M A := fun w => (Ok a, w).

Definition bind {A B} (m : M A) (f : A → M B) : M B :=
  fun w =>
    match m w with
    | (Ok a, w') => f a w'
    | (Ret c, w') => (Ret c, w')
    | (Crash, w') => (Crash, w')
    end.

Definition crash {A} : M A := fun w => (Crash, w).

(** [ESIO_ERROR(reason, code)]: call the hook, return [code]. *)
Definition ESIO_ERROR {A} (reason : string) (code : Z) : M A :=
  fun w => (Ret code, report reason code w).

(** [ESIO_ERROR_VAL(reason, code, value)]: call the hook, return [value]. *)
Definition ESIO_ERROR_VAL {A} (reason : string) (code value : Z) : M A :=
  fun w => (Ret value, report reason code w).

(** [ESIO_ERROR_REPORT]: call the hook and carry on. *)
Definition ESIO_ERROR_REPORT (reason : string) (code : Z) : M unit :=
  fun w => (Ok tt, report reason code w).

(** [if (cond) ESIO_ERROR(reason, code);] *)
Definition fail_if (cond : bool) (reason : string) (code : Z) : M unit :=
  if cond then ESIO_ERROR reason code else ret tt.

(** A call of an int-valued function whose result the caller inspects. *)
Definition call {A} (m : M A) (success : A → Z) : M Z :=
  fun w =>
    match m w with
    | (Ok a, w') => (Ok (success a), w')
    | (Ret c, w') => (Ok c, w')
    | (Crash, w') => (Crash, w')
    end.

(** A driver call that only reads or updates the world. *)
Definition io {A} (f : world → A * world) : M A :=
  fun w => let '(a, w') := f w in (Ok a, w').

End World.

Arguments dataset V : clear implicits.
Arguments world V : clear implicits.
Arguments M V A : clear implicits.

Notation "'let*' x ':=' m 'in' k" := (bind m (fun x => k))
  (at level 10, x name, m at level 100, k at level 200).
Notation "'let*' ' p ':=' m 'in' k" := (bind m (fun x => let 'p := x in k))
  (at level 10, p pattern, m at level 100, k at level 200).

Section Driver.
Context {V : Type} `{!Hdf5 V}.
Implicit Types w : world V.

(** *** Files, datasets and attributes (H5F, H5D, H5LT) *)

(** Identifiers are issued from [next_id]; a live identifier is never a
    small integer such as a status code (see [wf_world] below). *)
Definition H5I_BASE : Z := 16777216.

Definition issue (o : h5obj) w : Z * world V :=
  (next_id w, set_ids (<[next_id w := o]> (ids w)) (next_id w + 1) w).

(** The access a live identifier has to the file at [path], when it
    denotes that file. *)
Definition opened_as (path : string) (o : h5obj) : option bool :=
  match o with
  | ObjFile p rw => if String.eqb p path then Some rw else None
  | ObjDataset _ _ _ => None
  end.

(** The access modes under which the file at [path] is open. *)
Definition open_modes (path : string) w : list bool :=
  omap (opened_as path) (map_to_list (ids w)).*2.

(** [H5Fcreate(path, H5F_ACC_TRUNC or H5F_ACC_EXCL, ...)]: as the library
    documents it, a file that is open cannot be created again, whatever the
    flag; a file that exists is truncated unless the flag is H5F_ACC_EXCL. *)
Definition H5Fcreate (path : string) (excl : bool) w : Z * world V :=
  match open_modes path w with
  | _ :: _ => (-1, h5_fail "H5Fcreate" w)
  | [] =>
      match disk w !! path with
      | Some _ => if excl then (-1, h5_fail "H5Fcreate" w)
                  else issue (ObjFile path true) (set_disk (<[path := ∅]> (disk w)) w)
      | None => issue (ObjFile path true) (set_disk (<[path := ∅]> (disk w)) w)
      end
  end.

(** [H5Fopen(path, H5F_ACC_RDWR or H5F_ACC_RDONLY, ...)]: as the library
    documents it, a file that is already open can be opened again only with
    the flags of the earlier opens. *)
Definition H5Fopen (path : string) (rdwr : bool) w : Z * world V :=
  match disk w !! path with
  | Some _ =>
      if forallb (Bool.eqb rdwr) (open_modes path w)
      then issue (ObjFile path rdwr) w
      else (-1, h5_fail "H5Fopen" w)
  | None => (-1, h5_fail "H5Fopen" w)
  end.

Definition H5Fclose (id : Z) w : Z * world V :=
  match ids w !! id with
  | Some (ObjFile _ _) => (0, set_ids (delete id (ids w)) (next_id w) w)
  | _ => (-1, h5_fail "H5Fclose" w)
  end.

Definition find_dataset (path name : string) w : option (dataset V) :=
  c ← disk w !! path; c !! name.

Definition put_dataset (path name : string) (d : dataset V) w : world V :=
  set_disk (alter (insert name d) path (disk w)) w.

(** [H5Screate_simple(rank, dims, NULL)] for a file dataspace: its extents,
    or [None] for a negative identifier. *)
Definition H5Screate_simple (dims : list Z) : option (list Z) :=
  if forallb (fun d => 0 <=? d) dims then Some dims else None.

(** [H5Dcreate1(loc, name, type, space, H5P_DEFAULT)] *)
Definition H5Dcreate1 (loc : Z) (name : string) (t : h5type) (space : list Z)
    w : Z * world V :=
  match ids w !! loc with
  | Some (ObjFile path true) =>
      match disk w !! path with
      | Some c =>
          match c !! name with
          | Some _ => (-1, h5_fail "H5Dcreate1" w)
          | None =>
              issue (ObjDataset path name true)
                (put_dataset path name (Dataset t space ∅ None) w)
          end
      | None => (-1, h5_fail "H5Dcreate1" w)
      end
  | _ => (-1, h5_fail "H5Dcreate1" w)
  end.

(** [H5Dopen1(loc, name)] and [H5Dopen2(loc, name, H5P_DEFAULT)] *)
Definition H5Dopen (loc : Z) (name : string) w : Z * world V :=
  match ids w !! loc with
  | Some (ObjFile path rw) =>
      match find_dataset path name w with
      | Some _ => issue (ObjDataset path name rw) w
      | None => (-1, h5_fail "H5Dopen" w)
      end
  | _ => (-1, h5_fail "H5Dopen" w)
  end.

Definition H5Dclose (id : Z) w : Z * world V :=
  match ids w !! id with
  | Some (ObjDataset _ _ _) => (0, set_ids (delete id (ids w)) (next_id w) w)
  | _ => (-1, h5_fail "H5Dclose" w)
  end.

Definition dataset_of (id : Z) w : option (dataset V) :=
  match ids w !! id with
  | Some (ObjDataset path name _) => find_dataset path name w
  | _ => None
  end.

(** [H5LTset_attribute_int(loc, name, "esio_metadata", data, size)] *)
Definition H5LTset_attribute_int (loc : Z) (name : string) (data : list Z)
    w : Z * world V :=
  match ids w !! loc with
  | Some (ObjFile path true) =>
      match find_dataset path name w with
      | Some d =>
          (0, put_dataset path name
                (Dataset (ds_type d) (ds_dims d) (ds_data d) (Some data)) w)
      | None => (-1, h5_fail "H5LTset_attribute_int" w)
      end
  | _ => (-1, h5_fail "H5LTset_attribute_int" w)
  end.

(** [H5LTget_attribute_int(loc, name, "esio_metadata", buffer)]: the stored
    integers overwrite the start of the caller's buffer, whose slots are
    [None] while uninitialised. Writing past the end of the buffer is
    undefined behaviour. *)
Definition H5LTget_attribute_int (loc : Z) (name : string)
    (buffer : list (option Z)) : M V (Z * list (option Z)) :=
  fun w =>
    match ids w !! loc with
    | Some (ObjFile path _) =>
        match find_dataset path name w with
        | Some (Dataset _ _ _ (Some data)) =>
            if (length buffer <? length data)%nat then (Crash, w)
            else (Ok (0, (Some <$> data) ++ drop (length data) buffer), w)
        | _ => (Ok (-1, buffer), h5_fail "H5LTget_attribute_int" w)
        end
    | _ => (Ok (-1, buffer), h5_fail "H5LTget_attribute_int" w)
    end.

(** *** The message layer *)

Definition MPI_Comm_free (c : Z) w : Z * world V :=
  if decide (c ∈ comms w) then (MPI_SUCCESS, set_mpi (comms w ∖ {[c]}) (infos w) w)
  else (MPI_ERR_ARG, w).

Definition MPI_Info_free (i : Z) w : Z * world V :=
  if decide (i ∈ infos w) then (MPI_SUCCESS, set_mpi (comms w) (infos w ∖ {[i]}) w)
  else (MPI_ERR_ARG, w).

(** [ESIO_MPICHKR(stmt)]: report a failed MPI call through the hook with
    ESIO_EFAILED and carry on. Modelled from the spec: error.h is not among
    the sources; that the macro reports without returning is what
    [esio_MPI_Comm_dup_with_name] relies on when it follows the macro with
    its own [return MPI_COMM_NULL]. *)
Definition ESIO_MPICHKR (stat : Z) : M V unit :=
  if stat =? MPI_SUCCESS then ret tt
  else ESIO_ERROR_REPORT "Encountered MPI error" ESIO_EFAILED.

(** *** Dataspaces and transfers (H5S, H5Dwrite, H5Dread) *)

(** A one-dimensional memory dataspace: its extent, whether everything is
    selected, and the strided runs [(start, stride, count)] OR-ed in. Values
    of type [hsize_t] are naturals: the kernel hands them over through
    [hsize_of], which leaves nothing negative. *)
Record memspace := MemSpace {
  ms_extent : nat;
  ms_all : bool;
  ms_runs : list (nat * nat * nat)
}.

Definition H5Screate_simple1 (nelems : Z) : memspace :=
  MemSpace (Z.to_nat nelems) H5S_fresh_all [].

(** [H5Sselect_hyperslab(space, H5S_SELECT_OR, &start, &stride, &count, NULL)]:
    a zero stride is rejected. *)
Definition H5Sselect_hyperslab_or (sp : memspace) (start stride count : Z)
    : option memspace :=
  if stride <=? 0 then None
  else if ms_all sp then Some sp
  else Some (MemSpace (ms_extent sp) false
               (ms_runs sp ++ [(Z.to_nat start, Z.to_nat stride, Z.to_nat count)])).

Definition in_run (m : nat) (r : nat * nat * nat) : bool :=
  let '(start, stride, count) := r in
  (start <=? m)%nat && ((m - start) mod stride =? 0)%nat
  && ((m - start) / stride <? count)%nat.

Definition run_inside (extent : nat) (r : nat * nat * nat) : bool :=
  let '(start, stride, count) := r in
  (count =? 0)%nat || (start + (count - 1) * stride <? extent)%nat.

(** The selected positions of the buffer, in increasing order. *)
Definition mem_selected (sp : memspace) : list nat :=
  List.filter (fun m => ms_all sp || existsb (in_run m) (ms_runs sp))
    (seq 0 (ms_extent sp)).

Definition mem_valid (sp : memspace) : bool :=
  ms_all sp || forallb (run_inside (ms_extent sp)) (ms_runs sp).

(** A file dataspace with the block selected by
    [H5Sselect_hyperslab(space, H5S_SELECT_SET, start, NULL, count, NULL)]. *)
Record filespace := FileSpace {
  fs_dims : list Z;
  fs_start : Z * Z * Z;
  fs_count : Z * Z * Z
}.

(** The selected coordinates in row-major order. *)
Definition file_selected (sp : filespace) : list (list Z) :=
  let '(cstart, bstart, astart) := fs_start sp in
  let '(clocal, blocal, alocal) := fs_count sp in
  k ← seqZ cstart clocal; j ← seqZ bstart blocal;
  i ← seqZ astart alocal; [[k; j; i]].

Definition file_valid (sp : filespace) : bool :=
  let '(cstart, bstart, astart) := fs_start sp in
  let '(clocal, blocal, alocal) := fs_count sp in
  match fs_dims sp with
  | [nc; nb; na] =>
      (0 <=? cstart) && (cstart + clocal <=? nc)
      && (0 <=? bstart) && (bstart + blocal <=? nb)
      && (0 <=? astart) && (astart + alocal <=? na)
  | _ => false
  end.

Inductive opfunc := OpWrite | OpRead.

Definition store (src dst : h5type) (field : list V)
    (data : gmap (list Z) V) (p : nat * list Z) : gmap (list Z) V :=
  <[p.2 := H5T_convert src dst (default fill_value (field !! p.1))]> data.

Definition load (src dst : h5type) (data : gmap (list Z) V)
    (field : list V) (p : nat * list Z) : list V :=
  <[p.1 := H5T_convert src dst (default fill_value (data !! p.2))]> field.

(** [OPFUNC(dset_id, type_id, memspace, filespace, plist_id, field)] with
    OPFUNC one of H5Dwrite and H5Dread: the n-th selected position of the
    buffer is paired with the n-th selected coordinate of the dataset. The
    result is the status and the buffer after the call. A buffer shorter
    than the memory dataspace is undefined behaviour. *)
Definition OPFUNC (op : opfunc) (dset_id : Z) (type_id : h5type)
    (ms : memspace) (fs : filespace) (field : list V)
    : M V (Z * list V) :=
  fun w =>
    let failed := (Ok (-1, field), h5_fail "H5Dwrite/H5Dread" w) in
    match ids w !! dset_id with
    | Some (ObjDataset path name writable) =>
        match find_dataset path name w with
        | Some d =>
            let pairs := zip (mem_selected ms) (file_selected fs) in
            if negb (mem_valid ms && file_valid fs
                     && (length (mem_selected ms) =? length (file_selected fs))%nat)
            then failed
            else if (length field <? ms_extent ms)%nat then (Crash, w)
            else
              match op with
              | OpWrite =>
                  if negb (writable && H5Tfind type_id (ds_type d)) then failed
                  else
                    let data := foldl (store type_id (ds_type d) field)
                                  (ds_data d) pairs in
                    (Ok (0, field),
                     put_dataset path name
                       (Dataset (ds_type d) (ds_dims d) data (ds_meta d)) w)
              | OpRead =>
                  if negb (H5Tfind (ds_type d) type_id) then failed
                  else
                    (Ok (0, foldl (load (ds_type d) type_id (ds_data d))
                              field pairs), w)
              end
        | None => failed
        end
    | _ => failed
    end.

(** ** Layout 0 (layout0.c) *)

(** [const hsize_t start = k*cstride + j*bstride;] for the pair
    [kj = (k, j)]: the products and the sum are computed in [int], the
    result is widened. *)
Definition run_start (cstride bstride : Z) (kj : Z * Z) : Z :=
  hsize_of (int_of (int_of (kj.1 * cstride) + int_of (kj.2 * bstride))).

(** The two nested [for] loops OR-ing one strided run per [(k, j)] into the
    memory dataspace; [None] when a selection call fails. *)
Definition select_runs (memspace0 : memspace)
    (clocal cstride blocal bstride alocal astride : Z) : option memspace :=
  foldl (fun sp kj =>
           sp ← sp;
           H5Sselect_hyperslab_or sp (run_start cstride bstride kj)
             (hsize_of astride) (hsize_of alocal))
    (Some memspace0)
    (k ← seqZ 0 clocal; j ← seqZ 0 blocal; [(k, j)]).

(** The transfer kernel: layout0.c is written once and included with
    OPFUNC bound to H5Dwrite and to H5Dread. [Ok field'] is the return of
    ESIO_SUCCESS with [field'] in the caller's buffer. The transfer
    property list carries nothing the model observes: H5Pcreate,
    H5Pset_dxpl_mpio and H5Pclose are taken to succeed, so the exit
    "Setting IO transfer mode failed" is not taken. The starts and counts
    of the file selection are the [int] arguments widened to [hsize_t]; a
    negative one, huge once widened, lies outside the extents either way
    and is kept as it is. *)
Definition METHODNAME (op : opfunc) (dset_id : Z) (field : list V)
    (cglobal cstart clocal cstride : Z)
    (bglobal bstart blocal bstride : Z)
    (aglobal astart alocal astride : Z)
    (type_id : h5type) : M V (list V) :=
  (* Create property list for collective operation: plist_id *)
  (* Establish (possibly strided) memspace details *)
  let nelems := hsize_of (int_of (clocal * cstride)) in
  let memspace0 := H5Screate_simple1 nelems in
  match select_runs memspace0 clocal cstride blocal bstride alocal astride with
  | None => ESIO_ERROR "Selecting memory hyperslab failed" ESIO_EFAILED
  | Some memspace =>
      (* Establish (contiguous) filespace details *)
      fun w =>
        match dataset_of dset_id w with
        | None => (Crash, w)                    (* assert(filespace >= 0) *)
        | Some d =>
            let filespace :=
              FileSpace (ds_dims d) (cstart, bstart, astart)
                (clocal, blocal, alocal) in
            if negb (length (ds_dims d) =? 3)%nat then
              ESIO_ERROR "Selecting file hyperslab failed" ESIO_EFAILED w
            else
              (* Transfer hyperslab to or from memory *)
              (let* '(status, field') :=
                  OPFUNC op dset_id type_id memspace filespace field in
               if status <? 0 then ESIO_ERROR "Operation failed" ESIO_EFAILED
               else ret field') w
        end
  end.

(** ** The layout registry (esio.c) *)

Record layout := Layout {
  tag : Z;
  filespace_creator : Z → Z → Z → option (list Z);
  field_writer : Z → list V → Z → Z → Z → Z → Z → Z → Z → Z → Z → h5type
                 → M V (list V);
  field_reader : Z → list V → Z → Z → Z → Z → Z → Z → Z → Z → Z → h5type
                 → M V (list V)
}.

(** Modelled from the spec: layout.c, which names the three entries of
    layout 0, is not among the sources. The filespace is the single
    three-dimensional dataspace of extents (C, B, A); the writer and the
    reader are the kernel of layout0.c bound to H5Dwrite and H5Dread. The
    engine of esio.c passes no strides, so the kernel receives the
    contiguous ones: the product of the faster directions' local counts,
    an [int] like them. *)
Definition esio_layout0_filespace_creator (nc nb na : Z) : option (list Z) :=
  H5Screate_simple [nc; nb; na].

Definition esio_layout0_field_writer (dset_id : Z) (field : list V)
    (nc cst csz nb bst bsz na ast asz : Z) (type_id : h5type) : M V (list V) :=
  METHODNAME OpWrite dset_id field nc cst csz (int_of (bsz * asz)) nb bst bsz asz
    na ast asz 1 type_id.

Definition esio_layout0_field_reader (dset_id : Z) (field : list V)
    (nc cst csz nb bst bsz na ast asz : Z) (type_id : h5type) : M V (list V) :=
  METHODNAME OpRead dset_id field nc cst csz (int_of (bsz * asz)) nb bst bsz asz
    na ast asz 1 type_id.

(** Lookup table of all the different layout types we understand *)
Definition esio_layout : list layout :=
  [ Layout 0 esio_layout0_filespace_creator esio_layout0_field_writer
      esio_layout0_field_reader ].

(** [esio_layout[t]]; indexing outside the table is undefined behaviour. *)
Definition layout_at (table : list layout) (t : Z) : M V layout :=
  if t <? 0 then crash
  else match table !! Z.to_nat t with
       | Some l => ret l
       | None => crash
       end.

Definition esio_nlayout (table : list layout) : Z := Z.of_nat (length table).

(** ** Handle and file lifecycle (esio.c) *)

(** The functions of the public interface take the handle as
    [option esio_state_s], [None] being the NULL pointer; [Ok s'] is the
    return of ESIO_SUCCESS with the handle left as [s']. The file access
    property list of [esio_file_create] and [esio_file_open] carries
    nothing the model observes: H5Pcreate, H5Pset_fapl_mpio and H5Pclose
    are taken to succeed, so the two ESIO_ESANITY exits about [fapl_id] are
    not taken. *)

Definition esio_file_close (s : option esio_state_s) : M V esio_state_s :=
  (* Sanity check incoming arguments *)
  match s with
  | None => ESIO_ERROR "s == NULL" ESIO_EINVAL
  | Some s =>
      let* _ := fail_if (file_id s =? -1) "No file currently open" ESIO_EINVAL in
      (* Close any open file *)
      let* r := io (H5Fclose (file_id s)) in
      let* _ := fail_if (r <? 0) "Unable to close file" ESIO_EFAILED in
      (* File closing successful: update state *)
      ret (set_file_id s (-1))
  end.

Definition esio_file_create (s : option esio_state_s) (file : option string)
    (overwrite : bool) : M V esio_state_s :=
  match s with
  | None => ESIO_ERROR "s == NULL" ESIO_EINVAL
  | Some s =>
      let* _ := fail_if (negb (file_id s =? -1))
                  "Cannot create file because previous file not closed"
                  ESIO_EINVAL in
      match file with
      | None => ESIO_ERROR "file == NULL" ESIO_EINVAL
      | Some file =>
          (* Collectively create the file *)
          let* id := io (H5Fcreate file (negb overwrite)) in
          let* _ := fail_if (id <? 0)
                      (if overwrite then "Unable to create file"
                       else "File already exists") ESIO_EFAILED in
          (* File creation successful: update state *)
          ret (set_file_id s id)
      end
  end.

Definition esio_file_open (s : option esio_state_s) (file : option string)
    (readwrite : bool) : M V esio_state_s :=
  match s with
  | None => ESIO_ERROR "s == NULL" ESIO_EINVAL
  | Some s =>
      let* _ := fail_if (negb (file_id s =? -1))
                  "Cannot open new file because previous file not closed"
                  ESIO_EINVAL in
      match file with
      | None => ESIO_ERROR "file == NULL" ESIO_EINVAL
      | Some file =>
          (* Collectively open the file *)
          let* id := io (H5Fopen file readwrite) in
          let* _ := fail_if (id <? 0) "Unable to open existing file"
                      ESIO_EFAILED in
          (* File creation successful: update state *)
          ret (set_file_id s id)
      end
  end.

(** [esio_finalize]: the handle is freed, so nothing of it is returned. *)
Definition esio_finalize (s : option esio_state_s) : M V unit :=
  match s with
  | Some s =>
      let* _ :=
        if negb (file_id s =? -1)
        then let* _ := call (esio_file_close (Some s)) (fun _ => ESIO_SUCCESS) in
             ret tt                              (* Force file closure *)
        else ret tt in
      let* _ :=
        if negb (comm s =? MPI_COMM_NULL)
        then let* r := io (MPI_Comm_free (comm s)) in ESIO_MPICHKR r
        else ret tt in
      let* _ :=
        if negb (info s =? MPI_INFO_NULL)
        then let* r := io (MPI_Info_free (info s)) in ESIO_MPICHKR r
        else ret tt in
      ret tt
  | None => ret tt
  end.

(** ** Field metadata (esio.c) *)

Definition one_dimension (dims : list Z) : option Z :=
  match dims with
  | [n] => Some n
  | _ => None
  end.

(** [esio_type_ncomponents]; [Ok n] is the return of [n]. *)
Definition esio_type_ncomponents (type_id : h5type) : M V Z :=
  (* Look up number of scalar components contained in the given type *)
  match type_id with
  | H5T_array _ dims =>
      (* One dimensional arrays have ncomponents equal to their size *)
      match one_dimension dims with
      | Some n => if (0 <? n) && (n <=? INT_MAX) then ret n else crash
      | None => crash            (* assert(H5Tget_array_ndims(type_id) == 1) *)
      end
  | _ =>
      match H5Tget_class type_id with
      | H5T_ENUM | H5T_FLOAT | H5T_INTEGER | H5T_OPAQUE =>
          (* Scalar types contain a single component for metadata purposes *)
          ret 1
      | H5T_ARRAY => crash
      | H5T_COMPOUND => ESIO_ERROR_VAL "H5T_COMPOUND not supported" ESIO_ESANITY (-1)
      | H5T_REFERENCE => ESIO_ERROR_VAL "H5T_REFERENCE not supported" ESIO_ESANITY (-1)
      | H5T_STRING => ESIO_ERROR_VAL "H5T_STRING not supported" ESIO_ESANITY (-1)
      | H5T_VLEN => ESIO_ERROR_VAL "H5T_VLEN not supported" ESIO_ESANITY (-1)
      | H5T_TIME => ESIO_ERROR_VAL "H5T_TIME not supported" ESIO_ESANITY (-1)
      | H5T_BITFIELD => ESIO_ERROR_VAL "Unknown H5T_class_t value" ESIO_ESANITY (-1)
      end
  end.

(** [esio_field_metadata_write]; [Ok r] is the return of the herr_t [r]. *)
Definition esio_field_metadata_write (loc_id : Z) (name : string)
    (layout_tag nc nb na : Z) (type_id : h5type) : M V Z :=
  let* ncomponents := call (esio_type_ncomponents type_id) id in
  let metadata :=
    [ ESIO_MAJOR_VERSION; ESIO_MINOR_VERSION; ESIO_POINT_VERSION;
      layout_tag; nc; nb; na; ncomponents ] in
  io (H5LTset_attribute_int loc_id name metadata).

(** The outgoing arguments of [esio_field_metadata_read]. *)
Record metadata := Metadata {
  m_layout_tag : Z; m_nc : Z; m_nb : Z; m_na : Z; m_ncomponents : Z
}.

Definition sentinel : Z := INT_MIN + 999983.

Definition slot (buffer : list (option Z)) (i : nat) : option Z :=
  mjoin (buffer !! i).

(** [esio_field_metadata_read] on a caller passing all five outgoing
    pointers: [Ok (err, m)] is the return of the herr_t [err] with the
    outgoing arguments populated as [m] ([None] when they were left
    untouched). Reading a slot of the scratch buffer that nothing
    initialised is undefined behaviour. *)
Definition esio_field_metadata_read (table : list layout) (loc_id : Z)
    (name : string) : M V (Z * option metadata) :=
  (* Obtain current HDF5 error handler *)
  let* saved := io (fun w => (h5e_auto w, w)) in
  (* Disable HDF5 error handler during metadata read *)
  let* _ := io (fun w => (tt, set_h5e_auto (0, 0) w)) in
  (* Employ a sentinel to balk if/when we accidentally blow out the buffer *)
  let buffer := replicate ESIO_FIELD_METADATA_SIZE None ++ [Some sentinel] in
  (* Read the metadata into the buffer *)
  let* '(err, buffer) := H5LTget_attribute_int loc_id name buffer in
  (* Re-enable the HDF5 error handler *)
  let* _ := io (fun w => (tt, set_h5e_auto saved w)) in
  (* Check that our sentinel survived the read process *)
  if negb (bool_decide (slot buffer ESIO_FIELD_METADATA_SIZE = Some sentinel))
  then let* _ := ESIO_ERROR_REPORT "detected metadata buffer overflow"
                   ESIO_ESANITY in
       ret (err, None)
  else if 0 <=? err then
    (* ... populate all requested, outgoing arguments *)
    match slot buffer 3, slot buffer 4, slot buffer 5, slot buffer 6,
          slot buffer 7 with
    | Some t, Some nc, Some nb, Some na, Some ncomponents =>
        let m := Metadata t nc nb na ncomponents in
        (* ... sanity check layout_tag's value *)
        if (t <? 0) || (esio_nlayout table <=? t)
        then let* _ := ESIO_ERROR_REPORT
                         "ESIO metadata contains unknown layout_tag"
                         ESIO_ESANITY in
             ret (err, Some m)
        else ret (err, Some m)
    | _, _, _, _, _ => crash
    end
  else ret (err, None).

(** ** The field transfer engine (esio.c) *)

(** [esio_field_create]; [Ok id] is the return of the dataset identifier
    and [Ret code] the return of a status code in its place. *)
Definition esio_field_create (table : list layout) (s : esio_state_s)
    (nc nb na : Z) (name : string) (type_id : h5type) : M V Z :=
  (* Sanity check that the state's layout_tag matches our internal table *)
  let* l := layout_at table (layout_tag s) in
  let* _ := fail_if (negb (tag l =? layout_tag s))
              "SEVERE: Consistency error in esio_layout" ESIO_ESANITY in
  (* Create the filespace using current layout within state *)
  match filespace_creator l nc nb na with
  | None => ESIO_ERROR "Unable to create filespace" ESIO_ESANITY
  | Some filespace =>
      (* Create the dataspace *)
      let* dset_id := io (H5Dcreate1 (file_id s) name type_id filespace) in
      let* _ := fail_if (dset_id <? 0) "Unable to create dataspace"
                  ESIO_ESANITY in
      (* Stash field's metadata *)
      let* status :=
        esio_field_metadata_write (file_id s) name (layout_tag s) nc nb na
          type_id in
      let* _ := fail_if (status <? 0) "Unable to save field's ESIO metadata"
                  ESIO_EFAILED in
      ret dset_id
  end.

Definition esio_field_close (dataset_id : Z) : M V unit :=
  let* r := io (H5Dclose dataset_id) in
  fail_if (r <? 0) "Error closing field" ESIO_EFAILED.

(** The argument checks shared by the write and the read path. *)
Definition check_arguments (s : option esio_state_s) (name : option string)
    (field : option (list V)) (nc cst csz nb bst bsz na ast asz : Z)
    : M V (esio_state_s * string * list V) :=
  match s with
  | None => ESIO_ERROR "s == NULL" ESIO_EINVAL
  | Some s =>
  let* _ := fail_if (file_id s =? -1) "No file currently open" ESIO_EINVAL in
  match name with
  | None => ESIO_ERROR "name == NULL" ESIO_EINVAL
  | Some name =>
  match field with
  | None => ESIO_ERROR "field == NULL" ESIO_EINVAL
  | Some field =>
  let* _ := fail_if (nc  <? 0) "nc < 0"  ESIO_EINVAL in
  let* _ := fail_if (cst <? 0) "cst < 0" ESIO_EINVAL in
  let* _ := fail_if (csz <? 1) "csz < 1" ESIO_EINVAL in
  let* _ := fail_if (nb  <? 0) "nb < 0"  ESIO_EINVAL in
  let* _ := fail_if (bst <? 0) "bst < 0" ESIO_EINVAL in
  let* _ := fail_if (bsz <? 1) "bsz < 1" ESIO_EINVAL in
  let* _ := fail_if (na  <? 0) "na < 0"  ESIO_EINVAL in
  let* _ := fail_if (ast <? 0) "ast < 0" ESIO_EINVAL in
  let* _ := fail_if (asz <? 1) "asz < 1" ESIO_EINVAL in
  ret (s, name, field)
  end end end.

(** [esio_field_write_internal]; [Ok tt] is the return of ESIO_SUCCESS. *)
Definition esio_field_write_internal (table : list layout)
    (s : option esio_state_s) (name : option string) (field : option (list V))
    (nc cst csz nb bst bsz na ast asz : Z) (type_id : h5type) : M V unit :=
  (* Sanity check incoming arguments *)
  let* '(s, name, field) :=
    check_arguments s name field nc cst csz nb bst bsz na ast asz in
  (* Attempt to read metadata for the field (which may or may not exist) *)
  let* '(mstat, m) := esio_field_metadata_read table (file_id s) name in
  if mstat <? 0 then
    (* Field did not exist *)
    (* Create dataset and write it with the active field layout *)
    let* dset_id :=
      call (esio_field_create table s nc nb na name type_id) id in
    let* l := layout_at table (layout_tag s) in
    let* wstat :=
      call (field_writer l dset_id field nc cst csz nb bst bsz na ast asz
              type_id) (fun _ => ESIO_SUCCESS) in
    if negb (wstat =? ESIO_SUCCESS) then
      let* _ := call (esio_field_close dset_id) (fun _ => ESIO_SUCCESS) in
      ESIO_ERROR_VAL "Error writing new field" ESIO_EFAILED wstat
    else
      let* _ := call (esio_field_close dset_id) (fun _ => ESIO_SUCCESS) in
      ret tt
  else
    (* Field already existed *)
    match m with
    | None => crash                       (* the locals were never assigned *)
    | Some m =>
        (* Ensure caller gave correct size information *)
        let* _ := fail_if (negb (nc =? m_nc m))
                    "request nc mismatch with existing field" ESIO_EINVAL in
        let* _ := fail_if (negb (nb =? m_nb m))
                    "request nb mismatch with existing field" ESIO_EINVAL in
        let* _ := fail_if (negb (na =? m_na m))
                    "request na mismatch with existing field" ESIO_EINVAL in
        (* Ensure caller gave type with correct component count *)
        let* ncomponents := call (esio_type_ncomponents type_id) id in
        let* _ := fail_if (negb (ncomponents =? m_ncomponents m))
                    "request ncomponents mismatch with existing field"
                    ESIO_EINVAL in
        (* Open the existing field's dataset *)
        let* dset_id := io (H5Dopen (file_id s) name) in
        let* _ := fail_if (dset_id <? 0) "Unable to open dataset" ESIO_EFAILED in
        (* Check if supplied type can be converted to the field's type *)
        let* d := io (fun w => (dataset_of dset_id w, w)) in
        let* _ :=
          fail_if (negb (from_option (fun d => H5Tfind type_id (ds_type d))
                           false d))
            "request type not convertible to existing field type" ESIO_EINVAL in
        (* Overwrite existing data using layout routines per metadata *)
        let* l := layout_at table (m_layout_tag m) in
        let* wstat :=
          call (field_writer l dset_id field nc cst csz nb bst bsz na ast asz
                  type_id) (fun _ => ESIO_SUCCESS) in
        if negb (wstat =? ESIO_SUCCESS) then
          let* _ := call (esio_field_close dset_id) (fun _ => ESIO_SUCCESS) in
          ESIO_ERROR_VAL "Error writing new field" ESIO_EFAILED wstat
        else
          let* _ := call (esio_field_close dset_id) (fun _ => ESIO_SUCCESS) in
          ret tt
    end.

(** A call whose status the caller drops: the buffer is what the callee
    left, which is the caller's own on an early return. *)
Definition ignore_status (m : M V (list V)) (field : list V) : M V (list V) :=
  fun w =>
    match m w with
    | (Ok field', w') => (Ok field', w')
    | (Ret _, w') => (Ok field, w')
    | (Crash, w') => (Crash, w')
    end.

(** [esio_field_read_internal]; [Ok field'] is the return of ESIO_SUCCESS
    with [field'] in the caller's buffer. *)
Definition esio_field_read_internal (table : list layout)
    (s : option esio_state_s) (name : option string) (field : option (list V))
    (nc cst csz nb bst bsz na ast asz : Z) (type_id : h5type)
    : M V (list V) :=
  (* Sanity check incoming arguments *)
  let* '(s, name, field) :=
    check_arguments s name field nc cst csz nb bst bsz na ast asz in
  (* Read metadata for the field *)
  let* '(status, m) := esio_field_metadata_read table (file_id s) name in
  let* _ := fail_if (status <? 0) "Unable to read field's ESIO metadata"
              ESIO_EFAILED in
  match m with
  | None => crash                         (* the locals were never assigned *)
  | Some m =>
      (* Ensure caller gave correct size information *)
      let* _ := fail_if (negb (nc =? m_nc m))
                  "field read request has incorrect nc" ESIO_EINVAL in
      let* _ := fail_if (negb (nb =? m_nb m))
                  "field read request has incorrect nb" ESIO_EINVAL in
      let* _ := fail_if (negb (na =? m_na m))
                  "field read request has incorrect na" ESIO_EINVAL in
      (* Ensure caller gave type with correct component count *)
      let* ncomponents := call (esio_type_ncomponents type_id) id in
      let* _ := fail_if (negb (ncomponents =? m_ncomponents m))
                  "request ncomponents mismatch with existing field"
                  ESIO_EINVAL in
      (* Open existing dataset *)
      let* dset_id := io (H5Dopen (file_id s) name) in
      let* _ := fail_if (dset_id <? 0) "Unable to open dataset" ESIO_EFAILED in
      (* Check if supplied type can be converted to the field's type *)
      let* d := io (fun w => (dataset_of dset_id w, w)) in
      let* _ :=
        fail_if (negb (from_option (fun d => H5Tfind type_id (ds_type d))
                         false d))
          "request type not convertible to existing field type" ESIO_EINVAL in
      (* Read the field based on the metadata's layout_tag *)
      let* l := layout_at table (m_layout_tag m) in
      let* field' :=
        ignore_status
          (field_reader l dset_id field nc cst csz nb bst bsz na ast asz type_id)
          field in
      (* Close dataset *)
      let* _ := call (esio_field_close dset_id) (fun _ => ESIO_SUCCESS) in
      ret field'
  end.

End Driver.

(** ** esio_c_binding (Fortran) *)

(** A Fortran [character(len=n)] value is the list of its [n] characters;
    a C pointer is [None] when NULL and otherwise the characters in memory
    from the address on, read with [@@]. *)

Definition is_blank (c : ascii) : bool := Ascii.eqb c " "%char.

(** The intrinsic [len_trim]: the length without the trailing blanks. *)
Definition len_trim (f_string : list ascii) : nat :=
  length (drop_while is_blank (rev f_string)).

(** [do i = 1, n; c_string(i) = f_string(i:i); end do], indices from 0. *)
Fixpoint f_c_copy (f_string c_string : list ascii) (i fuel : nat) : list ascii :=
  match fuel with
  | O => c_string
  | S fuel' => f_c_copy f_string (<[i := f_string @@ i]> c_string) (S i) fuel'
  end.

(** [esio_f_c_string]: the result array has [len_trim(f_string)+1]
    elements, each assigned before the function returns. *)
Definition esio_f_c_string (f_string : list ascii) : list ascii :=
  let n := len_trim f_string in
  let c_string := replicate (n + 1) NUL in
  let c_string := f_c_copy f_string c_string 0 n in
  <[n := NUL]> c_string.

(** [do i = 1, n(1); if (tmp_str(i) == c_null_char) exit;
    f_string(i:i) = tmp_str(i); end do], indices from 0. *)
Fixpoint c_f_copy (tmp_str f_string : list ascii) (i fuel : nat) : list ascii :=
  match fuel with
  | O => f_string
  | S fuel' =>
      if is_nul (tmp_str @@ i) then f_string
      else c_f_copy tmp_str (<[i := tmp_str @@ i]> f_string) (S i) fuel'
  end.

(** [esio_c_f_stringcopy]: the pair of [success] and of [f_string] after
    the call. *)
Definition esio_c_f_stringcopy (c_string : option (list ascii))
    (f_string : list ascii) : bool * list ascii :=
  let f_string' := replicate (length f_string) " "%char in  (* f_string = '' *)
  match c_string with
  | Some tmp_str =>
      (true, c_f_copy tmp_str f_string' 0 (length f_string))
  | None => (false, f_string')
  end.

Definition esio_f_c_logical (f_logical : bool) : Z :=
  if f_logical then 1 else 0.

(** ** Vocabulary of the properties *)

#[global] Instance H5T_class_eq_dec : EqDecision H5T_class_t.
Proof. solve_decision. Defined.

Definition h5_numeric (t : h5type) : bool :=
  match H5Tget_class t with
  | H5T_INTEGER | H5T_FLOAT => true
  | _ => false
  end.

(** A conversion table in the driver's style: numeric types convert to
    one another, arrays of equal shape do when their bases do, and any
    other class converts only to itself. *)
Fixpoint numeric_H5Tfind (src dst : h5type) : bool :=
  match src, dst with
  | H5T_array a d1, H5T_array b d2 => bool_decide (d1 = d2) && numeric_H5Tfind a b
  | H5T_array _ _, _ | _, H5T_array _ _ => false
  | H5T_other c1, H5T_other c2 => bool_decide (c1 = c2)
  | _, _ => h5_numeric src && h5_numeric dst
  end.

(** A driver over integer element values whose conversions keep the value:
    the instance at which the properties below are exercised. *)
#[global] Instance Z_hdf5 : Hdf5 Z :=
  {| fill_value := 0;
     H5Tfind := numeric_H5Tfind;
     H5T_convert := fun _ _ v => v;
     H5S_fresh_all := true |}.

(** The laws of the driver the round trip relies on: a type converts to
    itself without change, and conversions exist in both directions or in
    neither. *)
Class Hdf5Laws (V : Type) `{!Hdf5 V} := {
  H5Tfind_refl : ∀ t, H5Tfind t t = true;
  H5Tfind_sym : ∀ a b, H5Tfind a b = H5Tfind b a;
  H5T_convert_same : ∀ t v, H5T_convert t t v = v
}.

(** No live identifier is below [H5I_BASE]: the driver never issues an
    identifier that could be taken for a status code. *)
Definition wf_world {V} (w : world V) : Prop :=
  H5I_BASE ≤ next_id w ∧ ∀ i o, ids w !! i = Some o → H5I_BASE ≤ i.

(** A computation that always runs to its end: no early return, no crash. *)
Definition always_ok {V A} (m : M V A) : Prop :=
  ∀ w, ∃ a w', m w = (Ok a, w').

(** The status a caller sees: [None] when the call does not return. *)
Definition status_of {A} (o : outcome A) : option Z :=
  match o with
  | Ok _ => Some ESIO_SUCCESS
  | Ret c => Some c
  | Crash => None
  end.

(** A world with one container ["a.h5"], open read-write under the first
    identifier, and a handle on it. *)
Definition demo_world : world Z :=
  World {[ "a.h5"%string := ∅ ]} {[ H5I_BASE := ObjFile "a.h5" true ]}
    (H5I_BASE + 1) {[ 91 ]} {[ 92 ]} (7, 0) [] [].

Definition demo_handle : esio_state_s := EsioState 91 0 1 92 H5I_BASE 0.

(** The directory of the rotation scenario: two restart files and the
    newly written one. *)
Definition chk_world : fsworld :=
  FsWorld {[ "."%string :=
               {[ "chk000"%string := "old-chk000"%string;
                  "chk001"%string := "old-chk001"%string;
                  "new"%string := "new"%string ]} ]} [].

(** A directory holding only the newly written file. *)
Definition new_only : fsworld :=
  FsWorld {[ "."%string := {[ "new"%string := "new"%string ]} ]} [].

(** The value of a string of decimal digits. *)
Definition dec_value (d : cstr) : Z :=
  foldl (fun acc c => acc * 10 + digit_value c) 0 d.

Definition hashes (run : nat) : cstr := replicate run "#"%char.

(** The integers of the attribute ["esio_metadata"] of the object [name]
    under the open file [loc], when there is one. *)
Definition stored_metadata {V} (loc : Z) (name : string) (w : world V)
    : option (list Z) :=
  match ids w !! loc with
  | Some (ObjFile path _) => d ← find_dataset path name w; ds_meta d
  | _ => None
  end.

(** The sentinel behind the eight-integer tuple is intact after the
    attribute was read into the scratch buffer. *)
Definition sentinel_intact (data : list Z) : bool :=
  bool_decide (default sentinel (data !! ESIO_FIELD_METADATA_SIZE) = sentinel).

Definition stored_tag_known {V} `{!Hdf5 V} (table : list (layout (V:=V)))
    (data : list Z) : bool :=
  bool_decide (0 ≤ default 0 (data !! 3%nat) < esio_nlayout table).

(** The open container of [demo_world] holding one field ["u"] of extents
    (4, 3, 2) whose metadata names the layout tag [t]. *)
Definition tagged_world (t : Z) : world Z :=
  World {[ "a.h5"%string :=
             {[ "u"%string :=
                  Dataset H5T_NATIVE_DOUBLE [4; 3; 2] ∅
                    (Some [0; 0; 1; t; 4; 3; 2; 1]) ]} ]}
    {[ H5I_BASE := ObjFile "a.h5" true ]}
    (H5I_BASE + 1) {[ 91 ]} {[ 92 ]} (7, 0) [] [].

(** The scratch buffer of [esio_field_metadata_read] after the stored
    integers [meta] were read into it. *)
Definition scratch (meta : list Z) : list (option Z) :=
  (Some <$> meta)
  ++ drop (length meta)
       (replicate ESIO_FIELD_METADATA_SIZE None ++ [Some sentinel]).

(** What [esio_field_metadata_read] comes to, read off the stored
    attribute. *)
Definition metadata_probe {V} `{!Hdf5 V} (table : list (layout (V:=V))) (loc : Z) (name : string)
    (w : world V) : outcome (Z * option metadata) * world V :=
  match stored_metadata loc name w with
  | None => (Ok (-1, None), w)
  | Some data =>
      if (9 <? length data)%nat then (Crash, set_h5e_auto (0, 0) w)
      else if negb (sentinel_intact data) then
        (Ok (0, None), report "detected metadata buffer overflow" ESIO_ESANITY w)
      else
        match data !! 3%nat, data !! 4%nat, data !! 5%nat, data !! 6%nat,
              data !! 7%nat with
        | Some t, Some nc, Some nb, Some na, Some ncomponents =>
            (Ok (0, Some (Metadata t nc nb na ncomponents)),
             if (t <? 0) || (esio_nlayout table <=? t)
             then report "ESIO metadata contains unknown layout_tag" ESIO_ESANITY w
             else w)
        | _, _, _, _, _ => (Crash, w)
        end
  end.

(** A second registry entry, told from layout 0 by what it does: its reader
    hands the buffer back reversed, its writer reports and fails, and
    neither touches the dataset. *)
Definition layout_mirror {V} `{!Hdf5 V} : layout (V:=V) :=
  Layout 1 (fun _ _ _ => None)
    (fun _ _ _ _ _ _ _ _ _ _ _ _ => ESIO_ERROR "mirror" ESIO_EFAILED)
    (fun _ field _ _ _ _ _ _ _ _ _ _ => ret (rev field)).

(** The container of [tagged_world 0] opened read-only, and the same
    container holding the field with an opaque element type. *)
Definition readonly_world : world Z :=
  World {[ "a.h5"%string :=
             {[ "u"%string :=
                  Dataset H5T_NATIVE_DOUBLE [4; 3; 2] ∅
                    (Some [0; 0; 1; 0; 4; 3; 2; 1]) ]} ]}
    {[ H5I_BASE := ObjFile "a.h5" false ]}
    (H5I_BASE + 1) {[ 91 ]} {[ 92 ]} (7, 0) [] [].

Definition opaque_world : world Z :=
  World {[ "a.h5"%string :=
             {[ "u"%string :=
                  Dataset (H5T_other H5T_OPAQUE) [4; 3; 2] ∅
                    (Some [0; 0; 1; 0; 4; 3; 2; 1]) ]} ]}
    {[ H5I_BASE := ObjFile "a.h5" true ]}
    (H5I_BASE + 1) {[ 91 ]} {[ 92 ]} (7, 0) [] [].

Section TransferVocabulary.
Context {V : Type} `{!Hdf5 V}.

(** The run OR-ed into the memory dataspace for the pair [(k, j)]. *)
Definition run_of (cstride bstride astride alocal : Z) (kj : Z * Z)
    : nat * nat * nat :=
  (Z.to_nat (run_start cstride bstride kj), Z.to_nat (hsize_of astride),
   Z.to_nat (hsize_of alocal)).

(** What the kernel of layout 0 comes to when it is handed the
    contiguous strides: the whole buffer of [csz * bsz * asz] elements is
    paired, in order, with the block of the dataset. *)
Definition contiguous_transfer (op : opfunc) (dset_id : Z) (field : list V)
    (cst csz bst bsz ast asz : Z) (type_id : h5type) : M V (list V) :=
  fun w =>
    match ids w !! dset_id with
    | Some (ObjDataset path name writable) =>
        match find_dataset path name w with
        | Some d =>
            let fs := FileSpace (ds_dims d) (cst, bst, ast) (csz, bsz, asz) in
            let pairs :=
              zip (seq 0 (Z.to_nat (csz * bsz * asz))) (file_selected fs) in
            let failed :=
              ESIO_ERROR "Operation failed" ESIO_EFAILED
                (h5_fail "H5Dwrite/H5Dread" w) in
            if negb (length (ds_dims d) =? 3)%nat then
              ESIO_ERROR "Selecting file hyperslab failed" ESIO_EFAILED w
            else if negb (file_valid fs) then failed
            else if (length field <? Z.to_nat (csz * bsz * asz))%nat
            then (Crash, w)
            else
              match op with
              | OpWrite =>
                  if negb (writable && H5Tfind type_id (ds_type d)) then failed
                  else
                    (Ok field,
                     put_dataset path name
                       (Dataset (ds_type d) (ds_dims d)
                          (foldl (store type_id (ds_type d) field)
                             (ds_data d) pairs)
                          (ds_meta d)) w)
              | OpRead =>
                  if negb (H5Tfind (ds_type d) type_id) then failed
                  else
                    (Ok (foldl (load (ds_type d) type_id (ds_data d))
                           field pairs), w)
              end
        | None => (Crash, w)
        end
    | _ => (Crash, w)
    end.

(** The value [esio_type_ncomponents] returns for a type, whatever the
    world: [None] when an assertion fails. *)
Definition type_ncomponents (type_id : h5type) : option Z :=
  match type_id with
  | H5T_array _ dims =>
      n ← one_dimension dims;
      if (0 <? n) && (n <=? INT_MAX) then Some n else None
  | _ =>
      match H5Tget_class type_id with
      | H5T_ENUM | H5T_FLOAT | H5T_INTEGER | H5T_OPAQUE => Some 1
      | H5T_ARRAY => None
      | _ => Some (-1)
      end
  end.

(** The pairing of buffer positions with dataset coordinates made by a
    contiguous transfer. *)
Definition slab_pairs (dims : list Z) (cst csz bst bsz ast asz : Z)
    : list (nat * list Z) :=
  zip (seq 0 (Z.to_nat (csz * bsz * asz)))
    (file_selected (FileSpace dims (cst, bst, ast) (csz, bsz, asz))).

(** The field [name] of the container at [path] is stored under metadata
    naming layout 0 and the extents [(nc, nb, na)], with the local block
    inside them; when [fresh] holds its stored type is [type_id], and when
    [exact] holds the buffer covers the block and the block holds
    [field]. *)
Definition field_stored (exact fresh : Prop) (path name : string)
    (type_id : h5type) (field : list V) (nc cst csz nb bst bsz na ast asz : Z)
    (w : world V) : Prop :=
  ∃ (d : dataset V) (data : list Z) (n : Z) (data0 : gmap (list Z) V),
    find_dataset path name w = Some d
    ∧ ds_meta d = Some data
    ∧ (length data ≤ 9)%nat ∧ sentinel_intact data = true
    ∧ data !! 3%nat = Some 0 ∧ data !! 4%nat = Some nc
    ∧ data !! 5%nat = Some nb ∧ data !! 6%nat = Some na
    ∧ data !! 7%nat = Some n
    ∧ type_ncomponents type_id = Some n
    ∧ H5Tfind type_id (ds_type d) = true
    ∧ (fresh → ds_type d = type_id)
    ∧ length (ds_dims d) = 3%nat
    ∧ file_valid (FileSpace (ds_dims d) (cst, bst, ast) (csz, bsz, asz)) = true
    ∧ (exact →
       (Z.to_nat (csz * bsz * asz) ≤ length field)%nat
       ∧ ds_data d
         = foldl (store type_id (ds_type d) field) data0
             (slab_pairs (ds_dims d) cst csz bst bsz ast asz)).
End TransferVocabulary.

(** The arguments pass the checks at the head of the write and the read
    path. *)
Definition valid_request (file_id nc cst csz nb bst bsz na ast asz : Z) : Prop :=
  file_id ≠ -1 ∧ 0 ≤ nc ∧ 0 ≤ cst ∧ 1 ≤ csz ∧ 0 ≤ nb ∧ 0 ≤ bst ∧ 1 ≤ bsz
  ∧ 0 ≤ na ∧ 0 ≤ ast ∧ 1 ≤ asz.

(** The extents and the starts are values of the C type [int], and the
    local block has at most INT_MAX elements: no product or sum of the
    transfer kernel leaves the [int] range. *)
Definition int_request (nc cst csz nb bst bsz na ast asz : Z) : Prop :=
  nc ≤ INT_MAX ∧ cst ≤ INT_MAX ∧ nb ≤ INT_MAX ∧ bst ≤ INT_MAX
  ∧ na ≤ INT_MAX ∧ ast ≤ INT_MAX ∧ csz * bsz * asz ≤ INT_MAX.

(** The identifiers live after a call are those live before it and at
    most the one issued by it. *)
Definition ids_grow {V} (w w' : world V) : Prop :=
  ∀ i o, ids w' !! i = Some o → ids w !! i = Some o ∨ i = next_id w.

(** The round trip exercised on [demo_world]: a buffer of 24 elements,
    written as the whole field ["u"] of extents (4, 3, 2). *)
Definition demo_field : list Z := seqZ 100 24.

Definition demo_written : world Z :=
  (esio_field_write_internal esio_layout (Some demo_handle) (Some "u"%string)
     (Some demo_field) 4 0 4 3 0 3 2 0 2 H5T_NATIVE_DOUBLE demo_world).2.
Definition demo_closed : world Z :=
  (esio_file_close (Some demo_handle) demo_written).2.
Definition demo_reopened : world Z :=
  (esio_file_open (Some (set_file_id demo_handle (-1))) (Some "a.h5"%string)
     false demo_closed).2.

(** A character of a file name that is neither the terminator nor a
    ['#']. *)
Definition plain (c : ascii) : Prop := c ≠ NUL ∧ c ≠ "#"%char.

(** The value of [j] when the loop looking for the final ['#'] has run
    over [b], starting at index [k]. *)
Fixpoint last_hash (b : cstr) (j k : nat) : nat :=
  match b with
  | [] => j
  | c :: b' => last_hash b' (if is_hash c then k else j) (S k)
  end.

(** The position, in a buffer holding the block that starts at
    [(cst, bst, ast)] with [bsz] by [asz] elements in the two faster
    directions, of the element of coordinates [(k, j, i)]. *)
Definition slab_index (cst bst bsz ast asz k j i : Z) : nat :=
  Z.to_nat (((k - cst) * bsz + (j - bst)) * asz + (i - ast)).

(** A computation keeps the property [I] of the world, however it ends. *)
Definition preserves {V A} (I : world V → Prop) (m : M V A) : Prop :=
  ∀ w, I w → I (m w).2.

(** The property [I] does not depend on the error log, on the record of the
    driver's handler runs, or on which handler is installed. *)
Definition log_blind {V} (I : world V → Prop) : Prop :=
  ∀ w reason code call h,
    I w → I (report reason code w) ∧ I (h5_fail call w) ∧ I (set_h5e_auto h w).

(** ** The rest of the public interface (esio.c) *)

Section PublicInterface.
Context {V : Type} `{!Hdf5 V}.

(** [ESIO_FIELD_WRITE_SCALAR] and [ESIO_FIELD_READ_SCALAR]: the typed entry
    points, one per element type. *)
Definition esio_field_write_double (s : option esio_state_s)
    (name : option string) (field : option (list V))
    (nc cst csz nb bst bsz na ast asz : Z) : M V unit :=
  esio_field_write_internal esio_layout s name field
    nc cst csz nb bst bsz na ast asz H5T_NATIVE_DOUBLE.

Definition esio_field_write_float (s : option esio_state_s)
    (name : option string) (field : option (list V))
    (nc cst csz nb bst bsz na ast asz : Z) : M V unit :=
  esio_field_write_internal esio_layout s name field
    nc cst csz nb bst bsz na ast asz H5T_NATIVE_FLOAT.

Definition esio_field_read_double (s : option esio_state_s)
    (name : option string) (field : option (list V))
    (nc cst csz nb bst bsz na ast asz : Z) : M V (list V) :=
  esio_field_read_internal esio_layout s name field
    nc cst csz nb bst bsz na ast asz H5T_NATIVE_DOUBLE.

Definition esio_field_read_float (s : option esio_state_s)
    (name : option string) (field : option (list V))
    (nc cst csz nb bst bsz na ast asz : Z) : M V (list V) :=
  esio_field_read_internal esio_layout s name field
    nc cst csz nb bst bsz na ast asz H5T_NATIVE_FLOAT.

(** [if (p) *p = metadata[i];]: [Some v] when the pointer is not NULL and
    [v] was assigned through it. Reading a slot of the scratch buffer that
    nothing initialised is undefined behaviour. *)
Definition populate (p : bool) (buffer : list (option Z)) (i : nat)
    : M V (option Z) :=
  if p then
    match slot buffer i with
    | Some v => ret (Some v)
    | None => crash
    end
  else ret None.

(** [esio_field_metadata_read] for any choice of NULL outgoing pointers
    ([false] is NULL): [Ok (err, outs)] is the return of the herr_t [err]
    with the values assigned through the pointers. *)
Definition esio_field_metadata_read_into (table : list (layout (V:=V))) (loc_id : Z)
    (name : string) (layout_tag nc nb na ncomponents : bool)
    : M V (Z * (option Z * option Z * option Z * option Z * option Z)) :=
  let untouched := (None, None, None, None, None) in
  (* Obtain current HDF5 error handler *)
  let* saved := io (fun w => (h5e_auto w, w)) in
  (* Disable HDF5 error handler during metadata read *)
  let* _ := io (fun w => (tt, set_h5e_auto (0, 0) w)) in
  (* Employ a sentinel to balk if/when we accidentally blow out the buffer *)
  let buffer := replicate ESIO_FIELD_METADATA_SIZE None ++ [Some sentinel] in
  (* Read the metadata into the buffer *)
  let* '(err, buffer) := H5LTget_attribute_int loc_id name buffer in
  (* Re-enable the HDF5 error handler *)
  let* _ := io (fun w => (tt, set_h5e_auto saved w)) in
  (* Check that our sentinel survived the read process *)
  if negb (bool_decide (slot buffer ESIO_FIELD_METADATA_SIZE = Some sentinel))
  then let* _ := ESIO_ERROR_REPORT "detected metadata buffer overflow"
                   ESIO_ESANITY in
       ret (err, untouched)
  else if 0 <=? err then
    (* ... populate all requested, outgoing arguments *)
    let* o_tag := populate layout_tag buffer 3 in
    let* o_nc := populate nc buffer 4 in
    let* o_nb := populate nb buffer 5 in
    let* o_na := populate na buffer 6 in
    let* o_ncomponents := populate ncomponents buffer 7 in
    (* ... sanity check layout_tag's value *)
    match slot buffer 3 with
    | Some t =>
        if (t <? 0) || (esio_nlayout table <=? t)
        then let* _ := ESIO_ERROR_REPORT
                         "ESIO metadata contains unknown layout_tag"
                         ESIO_ESANITY in
             ret (err, (o_tag, o_nc, o_nb, o_na, o_ncomponents))
        else ret (err, (o_tag, o_nc, o_nb, o_na, o_ncomponents))
    | None => crash
    end
  else ret (err, untouched).

(** [esio_field_size]: [nc], [nb] and [na] are the outgoing pointers, [None]
    when NULL and otherwise the value they point to before the call;
    [Ok (c, b, a)] is the return of ESIO_SUCCESS with those values behind
    the three pointers. *)
Definition esio_field_size (table : list (layout (V:=V))) (s : option esio_state_s)
    (name : option string) (nc nb na : option Z) : M V (Z * Z * Z) :=
  (* Sanity check incoming arguments *)
  match s with
  | None => ESIO_ERROR "s == NULL" ESIO_EINVAL
  | Some s =>
  let* _ := fail_if (file_id s =? -1) "No file currently open" ESIO_EINVAL in
  match name with
  | None => ESIO_ERROR "name == NULL" ESIO_EINVAL
  | Some name =>
  match nc with
  | None => ESIO_ERROR "nc == NULL" ESIO_EINVAL
  | Some nc0 =>
  match nb with
  | None => ESIO_ERROR "nb == NULL" ESIO_EINVAL
  | Some nb0 =>
  match na with
  | None => ESIO_ERROR "na == NULL" ESIO_EINVAL
  | Some na0 =>
  let* '(status, (_, o_nc, o_nb, o_na, _)) :=
    esio_field_metadata_read_into table (file_id s) name
      false true true true false in
  let* _ := fail_if (status <? 0) "Unable to open field's ESIO metadata"
              ESIO_EFAILED in
  ret (default nc0 o_nc, default nb0 o_nb, default na0 o_na)
  end end end end end.

End PublicInterface.

(** ** Handle creation (esio.c) *)

(** What the message layer knows of its communicators besides which are
    live: their names, and the size of the group with the rank of the
    calling process in it. *)
Record mpi_state := MpiState {
  comm_names : gmap Z string;
  comm_groups : gmap Z (Z * Z)
}.

Definition MPI_ERR_COMM : Z := 5.

Section HandleCreation.
Context {V : Type} `{!Hdf5 V}.
Implicit Types (w : world V) (st : mpi_state).

(** [MPI_Comm_get_name(comm, buffer, &resultlen)]: a communicator never
    named has the empty name. The result is the status and the name. *)
Definition MPI_Comm_get_name (c : Z) st w : Z * string :=
  if decide (c ∈ comms w) then (MPI_SUCCESS, default EmptyString (comm_names st !! c))
  else (MPI_ERR_COMM, EmptyString).

(** [MPI_Comm_dup(comm, &newcomm)]: a new live communicator over the same
    group; the name is not copied. *)
Definition MPI_Comm_dup (c : Z) st w : Z * Z * mpi_state * world V :=
  if decide (c ∈ comms w) then
    let c' := fresh ({[MPI_COMM_NULL]} ∪ comms w) in
    (MPI_SUCCESS, c',
     MpiState (delete c' (comm_names st))
       (match comm_groups st !! c with
        | Some g => <[c' := g]> (comm_groups st)
        | None => delete c' (comm_groups st)
        end),
     set_mpi ({[c']} ∪ comms w) (infos w) w)
  else (MPI_ERR_COMM, MPI_COMM_NULL, st, w).

Definition MPI_Comm_set_name (c : Z) (name : string) st w : Z * mpi_state :=
  if decide (c ∈ comms w)
  then (MPI_SUCCESS, MpiState (<[c := name]> (comm_names st)) (comm_groups st))
  else (MPI_ERR_COMM, st).

Definition MPI_Comm_size (c : Z) st w : Z * Z :=
  match decide (c ∈ comms w), comm_groups st !! c with
  | left _, Some (size, _) => (MPI_SUCCESS, size)
  | _, _ => (MPI_ERR_COMM, 0)
  end.

Definition MPI_Comm_rank (c : Z) st w : Z * Z :=
  match decide (c ∈ comms w), comm_groups st !! c with
  | left _, Some (_, rank) => (MPI_SUCCESS, rank)
  | _, _ => (MPI_ERR_COMM, 0)
  end.

Definition MPI_Info_create w : Z * Z * world V :=
  let i := fresh ({[MPI_INFO_NULL]} ∪ infos w) in
  (MPI_SUCCESS, i, set_mpi (comms w) ({[i]} ∪ infos w) w).

(** The world after [ESIO_MPICHKR(stat)]. *)
Definition mpichkr (stat : Z) w : world V := (ESIO_MPICHKR stat w).2.

(** [esio_MPI_Comm_dup_with_name]: the communicator returned, with the
    message layer and the world after the call. *)
Definition esio_MPI_Comm_dup_with_name (comm : Z) st w
    : Z * mpi_state * world V :=
  if comm =? MPI_COMM_NULL then (MPI_COMM_NULL, st, w)
  else
    let '(get_name_error, buffer) := MPI_Comm_get_name comm st w in
    if negb (get_name_error =? 0) then
      (MPI_COMM_NULL, st, mpichkr get_name_error w)
    else
      let '(dup_error, retval, st, w) := MPI_Comm_dup comm st w in
      if negb (dup_error =? 0) then (MPI_COMM_NULL, st, mpichkr dup_error w)
      else if (0 <? String.length buffer)%nat then
        let '(set_name_error, st') := MPI_Comm_set_name retval buffer st w in
        if negb (set_name_error =? 0) then
          let w := mpichkr set_name_error w in
          let '(r, w) := MPI_Comm_free retval w in
          (MPI_COMM_NULL, st', mpichkr r w)
        else (retval, st', w)
      else (retval, st, w).

(** [esio_init]: the handle returned ([None] is NULL), with the message
    layer and the world after the call. Modelled from the spec: error.h is
    not among the sources; [ESIO_ERROR_NULL] calls the hook and returns
    NULL, and [ESIO_MPICHKN] does so when the MPI call failed. [calloc] is
    taken to succeed. *)
Definition esio_init (comm : Z) st w
    : option esio_state_s * mpi_state * world V :=
  (* Sanity check incoming arguments *)
  if comm =? MPI_COMM_NULL then
    (None, st, report "comm == MPI_COMM_NULL required" ESIO_EINVAL w)
  else
    (* Get number of processors and the local rank within the communicator *)
    let '(e, comm_size) := MPI_Comm_size comm st w in
    if negb (e =? MPI_SUCCESS) then
      (None, st, report "Encountered MPI error" ESIO_EFAILED w)
    else
      let '(e, comm_rank) := MPI_Comm_rank comm st w in
      if negb (e =? MPI_SUCCESS) then
        (None, st, report "Encountered MPI error" ESIO_EFAILED w)
      else
        (* Initialize an MPI Info instance *)
        let '(e, info, w) := MPI_Info_create w in
        if negb (e =? MPI_SUCCESS) then
          (None, st, report "Encountered MPI error" ESIO_EFAILED w)
        else
          (* Create and initialize ESIO's opaque state struct *)
          let '(c, st, w) := esio_MPI_Comm_dup_with_name comm st w in
          let s := EsioState c comm_rank comm_size info (-1) 0 in
          if c =? MPI_COMM_NULL then
            let w := (esio_finalize (Some s) w).2 in
            (None, st, report "Detected MPI_COMM_NULL in s->comm" ESIO_ESANITY w)
          else (Some s, st, w).

End HandleCreation.

(** The message layer of [demo_world]: its communicator 91 is named, has
    four processes, and the caller is the third. *)
Definition demo_mpi : mpi_state :=
  MpiState {[91 := "solver"%string]} {[91 := (4, 2)]}.

(** * Properties *)

(** ** Handle and file lifecycle *)

Section Lifecycle.
Context {V : Type} `{!Hdf5 V}.
Implicit Types (w : world V) (s : esio_state_s).

Lemma file_close_ok_inv s w s1 w1 :
  esio_file_close (Some s) w = (Ok s1, w1) →
  s1 = set_file_id s (-1) ∧ disk w1 = disk w ∧ errors w1 = errors w
  ∧ ∃ path rw, ids w !! file_id s = Some (ObjFile path rw).
Proof.
  unfold esio_file_close, bind, fail_if, io, ret, ESIO_ERROR, H5Fclose.
  destruct (file_id s =? -1); [discriminate|].
  destruct (ids w !! file_id s) as [[path rw|]|] eqn:E; simpl;
    intros H; inversion H; subst; eauto 10.
Qed.

(** After a successful close the handle holds no file, so a second close
    is answered with ESIO_EINVAL through the error hook. *)
Lemma file_close_second s w s1 w1 :
  esio_file_close (Some s) w = (Ok s1, w1) →
  esio_file_close (Some s1) w1
  = (Ret ESIO_EINVAL, report "No file currently open" ESIO_EINVAL w1).
Proof.
  intros H. apply file_close_ok_inv in H as (-> & _). reflexivity.
Qed.

End Lifecycle.

(** C6 (the code against its test): closing the open file of
    [demo_handle] returns ESIO_SUCCESS, and closing again returns
    ESIO_EINVAL, where file_create_and_open expects 0 twice. *)
Theorem file_close_twice_returns_einval :
  ∃ s1 w1,
    esio_file_close (Some demo_handle) demo_world = (Ok s1, w1)
    ∧ status_of (esio_file_close (Some s1) w1).1 = Some ESIO_EINVAL
    ∧ ESIO_EINVAL ≠ 0.
Proof.
  eexists _, _. split; [reflexivity|]. split; [reflexivity|]. discriminate.
Qed.

Section Finalize.
Context {V : Type} `{!Hdf5 V}.
Implicit Types (w : world V) (s : esio_state_s).

Lemma always_ok_ret {A} (a : A) : always_ok (V:=V) (ret a).
Proof. intros w. by eexists _, _. Qed.

Lemma always_ok_bind {A B} (m : M V A) (f : A → M V B) :
  always_ok m → (∀ a, always_ok (f a)) → always_ok (bind m f).
Proof.
  intros Hm Hf w. destruct (Hm w) as (a & w' & E).
  unfold bind. rewrite E. apply Hf.
Qed.

Lemma always_ok_io {A} (f : world V → A * world V) : always_ok (io f).
Proof. intros w. unfold io. destruct (f w). by eexists _, _. Qed.

(** Whatever a called function returns, the caller that inspects its
    status goes on. *)
Lemma always_ok_call {A} (m : M V A) (success : A → Z) :
  (∀ w, (m w).1 ≠ Crash) → always_ok (call m success).
Proof.
  intros H w. specialize (H w). unfold call.
  destruct (m w) as [[a|c|] w']; simpl in *; [by eexists _, _ ..|congruence].
Qed.

Lemma file_close_returns (h : option esio_state_s) w :
  (esio_file_close h w).1 ≠ Crash.
Proof.
  destruct h as [s|]; [|discriminate].
  unfold esio_file_close, bind, fail_if, io, ret, ESIO_ERROR.
  destruct (file_id s =? -1); [discriminate|].
  destruct (H5Fclose (file_id s) w) as [r w']. simpl.
  destruct (r <? 0); discriminate.
Qed.

Lemma always_ok_mpichkr (stat : Z) : always_ok (V:=V) (ESIO_MPICHKR stat).
Proof.
  intros w. unfold ESIO_MPICHKR, ESIO_ERROR_REPORT, ret.
  destruct (stat =? MPI_SUCCESS); by eexists _, _.
Qed.

(** C9: finalize on the NULL handle returns ESIO_SUCCESS and leaves the
    whole world, the log of the error hook included, as it was; on any
    handle and in any world finalize returns ESIO_SUCCESS, whatever
    closing the file and freeing the communicator and the info object
    report. *)
Theorem finalize_returns_success (h : option esio_state_s) w :
  esio_finalize None w = (Ok tt, w)
  ∧ ∃ w', esio_finalize h w = (Ok tt, w').
Proof.
  split; [reflexivity|].
  assert (always_ok (esio_finalize (V:=V) h)) as Hok.
  { destruct h as [s|]; [|apply always_ok_ret]. unfold esio_finalize.
    repeat first
      [ apply always_ok_ret | apply always_ok_io | apply always_ok_mpichkr
      | apply always_ok_call; apply file_close_returns
      | apply always_ok_bind; [|intros ?]
      | match goal with |- always_ok (if ?b then _ else _) => destruct b end ]. }
  destruct (Hok w) as ([] & w' & E). eauto.
Qed.

End Finalize.

(** ** Restart rotation *)

(** C3 (the code against the documented rotation): with ["chk###"] and
    [keep = 3] the three renames happen in the documented order, but the
    index is printed with [%*d], which pads with blanks: the files end up
    as ["chk  0"], ["chk  1"], ["chk  2"], and no file is named
    ["chk000"], ["chk001"] or ["chk002"]. *)
Theorem restart_rename_keep3_blank_padded :
  restart_rename (Some (chars "new")) (Some (chars "chk###")) 3 chk_world
  = (ESIO_SUCCESS,
     FsWorld {[ "."%string :=
                  {[ "chk  0"%string := "new"%string;
                     "chk  1"%string := "old-chk000"%string;
                     "chk  2"%string := "old-chk001"%string ]} ]} []).
Proof. vm_compute. reflexivity. Qed.

(** With ["chk#"] and [keep = 1000] the field width is 3, not 4, and no
    file named ["chk0000"] is produced. *)
Lemma restart_width_keep1000_is_not_4 :
  ¬ (index_width 1 1000 = 4
     ∧ fs_lookup (chars "chk0000")
         (restart_rename (Some (chars "new")) (Some (chars "chk#")) 1000
            new_only).2 = Some "new"%string).
Proof. intros [H _]. vm_compute in H. discriminate. Qed.

Lemma ceil_log10_from_spec (m : Z) (fuel : nat) :
  ∀ n, 0 ≤ n → m ≤ 10 ^ (n + Z.of_nat fuel) →
    n ≤ ceil_log10_from m n fuel
    ∧ m ≤ 10 ^ ceil_log10_from m n fuel
    ∧ (n < ceil_log10_from m n fuel → 10 ^ (ceil_log10_from m n fuel - 1) < m).
Proof.
  induction fuel as [|fuel IH]; intros n Hn Hm; simpl.
  - rewrite Z.add_0_r in Hm. lia.
  - destruct (Z.leb_spec m (10 ^ n)) as [Hle|Hgt]; [lia|].
    destruct (IH (n + 1)) as (H1 & H2 & H3); [lia| |].
    + replace (n + 1 + Z.of_nat fuel) with (n + Z.of_nat (S fuel)) by lia. done.
    + split; [lia|]. split; [done|]. intros _.
      destruct (decide (ceil_log10_from m (n + 1) fuel = n + 1)) as [->|Hne].
      * replace (n + 1 - 1) with n by lia. done.
      * apply H3. lia.
Qed.

(** [ceil_log10 m] is the least exponent [n] with [m <= 10^n]. *)
Lemma ceil_log10_spec (m : Z) :
  0 ≤ ceil_log10 m
  ∧ m ≤ 10 ^ ceil_log10 m
  ∧ (0 < ceil_log10 m → 10 ^ (ceil_log10 m - 1) < m).
Proof.
  unfold ceil_log10. apply ceil_log10_from_spec; [done|].
  destruct (Z.le_gt_cases 0 m) as [Hm|Hm].
  - rewrite Z.add_0_l, Z2Nat.id by done.
    pose proof (Z.pow_gt_lin_r 10 m). lia.
  - pose proof (Z.pow_nonneg 10 (0 + Z.of_nat (Z.to_nat m))). lia.
Qed.

Lemma take_while_app_stop {A} (p : A → bool) (l1 l2 : list A) :
  Forall (λ x, p x = true) l1 → head (p <$> l2) ≠ Some true →
  take_while p (l1 ++ l2) = l1 ∧ drop_while p (l1 ++ l2) = l2.
Proof.
  intros Hl1 Hl2. induction Hl1 as [|x l1 Hx _ [IH1 IH2]]; simpl.
  - destruct l2 as [|y l2]; [done|]. simpl in *.
    destruct (p y); [congruence|done].
  - rewrite Hx, IH1, IH2. done.
Qed.

(** The template splits at its run of ['#']. *)
Lemma split_template_run (prefix suffix : cstr) (run : nat) :
  Forall (λ c, is_hash c = false) prefix → (0 < run)%nat →
  head (is_hash <$> suffix) ≠ Some true →
  split_template (prefix ++ hashes run ++ suffix)
  = Some (prefix, Z.of_nat run, suffix).
Proof.
  intros Hp Hrun Hs. unfold split_template.
  destruct (take_while_app_stop not_hash prefix (hashes run ++ suffix))
    as [-> ->].
  - eapply Forall_impl; [exact Hp|]. intros c Hc. unfold not_hash. by rewrite Hc.
  - destruct run; [lia|]. simpl. unfold not_hash. simpl. congruence.
  - destruct (take_while_app_stop is_hash (hashes run) suffix) as [-> ->];
      [apply Forall_replicate; done|done|].
    unfold hashes. rewrite length_replicate.
    destruct run; [lia|]. done.
Qed.

(** C7, amended: the field width is the larger of the length of the ['#']
    run and [ceil(log10(keep-1))], the least [n] with [keep-1 <= 10^n]
    (for [keep = 1] this is the run itself). With ["chk#"] and
    [keep = 1000] the width is 3, and the source file is renamed to
    ["chk"], two characters of padding, and ["0"]. *)
Theorem restart_index_width (run keep : Z) :
  1 ≤ run → 1 ≤ keep →
  index_width run keep = Z.max run (ceil_log10 (keep - 1))
  ∧ keep - 1 ≤ 10 ^ ceil_log10 (keep - 1)
  ∧ (0 < ceil_log10 (keep - 1) → 10 ^ (ceil_log10 (keep - 1) - 1) < keep - 1)
  ∧ split_template (chars "chk#") = Some (chars "chk", 1, [])
  ∧ index_width 1 1000 = 3
  ∧ ∃ pad w',
      restart_rename (Some (chars "new")) (Some (chars "chk#")) 1000 new_only
      = (ESIO_SUCCESS, w')
      ∧ length pad = 2%nat
      ∧ fs_lookup (chars "chk" ++ pad ++ chars "0") w' = Some "new"%string
      ∧ fs_lookup (chars "new") w' = None.
Proof.
  intros Hrun Hkeep.
  destruct (ceil_log10_spec (keep - 1)) as (H0 & H1 & H2).
  split; [|split; [done|split; [done|]]].
  - unfold index_width. destruct (Z.eqb_spec keep 1) as [->|Hne].
    + change (ceil_log10 (1 - 1)) with 0.
      destruct (Z.ltb_spec 1 run); lia.
    + destruct (Z.ltb_spec (ceil_log10 (keep - 1)) run); lia.
  - split; [reflexivity|]. split; [reflexivity|].
    exists (chars "  "). eexists. split; [vm_compute; reflexivity|].
    split; [reflexivity|]. split; vm_compute; reflexivity.
Qed.

Lemma restart_index_width_witness :
  index_width 1 1000 = Z.max 1 (ceil_log10 (1000 - 1)).
Proof. apply (restart_index_width 1 1000); lia. Defined.

(** ** restart_nextindex *)

(** C4 (the code against its documentation): for the template ["chk#0"],
    whose single run of ['#'] is followed by a digit, the name obtained by
    substituting ["1"] is answered with 0 and not with 2: strtoul reads on
    into the suffix. The same answer 0 is given whatever the digits are. *)
Theorem nextindex_digit_suffix_rejected :
  restart_nextindex (chars "chk#0") (chars "chk10") (-1) = 0
  ∧ dec_value (chars "1") + 1 = 2
  ∧ restart_nextindex (chars "chk#0") (chars "chk70") (-1) = 0.
Proof. repeat split; vm_compute; reflexivity. Qed.

(** C10 (the code against its documentation): the forward scan does not
    stop at the template's first ['#'] when the name has a ['#'] there too.
    A name whose character at that position is ['#'], not a digit, is
    answered with 6 against ["chk##"], and the template itself, taken as a
    name, with [errval]. *)
Theorem nextindex_hash_in_name_accepted :
  chars "chk#5" @@ 3 = "#"%char
  ∧ isdigit (chars "chk#5" @@ 3) = false
  ∧ restart_nextindex (chars "chk##") (chars "chk#5") (-1) = 6
  ∧ restart_nextindex (chars "chk#") (chars "chk#") (-1) = -1.
Proof. repeat split; vm_compute; reflexivity. Qed.

(** *** Names made from the template *)

Lemma char_at_eq (s : list ascii) (i : nat) : s @@ i = default NUL (s !! i).
Proof. done. Qed.

Lemma char_at_app_l (a b : cstr) (i : nat) :
  (i < length a)%nat → (a ++ b) @@ i = a @@ i.
Proof. intros Hi. rewrite !char_at_eq. by rewrite lookup_app_l. Qed.

Lemma char_at_app_r (a b : cstr) (i : nat) :
  (a ++ b) @@ (length a + i) = b @@ i.
Proof.
  rewrite !char_at_eq. rewrite lookup_app_r by lia. do 2 f_equal. lia.
Qed.

Lemma char_at_app_0 (a b : cstr) : (a ++ b) @@ (length a) = b @@ 0.
Proof. rewrite <-(Nat.add_0_r (length a)) at 1. apply char_at_app_r. Qed.

Lemma char_at_end (a : cstr) : a @@ (length a) = NUL.
Proof. rewrite char_at_eq. by rewrite (proj2 (lookup_ge_None a (length a))). Qed.

Lemma char_at_Forall (P : ascii → Prop) (a : cstr) (i : nat) :
  Forall P a → (i < length a)%nat → P (a @@ i).
Proof.
  intros Ha Hi. rewrite char_at_eq.
  destruct (lookup_lt_is_Some_2 a i Hi) as [c Hc]. rewrite Hc. simpl.
  by eapply Forall_lookup_1.
Qed.

Lemma is_nul_false (c : ascii) : c ≠ NUL → is_nul c = false.
Proof. intros Hc. unfold is_nul. by destruct (Ascii.eqb_spec c NUL). Qed.

Lemma is_hash_false (c : ascii) : c ≠ "#"%char → is_hash c = false.
Proof. intros Hc. unfold is_hash. by destruct (Ascii.eqb_spec c "#"). Qed.

Lemma isdigit_plain (c : ascii) :
  isdigit c = true →
  plain c ∧ isspace c = false ∧ c ≠ "-"%char ∧ c ≠ "+"%char
  ∧ 0 ≤ digit_value c ≤ 9.
Proof.
  intros Hd. repeat split; try (intros ->; discriminate Hd).
  - unfold isdigit in Hd. unfold isspace.
    apply andb_true_iff in Hd as [H1 H2].
    apply Nat.leb_le in H1, H2.
    apply orb_false_iff. split.
    + apply andb_false_iff. right. apply Nat.leb_gt. lia.
    + apply Nat.eqb_neq. lia.
  - unfold isdigit in Hd. apply andb_true_iff in Hd as [H1 _].
    apply Nat.leb_le in H1. unfold digit_value. lia.
  - unfold isdigit in Hd. apply andb_true_iff in Hd as [_ H2].
    apply Nat.leb_le in H2. unfold digit_value. lia.
Qed.

Lemma advance_both_prefix (p t n : cstr) (i fuel : nat) :
  Forall (λ c, c ≠ NUL) p →
  negb (is_nul (t @@ 0)) && negb (is_nul (n @@ 0))
    && Ascii.eqb (t @@ 0) (n @@ 0) = false →
  (i ≤ length p)%nat → (length p - i < fuel)%nat →
  advance_both (p ++ t) (p ++ n) i fuel = length p.
Proof.
  intros Hp Hstop. revert i. induction fuel as [|fuel IH]; intros i Hi Hf; [lia|].
  simpl. destruct (decide (i = length p)) as [->|Hne].
  - by rewrite !char_at_app_0, Hstop.
  - rewrite !char_at_app_l by lia.
    rewrite is_nul_false by (apply (char_at_Forall (λ c, c ≠ NUL)); [done|lia]).
    rewrite Ascii.eqb_refl. simpl. apply IH; lia.
Qed.

Lemma final_hash_eq (a b : cstr) (j fuel : nat) :
  Forall (λ c, c ≠ NUL) b → (length b ≤ fuel)%nat →
  final_hash (a ++ b) j (length a) fuel
  = (last_hash b j (length a), (length a + length b)%nat).
Proof.
  revert a j fuel. induction b as [|c b IH]; intros a j fuel Hb Hf.
  - rewrite app_nil_r. simpl. rewrite Nat.add_0_r.
    destruct fuel; simpl; [done|]. by rewrite char_at_end.
  - destruct fuel as [|fuel]; simpl in Hf; [lia|].
    apply Forall_cons in Hb as [Hc Hb].
    simpl. rewrite char_at_app_0. change ((c :: b) @@ 0) with c.
    rewrite is_nul_false by done. simpl.
    replace (a ++ c :: b) with ((a ++ [c]) ++ b) by by rewrite <-app_assoc.
    replace (S (length a)) with (length (a ++ [c]))
      by (rewrite length_app; simpl; lia).
    rewrite IH by (done || lia). f_equal. rewrite length_app. simpl. lia.
Qed.

Lemma last_hash_plain (s : cstr) (j k : nat) :
  Forall plain s → last_hash s j k = j.
Proof.
  revert j k. induction s as [|c s IH]; intros j k Hs; [done|].
  apply Forall_cons in Hs as [[_ Hc] Hs]. simpl.
  rewrite is_hash_false by done. by apply IH.
Qed.

Lemma last_hash_hashes (r : nat) (s : cstr) (j k : nat) :
  Forall plain s →
  last_hash (hashes r ++ s) j k = if r is O then j else (k + r - 1)%nat.
Proof.
  intros Hs. revert j k. induction r as [|r IH]; intros j k.
  - by apply last_hash_plain.
  - simpl. rewrite IH. destruct r; lia.
Qed.

Lemma advance_end_eq (a b : cstr) (fuel : nat) :
  Forall (λ c, c ≠ NUL) b → (length b ≤ fuel)%nat →
  advance_end (a ++ b) (length a) fuel = (length a + length b)%nat.
Proof.
  revert a fuel. induction b as [|c b IH]; intros a fuel Hb Hf.
  - rewrite app_nil_r. simpl. rewrite Nat.add_0_r.
    destruct fuel; simpl; [done|]. by rewrite char_at_end.
  - destruct fuel as [|fuel]; simpl in Hf; [lia|].
    apply Forall_cons in Hb as [Hc Hb].
    simpl. rewrite char_at_app_0. change ((c :: b) @@ 0) with c.
    rewrite is_nul_false by done. simpl.
    replace (a ++ c :: b) with ((a ++ [c]) ++ b) by by rewrite <-app_assoc.
    replace (S (length a)) with (length (a ++ [c]))
      by (rewrite length_app; simpl; lia).
    rewrite IH by (done || lia). rewrite length_app. simpl. lia.
Qed.

Lemma scan_back_suffix (t n s : cstr) (i m fuel : nat) :
  (1 ≤ length t)%nat → (i < length n)%nat →
  (m ≤ length s)%nat → (m < fuel)%nat →
  scan_back (t ++ s) (n ++ s) (length t - 1) i (length t + m) (length n + m) fuel
  = ((length t - 1)%nat, (length n - 1)%nat).
Proof.
  intros Ht Hn. revert fuel. induction m as [|m IH]; intros fuel Hm Hf.
  - destruct fuel as [|fuel]; [lia|]. simpl.
    rewrite !Nat.add_0_r, !char_at_app_0, Ascii.eqb_refl.
    destruct (Nat.ltb_spec (length t - 1) (length t)); [|lia].
    destruct (Nat.ltb_spec i (length n)); [|lia]. simpl.
    destruct fuel as [|fuel]; [done|]. simpl.
    by rewrite Nat.ltb_irrefl.
  - destruct fuel as [|fuel]; [lia|]. simpl.
    rewrite !char_at_app_r, Ascii.eqb_refl.
    destruct (Nat.ltb_spec (length t - 1) (length t + S m)); [|lia].
    destruct (Nat.ltb_spec i (length n + S m)); [|lia]. simpl.
    replace (length t + S m - 1)%nat with (length t + m)%nat by lia.
    replace (length n + S m - 1)%nat with (length n + m)%nat by lia.
    apply IH; lia.
Qed.

Lemma strtoul_digits_run (a d s : cstr) (acc : Z) (ovf : bool) (fuel : nat) :
  Forall (λ c, isdigit c = true) d → isdigit (s @@ 0) = false →
  (length d ≤ fuel)%nat → 0 ≤ acc → (ovf = true → ULONG_MAX < acc) →
  ∃ ovf',
    strtoul_digits (a ++ d ++ s) (length a) acc ovf fuel
    = (foldl (λ acc c, acc * 10 + digit_value c) acc d, ovf',
       (length a + length d)%nat)
    ∧ (ovf' = true → ULONG_MAX < foldl (λ acc c, acc * 10 + digit_value c) acc d).
Proof.
  intros Hd Hs. revert a acc ovf fuel.
  induction Hd as [|c d Hc Hd IH]; intros a acc ovf fuel Hf Hacc Hovf.
  - exists ovf. simpl. rewrite Nat.add_0_r. split; [|done].
    destruct fuel; simpl; [done|]. by rewrite char_at_app_0, Hs.
  - destruct fuel as [|fuel]; simpl in Hf; [lia|].
    destruct (isdigit_plain c Hc) as (_ & _ & _ & _ & Hv).
    cbn [strtoul_digits foldl length]. rewrite char_at_app_0.
    change (((c :: d) ++ s) @@ 0) with c. rewrite Hc.
    replace (a ++ (c :: d) ++ s) with ((a ++ [c]) ++ d ++ s)
      by by rewrite <-app_assoc.
    replace (S (length a)) with (length (a ++ [c]))
      by (rewrite length_app; simpl; lia).
    destruct (IH (a ++ [c]) (acc * 10 + digit_value c)
                (ovf || (ULONG_MAX <? acc * 10 + digit_value c)) fuel)
      as (ovf' & -> & Hov'); [lia|lia| |].
    + intros [Ho|Ho]%orb_true_iff; [specialize (Hovf Ho); lia|].
      by apply Z.ltb_lt.
    + exists ovf'. split; [|done]. f_equal. rewrite length_app. simpl. lia.
Qed.

Lemma single_hash_run_hashes (p s : cstr) (r a fuel : nat) :
  (1 ≤ r)%nat → (a ≤ r - 1)%nat →
  single_hash_run (p ++ hashes r ++ s) (length p + a) (length p + r - 1) fuel
  = true.
Proof.
  intros Hr. revert a. induction fuel as [|fuel IH]; intros a Ha; [done|]. simpl.
  destruct (Nat.eqb_spec (length p + a) (length p + r - 1)); [done|].
  rewrite char_at_app_r, char_at_app_l by (unfold hashes; rewrite length_replicate; lia).
  unfold hashes. rewrite char_at_eq, lookup_replicate_2 by lia. simpl.
  replace (S (length p + a)) with (length p + S a)%nat by lia.
  apply IH. lia.
Qed.

(** restart_nextindex on a name made from the template: when the prefix
    and the suffix hold neither ['#'] nor NUL, the suffix does not begin
    with a digit, and the run of ['#'] is replaced by a non-empty string of
    decimal digits [d], the answer is the value of [d] plus one, or
    [errval] when that value exceeds INT_MAX - 1. The run and the digit
    string need not have the same length. *)
Theorem nextindex_substitute (p s d : cstr) (r : nat) (errval : Z) :
  Forall plain p → Forall plain s → isdigit (s @@ 0) = false →
  (1 ≤ r)%nat → d ≠ [] → Forall (λ c, isdigit c = true) d →
  restart_nextindex (p ++ hashes r ++ s) (p ++ d ++ s) errval
  = if INT_MAX - 1 <? dec_value d then errval else dec_value d + 1.
Proof.
  intros Hp Hs Hs0 Hr Hd0 Hd.
  destruct d as [|c d]; [done|]. clear Hd0.
  pose proof Hd as [Hc Hd']%Forall_cons.
  destruct (isdigit_plain c Hc) as ([Hcn Hch] & Hsp & Hminus & Hplus & _).
  destruct r as [|r]; [lia|].
  assert (Forall (λ c, c ≠ NUL) p) as Hp0 by (eapply Forall_impl; [done|by intros ? []]).
  assert (Forall (λ c, c ≠ NUL) s) as Hs1 by (eapply Forall_impl; [done|by intros ? []]).
  assert (Forall (λ c, c ≠ NUL) (c :: d)) as Hd1.
  { eapply Forall_impl; [exact Hd|]. intros x Hx.
    by destruct (isdigit_plain x Hx) as ([? _] & _). }
  assert (Forall (λ c, c ≠ NUL) (hashes r)) as Hh1.
  { apply Forall_replicate. done. }
  unfold restart_nextindex.
  rewrite (advance_both_prefix p).
  2: done.
  2: { change ((hashes (S r) ++ s) @@ 0) with "#"%char.
       change (((c :: d) ++ s) @@ 0) with c.
       destruct (Ascii.eqb_spec "#"%char c) as [<-|]; [done|].
       apply andb_false_r. }
  2: lia.
  2: { rewrite length_app. lia. }
  rewrite !char_at_app_0.
  change ((hashes (S r) ++ s) @@ 0) with "#"%char.
  change (((c :: d) ++ s) @@ 0) with c.
  rewrite Hc. simpl negb. cbv iota.
  change (is_nul "#") with false. change (is_hash "#") with true.
  simpl negb. cbv iota.
  (* the final hash *)
  replace (p ++ hashes (S r) ++ s) with ((p ++ ["#"%char]) ++ hashes r ++ s)
    by by rewrite <-app_assoc.
  replace (S (length p)) with (length (p ++ ["#"%char]))
    by (rewrite length_app; simpl; lia).
  rewrite final_hash_eq.
  2: { by apply Forall_app. }
  2: { rewrite !length_app. simpl. lia. }
  rewrite last_hash_hashes by done.
  (* the end of the name *)
  replace (p ++ (c :: d) ++ s) with ((p ++ [c]) ++ d ++ s)
    by by rewrite <-app_assoc.
  replace (length (p ++ ["#"%char])) with (length (p ++ [c]))
    by (rewrite !length_app; simpl; lia).
  rewrite advance_end_eq.
  2: { apply Forall_app. split; [|done]. by apply Forall_cons in Hd1 as [_ ?]. }
  2: { rewrite !length_app. simpl. lia. }
  (* the backward scan *)
  set (j := if r is O then length p else _).
  assert (j = (length p + S r - 1)%nat) as Hj.
  { subst j. rewrite length_app. simpl. destruct r; lia. }
  replace ((p ++ ["#"%char]) ++ hashes r ++ s) with ((p ++ hashes (S r)) ++ s)
    by (rewrite <-!app_assoc; done).
  replace ((p ++ [c]) ++ d ++ s) with ((p ++ c :: d) ++ s)
    by (rewrite <-!app_assoc; done).
  assert (length (hashes (S r)) = S r) as Hlh by apply length_replicate.
  replace j with (length (p ++ hashes (S r)) - 1)%nat
    by (rewrite Hj, length_app, Hlh; lia).
  replace (length (p ++ [c]) + length (d ++ s))%nat
    with (length (p ++ c :: d) + length s)%nat
    by (rewrite !length_app; simpl; lia).
  replace (length (p ++ [c]) + length (hashes r ++ s))%nat
    with (length (p ++ hashes (S r)) + length s)%nat
    by (rewrite !length_app, Hlh; unfold hashes; rewrite length_replicate;
        simpl; lia).
  rewrite scan_back_suffix.
  2: { rewrite length_app, Hlh. lia. }
  2: { rewrite length_app. simpl. lia. }
  2: lia.
  2: { rewrite !length_app. lia. }
  rewrite <-app_assoc.
  replace (length (p ++ hashes (S r)) - 1)%nat with (length p + r)%nat
    by (rewrite length_app, Hlh; lia).
  change ("#"%char :: replicate r "#"%char ++ s) with (hashes (S r) ++ s).
  rewrite char_at_app_r, char_at_app_l by (rewrite Hlh; lia).
  unfold hashes at 1. rewrite char_at_eq, lookup_replicate_2 by lia.
  simpl default. change (is_hash "#") with true. simpl negb. cbv iota.
  (* strtoul *)
  unfold strtoul.
  assert (∀ fuel, skip_space (p ++ (c :: d) ++ s) (length p) fuel = length p)
    as ->.
  { intros [|fuel]; [done|]. cbn [skip_space]. rewrite char_at_app_0.
    change (((c :: d) ++ s) @@ 0) with c. by rewrite Hsp. }
  rewrite !char_at_app_0. change (((c :: d) ++ s) @@ 0) with c.
  destruct (Ascii.eqb_spec c "-"); [done|].
  destruct (Ascii.eqb_spec c "+"); [done|]. simpl orb. cbv iota.
  destruct (strtoul_digits_run p (c :: d) s 0 false
              (length (p ++ (c :: d) ++ s)))
    as (ovf' & Hrun & Hov); [done|done| |lia|done|].
  { rewrite !length_app. lia. }
  rewrite Hrun. fold (dec_value (c :: d)) in Hov |- *.
  destruct (Nat.eqb_spec (length p + length (c :: d)) (length p));
    [simpl in *; lia|].
  assert ((length p + length (c :: d) =? length (p ++ c :: d) - 1 + 1)%nat
          = true) as Hend.
  { apply Nat.eqb_eq. rewrite length_app. simpl. lia. }
  replace (length p + r)%nat with (length p + S r - 1)%nat by lia.
  pose proof (single_hash_run_hashes p s (S r) 0
                (length (p ++ hashes (S r) ++ s))) as Hsingle.
  rewrite Nat.add_0_r in Hsingle.
  destruct ovf'.
  - specialize (Hov eq_refl). rewrite Hend. simpl negb. cbv iota.
    change (INT_MAX - 1 <? ULONG_MAX) with true. cbv iota.
    destruct (Z.ltb_spec (INT_MAX - 1) (dec_value (c :: d))); [done|].
    unfold INT_MAX, ULONG_MAX in *. lia.
  - rewrite Hend. simpl negb. cbv iota.
    destruct (Z.ltb_spec (INT_MAX - 1) (dec_value (c :: d))); [done|].
    change ("#"%char :: replicate r "#"%char ++ s) with (hashes (S r) ++ s).
    rewrite Hsingle by lia. done.
Qed.

Lemma nextindex_substitute_witness :
  restart_nextindex (chars "chk###.h5") (chars "chk041.h5") (-1) = 42.
Proof.
  apply (nextindex_substitute (chars "chk") (chars ".h5") (chars "041") 3 (-1)).
  - repeat constructor; discriminate.
  - repeat constructor; discriminate.
  - reflexivity.
  - lia.
  - discriminate.
  - repeat constructor.
Defined.

(** ** Field metadata *)

(** A stored layout tag outside the registry makes the probe call the
    ESIO error hook, although the sentinel is intact. *)
Lemma metadata_read_invokes_hook :
  ¬ (errors (esio_field_metadata_read esio_layout H5I_BASE "u"
               (tagged_world 1)).2
     = errors (tagged_world 1)).
Proof. vm_compute. discriminate. Qed.

Section MetadataProbe.
Context {V : Type} `{!Hdf5 V}.
Implicit Types (w : world V).

Lemma set_h5e_auto_restore w h : set_h5e_auto (h5e_auto w) (set_h5e_auto h w) = w.
Proof. by destruct w. Qed.

Lemma h5_fail_silenced call w h : fst h = 0 -> h5_fail call (set_h5e_auto h w) = set_h5e_auto h w.
Proof. intros Hh. unfold h5_fail. simpl. by rewrite Hh. Qed.

Lemma scratch_lookup (meta : list Z) (i : nat) :
  (length meta ≤ 9)%nat → (i ≤ 8)%nat →
  scratch meta !! i
  = if decide (i < length meta)%nat then Some <$> (meta !! i)
    else if decide (i = 8%nat) then Some (Some sentinel) else Some None.
Proof.
  intros Hlen Hi. unfold scratch. case_decide as Hlt.
  - rewrite lookup_app_l by (by rewrite length_fmap).
    rewrite list_lookup_fmap. by destruct (meta !! i).
  - rewrite lookup_app_r by (rewrite length_fmap; lia).
    rewrite length_fmap, lookup_drop.
    replace (length meta + (i - length meta))%nat with i by lia.
    case_decide as H8; [subst; done|].
    assert (i < 8)%nat as Hi8 by lia.
    do 8 (destruct i as [|i]; [done|]). lia.
Qed.

Lemma slot_scratch (meta : list Z) (i : nat) :
  (length meta ≤ 9)%nat → (i < 8)%nat → slot (scratch meta) i = meta !! i.
Proof.
  intros Hlen Hi. unfold slot. rewrite scratch_lookup by lia.
  case_decide as Hlt.
  - by destruct (meta !! i).
  - case_decide; [lia|]. simpl. symmetry. apply lookup_ge_None. lia.
Qed.

Lemma slot_scratch_sentinel (meta : list Z) :
  (length meta ≤ 9)%nat →
  slot (scratch meta) 8 = Some (default sentinel (meta !! 8%nat)).
Proof.
  intros Hlen. unfold slot. rewrite scratch_lookup by lia.
  case_decide as Hlt.
  - destruct (lookup_lt_is_Some_2 meta 8 Hlt) as [x ->]. done.
  - rewrite decide_True by done. simpl.
    by rewrite (proj2 (lookup_ge_None meta 8)) by lia.
Qed.

Lemma metadata_read_eq (table : list layout) loc name w :
  esio_field_metadata_read table loc name w = metadata_probe table loc name w.
Proof.
  unfold esio_field_metadata_read, metadata_probe, stored_metadata, bind, io,
    H5LTget_attribute_int.
  simpl.
  destruct (ids w !! loc) as [[path rw|]|] eqn:Eid; simpl.
  2,3: by rewrite h5_fail_silenced, set_h5e_auto_restore.
  unfold find_dataset at 1 2. simpl.
  destruct (disk w !! path) as [c|] eqn:Ec; simpl.
  2: by rewrite h5_fail_silenced, set_h5e_auto_restore.
  destruct (c !! name) as [[ty dims data [meta|]]|] eqn:Ed; simpl.
  2,3: by rewrite h5_fail_silenced, set_h5e_auto_restore.
  change ([None; None; None; None; None; None; None; None; Some sentinel])
    with (replicate ESIO_FIELD_METADATA_SIZE (@None Z) ++ [Some sentinel]).
  fold (scratch meta).
  destruct (Nat.ltb_spec 9 (length meta)) as [Hlen|Hlen]; simpl; [done|].
  rewrite slot_scratch_sentinel by done.
  unfold sentinel_intact, ESIO_FIELD_METADATA_SIZE.
  destruct (bool_decide (default sentinel (meta !! 8%nat) = sentinel)) eqn:Es.
  - rewrite bool_decide_eq_true_2 by (apply bool_decide_eq_true in Es; congruence).
    simpl. rewrite !slot_scratch by lia.
    destruct (meta !! 3%nat) as [t|]; [|by rewrite set_h5e_auto_restore].
    destruct (meta !! 4%nat) as [nc|]; [|by rewrite set_h5e_auto_restore].
    destruct (meta !! 5%nat) as [nb|]; [|by rewrite set_h5e_auto_restore].
    destruct (meta !! 6%nat) as [na|]; [|by rewrite set_h5e_auto_restore].
    destruct (meta !! 7%nat) as [ncomp|]; [|by rewrite set_h5e_auto_restore].
    destruct ((t <? 0) || (esio_nlayout table <=? t));
      by rewrite set_h5e_auto_restore.
  - rewrite bool_decide_eq_false_2 by (apply bool_decide_eq_false in Es; congruence).
    simpl. by rewrite set_h5e_auto_restore.
Qed.

(** C8, amended: a probe that returns leaves the driver's error handler
    as it found it, and the handler does not run during the probe, whether
    or not the attribute exists (it was saved, set to NULL and restored);
    files and identifiers are untouched. The ESIO error hook is not called
    when the attribute is absent, nor when it is present with its sentinel
    intact and a layout tag of the registry. It is called, with
    ESIO_ESANITY, exactly when the sentinel one slot past the eight
    integers was overwritten, or when the stored layout tag is outside the
    registry. *)
Theorem metadata_read_sinks (table : list layout) (loc : Z) (name : string) w :
  let o := (esio_field_metadata_read table loc name w).1 in
  let w' := (esio_field_metadata_read table loc name w).2 in
  o ≠ Crash →
  h5e_auto w' = h5e_auto w ∧ h5e_printed w' = h5e_printed w
  ∧ disk w' = disk w ∧ ids w' = ids w
  ∧ match stored_metadata loc name w with
    | None => o = Ok (-1, None) ∧ errors w' = errors w
    | Some data =>
        if sentinel_intact data then
          if stored_tag_known table data then errors w' = errors w
          else errors w' = errors w ++
                 [("ESIO metadata contains unknown layout_tag"%string, ESIO_ESANITY)]
        else errors w' = errors w ++
               [("detected metadata buffer overflow"%string, ESIO_ESANITY)]
    end.
Proof.
  intros o w'. subst o w'. rewrite metadata_read_eq. unfold metadata_probe.
  destruct (stored_metadata loc name w) as [data|]; [|done].
  destruct (9 <? length data)%nat; [done|].
  destruct (sentinel_intact data); [|done]. simpl.
  unfold stored_tag_known.
  destruct (data !! 3%nat) as [t|]; [|done].
  destruct (data !! 4%nat) as [nc|]; [|done].
  destruct (data !! 5%nat) as [nb|]; [|done].
  destruct (data !! 6%nat) as [na|]; [|done].
  destruct (data !! 7%nat) as [ncomp|]; [|done].
  simpl. intros _.
  destruct (Z.ltb_spec t 0), (Z.leb_spec (esio_nlayout table) t); simpl;
    (rewrite bool_decide_eq_false_2 by lia)
    || (rewrite bool_decide_eq_true_2 by lia); done.
Qed.

End MetadataProbe.

Lemma metadata_read_sinks_witness :
  h5e_auto (esio_field_metadata_read esio_layout H5I_BASE "u" (tagged_world 0)).2
  = h5e_auto (tagged_world 0).
Proof.
  apply (metadata_read_sinks esio_layout H5I_BASE "u" (tagged_world 0)).
  vm_compute. discriminate.
Defined.

(** ** Layout dispatch *)

Section Dispatch.
Context {V : Type} `{!Hdf5 V}.
Implicit Types (w : world V).

Lemma bind_ext {A B} (m : M V A) (f g : A → M V B) w :
  (∀ a w', m w = (Ok a, w') → f a w' = g a w') → bind m f w = bind m g w.
Proof.
  intros H0. unfold bind. destruct (m w) as [[a|c|] w'] eqn:E; auto.
Qed.

Lemma bind_map {A A' B} (m1 : M V A) (m2 : M V A') (h : A → A')
    (f1 : A → M V B) (f2 : A' → M V B) w :
  m2 w = match m1 w with
         | (Ok a, w1) => (Ok (h a), w1)
         | (Ret c, w1) => (Ret c, w1)
         | (Crash, w1) => (Crash, w1)
         end →
  (∀ a w1, m1 w = (Ok a, w1) → f1 a w1 = f2 (h a) w1) →
  bind m1 f1 w = bind m2 f2 w.
Proof.
  intros Hm Hf. unfold bind. rewrite Hm.
  destruct (m1 w) as [[a|c|] w1]; auto.
Qed.

Lemma check_arguments_layout_tag (s : esio_state_s) (t : Z) name field
    nc cst csz nb bst bsz na ast asz w :
  check_arguments (Some (set_layout_tag s t)) name field nc cst csz nb bst bsz na ast asz w
  = match check_arguments (Some s) name field nc cst csz nb bst bsz na ast asz w with
    | (Ok (s0, n, f), w1) => (Ok (set_layout_tag s0 t, n, f), w1)
    | (Ret c, w1) => (Ret c, w1)
    | (Crash, w1) => (Crash, w1)
    end.
Proof.
  unfold check_arguments, bind, fail_if, ESIO_ERROR, ret. simpl.
  destruct (file_id s =? -1); [done|].
  destruct name as [name|]; [|done].
  destruct field as [field|]; [|done].
  repeat match goal with |- context [if ?c then _ else _] => destruct c; [done|] end.
  done.
Qed.

Lemma check_arguments_handle (s : esio_state_s) name field
    nc cst csz nb bst bsz na ast asz w s0 n f w1 :
  check_arguments (Some s) name field nc cst csz nb bst bsz na ast asz w = (Ok (s0, n, f), w1) →
  s0 = s ∧ w1 = w ∧ name = Some n ∧ field = Some f.
Proof.
  unfold check_arguments, bind, fail_if, ESIO_ERROR, ret. simpl.
  destruct (file_id s =? -1); [done|].
  destruct name as [name|]; [|done].
  destruct field as [field|]; [|done].
  repeat match goal with |- context [if ?c then _ else _] => destruct c; [done|] end.
  intros H0; inversion H0; done.
Qed.

Lemma metadata_read_table (table1 table2 : list layout) loc name :
  length table1 = length table2 →
  esio_field_metadata_read (V:=V) table1 loc name
  = esio_field_metadata_read table2 loc name.
Proof.
  intros Hlen. unfold esio_field_metadata_read, esio_nlayout. by rewrite Hlen.
Qed.

Lemma metadata_read_existing (table : list layout) loc name w data status m w1 :
  stored_metadata loc name w = Some data →
  esio_field_metadata_read table loc name w = (Ok (status, m), w1) →
  status = 0 ∧ (∀ m0, m = Some m0 → data !! 3%nat = Some (m_layout_tag m0)).
Proof.
  intros Hst. rewrite metadata_read_eq. unfold metadata_probe. rewrite Hst.
  destruct (9 <? length data)%nat; [done|].
  destruct (sentinel_intact data); simpl;
    [|intros Hr; inversion Hr; subst; split; [done|]; discriminate].
  destruct (data !! 3%nat) as [t|]; [|done].
  destruct (data !! 4%nat) as [nc|]; [|done].
  destruct (data !! 5%nat) as [nb|]; [|done].
  destruct (data !! 6%nat) as [na|]; [|done].
  destruct (data !! 7%nat) as [ncomp|]; [|done].
  intros Hr; inversion Hr; subst. split; [done|].
  intros m0 Hm0; inversion Hm0; subst. done.
Qed.

Lemma layout_at_entry (table1 table2 : list layout) (t : Z) :
  table1 !! Z.to_nat t = table2 !! Z.to_nat t →
  layout_at (V:=V) table1 t = layout_at table2 t.
Proof. intros Ht. unfold layout_at. by rewrite Ht. Qed.

(* On an existing field the read and the write are the same whatever the
   active layout tag of the handle, and whatever the other entries of the
   registry. *)
Lemma transfer_ignores_active_tag (table1 table2 : list layout)
    (s : esio_state_s) (t : Z) name field nc cst csz nb bst bsz na ast asz
    (type_id : h5type) w data :
  stored_metadata (file_id s) name w = Some data →
  length table1 = length table2 →
  table1 !! Z.to_nat (default 0 (data !! 3%nat))
  = table2 !! Z.to_nat (default 0 (data !! 3%nat)) →
  esio_field_read_internal table1 (Some s) (Some name) field
    nc cst csz nb bst bsz na ast asz type_id w
  = esio_field_read_internal table2 (Some (set_layout_tag s t)) (Some name) field
      nc cst csz nb bst bsz na ast asz type_id w
  ∧ esio_field_write_internal table1 (Some s) (Some name) field
      nc cst csz nb bst bsz na ast asz type_id w
    = esio_field_write_internal table2 (Some (set_layout_tag s t)) (Some name) field
        nc cst csz nb bst bsz na ast asz type_id w.
Proof.
  intros Hst Hlen Htab. split.
  - unfold esio_field_read_internal.
    apply (bind_map _ _ (λ '(s0, n, f), (set_layout_tag s0 t, n, f)));
      [rewrite check_arguments_layout_tag;
       by destruct (check_arguments _ _ _ _ _ _ _ _ _ _ _ _ _) as [[[[??]?]|?|]?]|].
    intros [[s0 n] f] w1 (-> & -> & Hn & ->)%check_arguments_handle.
    inversion Hn; subst n. simpl.
    rewrite (metadata_read_table table1 table2) by done.
    apply bind_ext. intros [status m] w1 Hm.
    apply (metadata_read_existing _ _ _ _ _ _ _ _ Hst) in Hm as [-> Htag].
    apply bind_ext. intros [] w2 _.
    destruct m as [m|]; [|done].
    do 9 (apply bind_ext; intros ? ? _).
    rewrite (layout_at_entry table1 table2); [done|].
    by rewrite (Htag m eq_refl) in Htab.
  - unfold esio_field_write_internal.
    apply (bind_map _ _ (λ '(s0, n, f), (set_layout_tag s0 t, n, f)));
      [rewrite check_arguments_layout_tag;
       by destruct (check_arguments _ _ _ _ _ _ _ _ _ _ _ _ _) as [[[[??]?]|?|]?]|].
    intros [[s0 n] f] w1 (-> & -> & Hn & ->)%check_arguments_handle.
    inversion Hn; subst n. simpl.
    rewrite (metadata_read_table table1 table2) by done.
    apply bind_ext. intros [status m] w1 Hm.
    apply (metadata_read_existing _ _ _ _ _ _ _ _ Hst) in Hm as [-> Htag].
    simpl. destruct m as [m|]; [|done].
    do 9 (apply bind_ext; intros ? ? _).
    rewrite (layout_at_entry table1 table2); [done|].
    by rewrite (Htag m eq_refl) in Htab.
Qed.
End Dispatch.

(** ** The transfer kernel of layout 0 *)

Section Kernel.
Context {V : Type} `{!Hdf5 V}.
Implicit Types (w : world V).

Lemma int_of_id (z : Z) : INT_MIN ≤ z ≤ INT_MAX → int_of z = z.
Proof.
  unfold int_of, INT_MIN, INT_MAX. intros Hz.
  change (2 ^ 32) with 4294967296. rewrite Z.mod_small; lia.
Qed.

Lemma hsize_of_id (z : Z) : 0 ≤ z ≤ INT_MAX → hsize_of z = z.
Proof.
  unfold hsize_of, INT_MAX. intros Hz.
  change (2 ^ 64) with 18446744073709551616. rewrite Z.mod_small; lia.
Qed.

Lemma select_runs_fold (kjs : list (Z * Z)) (cstride bstride astride alocal : Z)
    (sp : memspace) :
  0 < hsize_of astride →
  foldl (λ sp kj, sp ← sp;
           H5Sselect_hyperslab_or sp (run_start cstride bstride kj)
             (hsize_of astride) (hsize_of alocal)) (Some sp) kjs
  = Some (if ms_all sp then sp
          else MemSpace (ms_extent sp) false
                 (ms_runs sp ++ (run_of cstride bstride astride alocal <$> kjs))).
Proof.
  intros Hs. revert sp. induction kjs as [|kj kjs IH]; intros sp; simpl.
  - destruct sp as [e [] r]; simpl; [done|]. by rewrite app_nil_r.
  - unfold H5Sselect_hyperslab_or at 2.
    destruct (Z.leb_spec (hsize_of astride) 0); [lia|].
    destruct (ms_all sp) eqn:Ea.
    + rewrite IH, Ea. done.
    + rewrite IH. simpl. by rewrite <-app_assoc.
Qed.

Lemma filter_all {A} (p : A → bool) (l : list A) :
  (∀ x, x ∈ l → p x = true) → List.filter p l = l.
Proof.
  induction l as [|x l IH]; intros Hp; simpl; [done|].
  rewrite Hp by left. f_equal. apply IH. intros y Hy. apply Hp. by right.
Qed.

Lemma tight_run_covers (C B A m : nat) :
  (m < C * B * A)%nat → (0 < A)%nat → (0 < B)%nat →
  ∃ k j : nat, (k < C)%nat ∧ (j < B)%nat
    ∧ in_run m ((k * (B * A) + j * A)%nat, 1%nat, A) = true.
Proof.
  intros Hm HA HB.
  exists (m / (B * A))%nat, ((m mod (B * A)) / A)%nat.
  pose proof (Nat.div_mod_eq m (B * A)) as E1.
  pose proof (Nat.mod_upper_bound m (B * A)) as U1.
  pose proof (Nat.div_mod_eq (m mod (B * A)) A) as E2.
  pose proof (Nat.mod_upper_bound (m mod (B * A)) A) as U2.
  set (k := (m / (B * A))%nat) in *. set (r := (m mod (B * A))%nat) in *.
  set (j := (r / A)%nat) in *. set (r2 := (r mod A)%nat) in *.
  assert (r < B * A)%nat by (apply U1; nia).
  assert (r2 < A)%nat by (apply U2; lia).
  split; [nia|]. split; [nia|].
  unfold in_run. rewrite Nat.mod_1_r, Nat.div_1_r.
  apply andb_true_iff. split; [apply andb_true_iff; split|].
  - apply Nat.leb_le. nia.
  - done.
  - apply Nat.ltb_lt. nia.
Qed.

Lemma tight_selection (csz bsz asz : Z) :
  1 ≤ csz → 1 ≤ bsz → 1 ≤ asz → csz * bsz * asz ≤ INT_MAX →
  ∃ ms,
    select_runs
      (H5Screate_simple1 (hsize_of (int_of (csz * int_of (bsz * asz)))))
      csz (int_of (bsz * asz)) bsz asz asz 1 = Some ms
    ∧ ms_extent ms = Z.to_nat (csz * bsz * asz)
    ∧ mem_valid ms = true
    ∧ mem_selected ms = seq 0 (Z.to_nat (csz * bsz * asz)).
Proof.
  intros Hc Hb Ha Hmax.
  assert (0 ≤ bsz * asz ≤ csz * bsz * asz) as Hba by nia.
  assert (INT_MIN ≤ 0) as Hmin by (unfold INT_MIN; lia).
  rewrite (int_of_id (bsz * asz)) by lia.
  rewrite (int_of_id (csz * (bsz * asz))) by lia.
  rewrite (hsize_of_id (csz * (bsz * asz))) by lia.
  assert (hsize_of 1 = 1) as H1 by (apply hsize_of_id; unfold INT_MAX; lia).
  assert (hsize_of asz = asz) as Hasz by (apply hsize_of_id; nia).
  unfold select_runs. rewrite select_runs_fold by lia.
  eexists. split; [reflexivity|].
  unfold H5Screate_simple1. simpl.
  replace (csz * (bsz * asz)) with (csz * bsz * asz) by lia.
  destruct H5S_fresh_all eqn:Efresh; simpl.
  { split; [done|]. split; [done|]. unfold mem_selected. simpl.
    apply filter_all. done. }
  split; [done|].
  set (kjs := (k ← seqZ 0 csz; j ← seqZ 0 bsz; [(k, j)])).
  assert (∀ kj, kj ∈ kjs ↔ 0 ≤ kj.1 < csz ∧ 0 ≤ kj.2 < bsz) as Hkjs.
  { intros [k j]. unfold kjs. rewrite list_elem_of_bind. simpl. split.
    - intros (k' & (j' & Hin & Hj)%list_elem_of_bind & Hk).
      apply list_elem_of_singleton in Hin. inversion Hin; subst.
      apply elem_of_seqZ in Hj, Hk. lia.
    - intros [Hk Hj]. exists k. split; [|apply elem_of_seqZ; lia].
      apply list_elem_of_bind. exists j.
      split; [by apply list_elem_of_singleton|apply elem_of_seqZ; lia]. }
  (* inside the bound the run of a pair is the exact one *)
  assert (∀ k j, 0 ≤ k < csz → 0 ≤ j < bsz →
            run_of (bsz * asz) asz 1 asz (k, j)
            = (Z.to_nat (k * (bsz * asz) + j * asz), 1%nat, Z.to_nat asz))
    as Hrun.
  { intros k j Hk Hj. unfold run_of, run_start. simpl. rewrite H1, Hasz.
    assert (0 ≤ k * (bsz * asz)) by nia.
    assert (0 ≤ j * asz) by nia.
    assert (j * asz + asz ≤ bsz * asz) by nia.
    assert (k * (bsz * asz) + bsz * asz ≤ csz * bsz * asz) by nia.
    rewrite (int_of_id (k * (bsz * asz))) by lia.
    rewrite (int_of_id (j * asz)) by lia.
    rewrite (int_of_id (k * (bsz * asz) + j * asz)) by lia.
    rewrite (hsize_of_id (k * (bsz * asz) + j * asz)) by lia. done. }
  split.
  - unfold mem_valid. simpl. apply forallb_forall. intros r Hr.
    apply list_elem_of_In, list_elem_of_fmap in Hr as ([k j] & -> & Hkj).
    apply Hkjs in Hkj. simpl in Hkj. rewrite Hrun by lia.
    unfold run_inside. simpl.
    apply orb_true_iff. right. apply Nat.ltb_lt.
    assert (j * asz + asz ≤ bsz * asz) by nia.
    assert (k * (bsz * asz) + bsz * asz ≤ csz * bsz * asz) by nia.
    assert (0 ≤ k * (bsz * asz)) by nia.
    assert (0 ≤ j * asz) by nia.
    lia.
  - unfold mem_selected. simpl. apply filter_all. intros m Hm.
    apply elem_of_seq in Hm.
    destruct (tight_run_covers (Z.to_nat csz) (Z.to_nat bsz) (Z.to_nat asz) m)
      as (k & j & Hk & Hj & Hin); [|lia|lia|].
    { rewrite <-!Z2Nat.inj_mul by lia. lia. }
    apply existsb_exists. exists (run_of (bsz * asz) asz 1 asz (Z.of_nat k, Z.of_nat j)).
    split.
    + apply list_elem_of_In, list_elem_of_fmap_2, Hkjs. simpl. lia.
    + rewrite Hrun by lia.
      replace (Z.to_nat (Z.of_nat k * (bsz * asz) + Z.of_nat j * asz))
        with (k * (Z.to_nat bsz * Z.to_nat asz) + j * Z.to_nat asz)%nat; [done|].
      rewrite Z2Nat.inj_add, !Z2Nat.inj_mul, !Nat2Z.id by nia. done.
Qed.


Lemma length_bind_const {A B} (f : A → list B) (l : list A) (n : nat) :
  (∀ x, x ∈ l → length (f x) = n) → length (l ≫= f) = (length l * n)%nat.
Proof.
  induction l as [|x l IH]; intros Hf; csimpl; [done|].
  rewrite length_app, Hf by left. rewrite IH; [lia|].
  intros y Hy. apply Hf. by right.
Qed.

Lemma file_selected_length (fs : filespace) :
  length (file_selected fs)
  = (Z.to_nat (fs_count fs).1.1 * Z.to_nat (fs_count fs).1.2
     * Z.to_nat (fs_count fs).2)%nat.
Proof.
  destruct fs as [dims [[cs bs] as_] [[cl bl] al]]. unfold file_selected. simpl.
  rewrite (length_bind_const _ _ (Z.to_nat bl * Z.to_nat al)).
  { rewrite length_seqZ. lia. }
  intros k _. rewrite (length_bind_const _ _ (Z.to_nat al)).
  { by rewrite length_seqZ. }
  intros j _. rewrite (length_bind_const _ _ 1).
  { rewrite length_seqZ. lia. }
  done.
Qed.

Lemma file_selected_NoDup (fs : filespace) : NoDup (file_selected fs).
Proof.
  destruct fs as [dims [[cs bs] as_] [[cl bl] al]]. unfold file_selected. simpl.
  apply NoDup_bind; [| |apply NoDup_seqZ].
  { intros k1 k2 y _ _ (j1 & (i1 & Hy1 & _)%list_elem_of_bind & _)%list_elem_of_bind
      (j2 & (i2 & Hy2 & _)%list_elem_of_bind & _)%list_elem_of_bind.
    apply list_elem_of_singleton in Hy1, Hy2. congruence. }
  intros k _. apply NoDup_bind; [| |apply NoDup_seqZ].
  { intros j1 j2 y _ _ (i1 & Hy1 & _)%list_elem_of_bind
      (i2 & Hy2 & _)%list_elem_of_bind.
    apply list_elem_of_singleton in Hy1, Hy2. congruence. }
  intros j _. apply NoDup_bind; [| |apply NoDup_seqZ].
  { intros i1 i2 y _ _ Hy1 Hy2.
    apply list_elem_of_singleton in Hy1, Hy2. congruence. }
  intros i _. apply NoDup_singleton.
Qed.

Lemma foldl_store_frame (src dst : h5type) (field : list V)
    (pairs : list (nat * list Z)) (data : gmap (list Z) V) (c : list Z) :
  c ∉ pairs.*2 → foldl (store src dst field) data pairs !! c = data !! c.
Proof.
  revert data. induction pairs as [|[m c'] pairs IH]; intros data Hc; simpl;
    [done|].
  rewrite fmap_cons, not_elem_of_cons in Hc. destruct Hc as [Hne Hc].
  rewrite IH by done. unfold store. simpl. by rewrite lookup_insert_ne.
Qed.

Lemma foldl_store_lookup (src dst : h5type) (field : list V)
    (pairs : list (nat * list Z)) (data : gmap (list Z) V) (n m : nat)
    (c : list Z) :
  NoDup pairs.*2 → pairs !! n = Some (m, c) →
  foldl (store src dst field) data pairs !! c
  = Some (H5T_convert src dst (default fill_value (field !! m))).
Proof.
  revert data n. induction pairs as [|[m' c'] pairs IH]; intros data n Hnd Hn;
    [done|].
  rewrite fmap_cons in Hnd. apply NoDup_cons in Hnd as [Hnotin Hnd].
  destruct n as [|n]; simpl in *.
  - inversion Hn; subst. rewrite foldl_store_frame by done.
    unfold store. simpl. by rewrite lookup_insert_eq.
  - by eapply IH.
Qed.

Lemma foldl_load_length (src dst : h5type) (data : gmap (list Z) V)
    (pairs : list (nat * list Z)) (field : list V) :
  length (foldl (load src dst data) field pairs) = length field.
Proof.
  revert field. induction pairs as [|p pairs IH]; intros field; simpl; [done|].
  rewrite IH. unfold load. by rewrite length_insert.
Qed.

Lemma foldl_load_frame (src dst : h5type) (data : gmap (list Z) V)
    (pairs : list (nat * list Z)) (field : list V) (i : nat) :
  i ∉ pairs.*1 → foldl (load src dst data) field pairs !! i = field !! i.
Proof.
  revert field. induction pairs as [|[m c] pairs IH]; intros field Hi; simpl;
    [done|].
  rewrite fmap_cons, not_elem_of_cons in Hi. destruct Hi as [Hne Hi].
  rewrite IH by done. unfold load. simpl. by rewrite list_lookup_insert_ne.
Qed.

Lemma foldl_load_lookup (src dst : h5type) (data : gmap (list Z) V)
    (pairs : list (nat * list Z)) (field : list V) (n m : nat) (c : list Z) :
  NoDup pairs.*1 → pairs !! n = Some (m, c) → (m < length field)%nat →
  foldl (load src dst data) field pairs !! m
  = Some (H5T_convert src dst (default fill_value (data !! c))).
Proof.
  revert field n. induction pairs as [|[m' c'] pairs IH];
    intros field n Hnd Hn Hm; [done|].
  rewrite fmap_cons in Hnd. apply NoDup_cons in Hnd as [Hnotin Hnd].
  destruct n as [|n]; simpl in *.
  - inversion Hn; subst. rewrite foldl_load_frame by done.
    unfold load. simpl. by rewrite list_lookup_insert_eq.
  - eapply IH; [done|done|]. unfold load. by rewrite length_insert.
Qed.

(** Writing a buffer through a pairing and reading it back through the
    same pairing gives the buffer converted to the stored type and back. *)
Lemma store_load_roundtrip (S T : h5type) (field field0 : list V)
    (data : gmap (list Z) V) (coords : list (list Z)) :
  NoDup coords → length coords = length field → length field0 = length field →
  foldl (load S T (foldl (store T S field) data
                     (zip (seq 0 (length field)) coords)))
    field0 (zip (seq 0 (length field)) coords)
  = (λ v, H5T_convert S T (H5T_convert T S v)) <$> field.
Proof.
  intros Hnd Hlen Hlen0.
  set (pairs := zip (seq 0 (length field)) coords).
  assert (pairs.*1 = seq 0 (length field)) as H1.
  { apply fst_zip. rewrite length_seq. lia. }
  assert (pairs.*2 = coords) as H2.
  { apply snd_zip. rewrite length_seq. lia. }
  apply list_eq. intros i. rewrite list_lookup_fmap.
  destruct (field !! i) as [v|] eqn:Ev; simpl.
  - assert (i < length field)%nat as Hi by (by eapply lookup_lt_Some).
    destruct (lookup_lt_is_Some_2 coords i) as [c Hc]; [lia|].
    assert (pairs !! i = Some (i, c)) as Hp.
    { apply lookup_zip_Some. split; [|done]. by apply lookup_seq_lt. }
    rewrite (foldl_load_lookup _ _ _ _ _ i i c); [|by rewrite H1; apply NoDup_seq|done|lia].
    rewrite (foldl_store_lookup _ _ _ _ _ i i c); [|by rewrite H2|done].
    by rewrite Ev.
  - apply lookup_ge_None. rewrite foldl_load_length.
    apply lookup_ge_None in Ev. lia.
Qed.
End Kernel.

(** ** The field transfer engine *)

Section Engine.
Context {V : Type} `{!Hdf5 V}.
Implicit Types (w : world V).

Lemma layout0_contiguous (op : opfunc) (dset_id : Z) (field : list V)
    (nc cst csz nb bst bsz na ast asz : Z) (type_id : h5type) w :
  1 ≤ csz → 1 ≤ bsz → 1 ≤ asz → csz * bsz * asz ≤ INT_MAX →
  METHODNAME op dset_id field nc cst csz (int_of (bsz * asz)) nb bst bsz asz
    na ast asz 1 type_id w
  = contiguous_transfer op dset_id field cst csz bst bsz ast asz type_id w.
Proof.
  intros Hc Hb Ha Hmax. unfold METHODNAME, contiguous_transfer.
  destruct (tight_selection csz bsz asz Hc Hb Ha Hmax)
    as (ms & -> & Hext & Hval & Hsel).
  unfold dataset_of.
  destruct (ids w !! dset_id) as [[|path name rw]|] eqn:Eid; [done| |done].
  destruct (find_dataset path name w) as [d|] eqn:Ed; [|done].
  destruct (length (ds_dims d) =? 3)%nat eqn:Edim; simpl; [|done].
  unfold bind, OPFUNC. rewrite Eid, Ed, Hval, Hsel, Hext, length_seq.
  rewrite file_selected_length. simpl.
  replace (Z.to_nat csz * Z.to_nat bsz * Z.to_nat asz)%nat
    with (Z.to_nat (csz * bsz * asz)) by (rewrite !Z2Nat.inj_mul; lia).
  rewrite Nat.eqb_refl, andb_true_r.
  destruct (file_valid _); simpl; [|done].
  destruct (length field <? _)%nat; [done|].
  destruct op; simpl.
  - destruct (rw && H5Tfind type_id (ds_type d)); done.
  - destruct (H5Tfind (ds_type d) type_id); done.
Qed.

(** What a return of the kernel tells, whatever the sizes and strides. *)
Lemma kernel_write_Ok_inv (dset_id : Z) (field : list V)
    (cglobal cstart clocal cstride bglobal bstart blocal bstride
     aglobal astart alocal astride : Z) (type_id : h5type) w f' w' :
  METHODNAME OpWrite dset_id field cglobal cstart clocal cstride
    bglobal bstart blocal bstride aglobal astart alocal astride type_id w
  = (Ok f', w') →
  ∃ path name d data',
    ids w !! dset_id = Some (ObjDataset path name true)
    ∧ find_dataset path name w = Some d
    ∧ length (ds_dims d) = 3%nat
    ∧ file_valid (FileSpace (ds_dims d) (cstart, bstart, astart)
                    (clocal, blocal, alocal)) = true
    ∧ H5Tfind type_id (ds_type d) = true
    ∧ w' = put_dataset path name
             (Dataset (ds_type d) (ds_dims d) data' (ds_meta d)) w.
Proof.
  unfold METHODNAME.
  destruct (select_runs _ _ _ _ _ _ _) as [ms|]; [|done].
  unfold dataset_of.
  destruct (ids w !! dset_id) as [[|path name rw]|] eqn:Eid; [done| |done].
  destruct (find_dataset path name w) as [d|] eqn:Ed; [|done].
  destruct (Nat.eqb_spec (length (ds_dims d)) 3); simpl; [|done].
  unfold bind, OPFUNC. rewrite Eid, Ed.
  destruct (mem_valid ms) eqn:Emv; simpl; [|done].
  destruct (file_valid _) eqn:Efv; simpl; [|done].
  destruct (_ =? _)%nat; simpl; [|done].
  destruct (_ <? _)%nat; [done|].
  destruct rw; simpl; [|done].
  destruct (H5Tfind type_id (ds_type d)) eqn:Efind; simpl; [|done].
  intros [= <- <-]. by eexists path, name, d, _.
Qed.

Lemma kernel_Ret_inv (op : opfunc) (dset_id : Z) (field : list V)
    (cglobal cstart clocal cstride bglobal bstart blocal bstride
     aglobal astart alocal astride : Z) (type_id : h5type) w c w' :
  METHODNAME op dset_id field cglobal cstart clocal cstride
    bglobal bstart blocal bstride aglobal astart alocal astride type_id w
  = (Ret c, w') →
  c = ESIO_EFAILED.
Proof.
  unfold METHODNAME.
  destruct (select_runs _ _ _ _ _ _ _) as [ms|]; [|by intros [= <- <-]].
  destruct (dataset_of dset_id w) as [d|]; [|done].
  destruct (negb _); [by intros [= <- <-]|].
  unfold bind.
  destruct (OPFUNC _ _ _ _ _ _ w) as [[[status f]|c0|] w0] eqn:Eop.
  - destruct (status <? 0); [by intros [= <- <-]|done].
  - revert Eop. unfold OPFUNC.
    destruct (ids w !! dset_id) as [[|path name rw]|]; try done.
    destruct (find_dataset path name w); [|done].
    destruct (negb _); [done|]. destruct (_ <? _)%nat; [done|].
    destruct op; by destruct (negb _).
  - done.
Qed.

(** *** Inversion and stepping of the control-flow monad *)

Lemma bind_Ok_inv {A B} (m : M V A) (f : A → M V B) w (b : B) w' :
  bind m f w = (Ok b, w') → ∃ a w1, m w = (Ok a, w1) ∧ f a w1 = (Ok b, w').
Proof.
  unfold bind. destruct (m w) as [[a|c|] w1]; [eauto|discriminate..].
Qed.

Lemma bind_step {A B} (m : M V A) (f : A → M V B) w (a : A) w1 :
  m w = (Ok a, w1) → bind m f w = f a w1.
Proof. intros E. unfold bind. by rewrite E. Qed.

Lemma fail_if_Ok_inv (c : bool) (reason : string) (code : Z) w u w' :
  fail_if c reason code w = (Ok u, w') → c = false ∧ w' = w.
Proof. destruct c; simpl; [discriminate|]. unfold ret. by intros [= ? ?]. Qed.

Lemma io_Ok_inv {A} (f : world V → A * world V) w (a : A) w' :
  io f w = (Ok a, w') → f w = (a, w').
Proof. unfold io. destruct (f w). by intros [= -> ->]. Qed.

Lemma call_Ok_inv {A} (m : M V A) (success : A → Z) w (r : Z) w' :
  call m success w = (Ok r, w') →
  (∃ a, m w = (Ok a, w') ∧ r = success a) ∨ m w = (Ret r, w').
Proof.
  unfold call. destruct (m w) as [[a|c|] w1]; intros [= <- <-]; eauto.
Qed.

(** *** The argument checks *)

Lemma check_arguments_Ok_inv (s : option esio_state_s) name field
    nc cst csz nb bst bsz na ast asz w s0 n f w1 :
  check_arguments s name field nc cst csz nb bst bsz na ast asz w
  = (Ok (s0, n, f), w1) →
  s = Some s0 ∧ name = Some n ∧ field = Some f ∧ w1 = w
  ∧ valid_request (file_id s0) nc cst csz nb bst bsz na ast asz.
Proof.
  unfold check_arguments, bind, fail_if, ESIO_ERROR, ret, valid_request.
  destruct s as [s|]; [|done].
  destruct (Z.eqb_spec (file_id s) (-1)); [done|].
  destruct name as [name|]; [|done].
  destruct field as [field|]; [|done].
  destruct (Z.ltb_spec nc 0); [done|]. destruct (Z.ltb_spec cst 0); [done|].
  destruct (Z.ltb_spec csz 1); [done|]. destruct (Z.ltb_spec nb 0); [done|].
  destruct (Z.ltb_spec bst 0); [done|]. destruct (Z.ltb_spec bsz 1); [done|].
  destruct (Z.ltb_spec na 0); [done|]. destruct (Z.ltb_spec ast 0); [done|].
  destruct (Z.ltb_spec asz 1); [done|].
  intros [= <- <- <- <-]. repeat split; done.
Qed.

Lemma check_arguments_valid (s : esio_state_s) (name : string) (field : list V)
    nc cst csz nb bst bsz na ast asz w :
  valid_request (file_id s) nc cst csz nb bst bsz na ast asz →
  check_arguments (Some s) (Some name) (Some field)
    nc cst csz nb bst bsz na ast asz w = (Ok (s, name, field), w).
Proof.
  intros (? & ? & ? & ? & ? & ? & ? & ? & ? & ?).
  unfold check_arguments, bind, fail_if, ESIO_ERROR, ret.
  destruct (Z.eqb_spec (file_id s) (-1)); [done|].
  destruct (Z.ltb_spec nc 0); [lia|]. destruct (Z.ltb_spec cst 0); [lia|].
  destruct (Z.ltb_spec csz 1); [lia|]. destruct (Z.ltb_spec nb 0); [lia|].
  destruct (Z.ltb_spec bst 0); [lia|]. destruct (Z.ltb_spec bsz 1); [lia|].
  destruct (Z.ltb_spec na 0); [lia|]. destruct (Z.ltb_spec ast 0); [lia|].
  destruct (Z.ltb_spec asz 1); [lia|]. done.
Qed.

(** *** The component count *)

Lemma ncomponents_call (type_id : h5type) w :
  match type_ncomponents type_id with
  | Some n =>
      call (esio_type_ncomponents type_id) id w = (Ok n, w)
      ∨ ∃ reason, call (esio_type_ncomponents type_id) id w
                  = (Ok n, report reason ESIO_ESANITY w)
  | None => call (esio_type_ncomponents type_id) id w = (Crash, w)
  end.
Proof.
  unfold type_ncomponents, esio_type_ncomponents, call.
  destruct type_id as [| | |base dims|[]]; simpl; eauto.
  destruct (one_dimension dims) as [n|]; simpl; [|done].
  destruct ((0 <? n) && (n <=? INT_MAX)); simpl; eauto.
Qed.

Lemma ncomponents_call_Ok_inv (type_id : h5type) w r w' :
  call (esio_type_ncomponents type_id) id w = (Ok r, w') →
  type_ncomponents type_id = Some r
  ∧ (w' = w ∨ ∃ reason, w' = report reason ESIO_ESANITY w).
Proof.
  intros E. pose proof (ncomponents_call type_id w) as Hc.
  destruct (type_ncomponents type_id) as [n|]; [|congruence].
  destruct Hc as [Hc|[reason Hc]]; rewrite Hc in E; inversion E; subst; eauto.
Qed.

Lemma layout_at_esio_layout (t : Z) w :
  layout_at (V:=V) esio_layout t w
  = if t =? 0 then (Ok (Layout 0 esio_layout0_filespace_creator
                          esio_layout0_field_writer esio_layout0_field_reader), w)
    else (Crash, w).
Proof.
  unfold layout_at, esio_layout.
  destruct (Z.ltb_spec t 0), (Z.eqb_spec t 0); try lia; try done.
  - subst. done.
  - destruct (Z.to_nat t) as [|k] eqn:Ek; [lia|]. done.
Qed.

Lemma find_put_dataset (path name : string) (d : dataset V) w c :
  disk w !! path = Some c →
  find_dataset path name (put_dataset path name d w) = Some d.
Proof.
  intros Hc. unfold find_dataset, put_dataset. simpl.
  rewrite lookup_alter_eq, Hc. simpl. by rewrite lookup_insert_eq.
Qed.

Lemma issue_eq (o : h5obj) w :
  issue o w = (next_id w, set_ids (<[next_id w := o]> (ids w)) (next_id w + 1) w).
Proof. done. Qed.

Lemma bind_Ret_inv {A B} (m : M V A) (f : A → M V B) w (c : Z) w' :
  bind m f w = (Ret c, w') →
  m w = (Ret c, w') ∨ ∃ a w1, m w = (Ok a, w1) ∧ f a w1 = (Ret c, w').
Proof.
  unfold bind. destruct (m w) as [[a|c0|] w1] eqn:Em.
  - intros E. right. by exists a, w1.
  - intros E. left. congruence.
  - discriminate.
Qed.

Lemma fail_if_Ret_inv {c : bool} {reason : string} {code : Z} {w r w'} :
  fail_if c reason code w = (Ret r, w') →
  c = true ∧ r = code ∧ w' = report reason code w.
Proof. destruct c; simpl; [|discriminate]. unfold ESIO_ERROR. by intros [= <- <-]. Qed.

Lemma H5Dcreate1_cases (loc : Z) (name : string) (t : h5type) (space : list Z)
    w r w1 :
  H5Dcreate1 loc name t space w = (r, w1) →
  (r = -1 ∧ ids w1 = ids w ∧ disk w1 = disk w ∧ next_id w1 = next_id w)
  ∨ ∃ path c,
      r = next_id w
      ∧ ids w !! loc = Some (ObjFile path true)
      ∧ disk w !! path = Some c ∧ c !! name = None
      ∧ ids w1 = <[next_id w := ObjDataset path name true]> (ids w)
      ∧ next_id w1 = next_id w + 1
      ∧ disk w1 = <[path := <[name := Dataset t space ∅ None]> c]> (disk w).
Proof.
  unfold H5Dcreate1, h5_fail.
  destruct (ids w !! loc) as [[path []|]|] eqn:Efid;
    try (intros [= <- <-]; left; by destruct (_ =? 0)).
  destruct (disk w !! path) as [c|] eqn:Ec;
    try (intros [= <- <-]; left; by destruct (_ =? 0)).
  destruct (c !! name) as [d0|] eqn:Ed;
    try (intros [= <- <-]; left; by destruct (_ =? 0)).
  intros [= <- <-]. right. exists path, c. simpl. repeat split; try done.
  apply map_eq. intros p. destruct (decide (p = path)) as [->|Hp].
  - by rewrite lookup_alter_eq, lookup_insert_eq, Ec.
  - by rewrite lookup_alter_ne, lookup_insert_ne.
Qed.

Lemma H5LTset_attribute_int_cases (loc : Z) (name : string) (data : list Z)
    w r w1 :
  H5LTset_attribute_int loc name data w = (r, w1) →
  ids w1 = ids w ∧ next_id w1 = next_id w
  ∧ ((r = -1 ∧ disk w1 = disk w)
     ∨ ∃ path d c,
         r = 0 ∧ ids w !! loc = Some (ObjFile path true)
         ∧ disk w !! path = Some c ∧ c !! name = Some d
         ∧ disk w1
           = <[path := <[name := Dataset (ds_type d) (ds_dims d) (ds_data d)
                                   (Some data)]> c]> (disk w)).
Proof.
  unfold H5LTset_attribute_int, h5_fail, find_dataset.
  destruct (ids w !! loc) as [[path []|]|] eqn:Efid;
    try (intros [= <- <-]; split; [|split]; [by destruct (_ =? 0)..|];
         left; by destruct (_ =? 0)).
  destruct (disk w !! path) as [c|] eqn:Ec; simpl;
    try (intros [= <- <-]; split; [|split]; [by destruct (_ =? 0)..|];
         left; by destruct (_ =? 0)).
  destruct (c !! name) as [d|] eqn:Ed; simpl;
    try (intros [= <- <-]; split; [|split]; [by destruct (_ =? 0)..|];
         left; by destruct (_ =? 0)).
  intros [= <- <-]. split; [done|]. split; [done|]. right.
  exists path, d, c. repeat split; try done. simpl.
  apply map_eq. intros p. destruct (decide (p = path)) as [->|Hp].
  - by rewrite lookup_alter_eq, lookup_insert_eq, Ec.
  - by rewrite lookup_alter_ne, lookup_insert_ne.
Qed.

Lemma metadata_write_cases (loc : Z) (name : string) (t nc nb na : Z)
    (type_id : h5type) w o w1 :
  esio_field_metadata_write loc name t nc nb na type_id w = (o, w1) →
  match o with
  | Ok r =>
      ids w1 = ids w ∧ next_id w1 = next_id w
      ∧ ((r = -1 ∧ disk w1 = disk w)
         ∨ ∃ path d c n,
             r = 0 ∧ type_ncomponents type_id = Some n
             ∧ ids w !! loc = Some (ObjFile path true)
             ∧ disk w !! path = Some c ∧ c !! name = Some d
             ∧ disk w1
               = <[path := <[name :=
                     Dataset (ds_type d) (ds_dims d) (ds_data d)
                       (Some [ESIO_MAJOR_VERSION; ESIO_MINOR_VERSION;
                              ESIO_POINT_VERSION; t; nc; nb; na; n])]> c]>
                   (disk w))
  | Ret _ => False
  | Crash => True
  end.
Proof.
  unfold esio_field_metadata_write, bind.
  pose proof (ncomponents_call type_id w) as Hn.
  destruct (type_ncomponents type_id) as [n|]; [|rewrite Hn; by intros [= <- <-]].
  assert (∀ w2, ids w2 = ids w → disk w2 = disk w → next_id w2 = next_id w →
    io (H5LTset_attribute_int loc name
          [ESIO_MAJOR_VERSION; ESIO_MINOR_VERSION; ESIO_POINT_VERSION;
           t; nc; nb; na; n]) w2 = (o, w1) →
    match o with
    | Ok r =>
        ids w1 = ids w ∧ next_id w1 = next_id w
        ∧ ((r = -1 ∧ disk w1 = disk w)
           ∨ ∃ path d c n0,
               r = 0 ∧ Some n = Some n0
               ∧ ids w !! loc = Some (ObjFile path true)
               ∧ disk w !! path = Some c ∧ c !! name = Some d
               ∧ disk w1
                 = <[path := <[name :=
                       Dataset (ds_type d) (ds_dims d) (ds_data d)
                         (Some [ESIO_MAJOR_VERSION; ESIO_MINOR_VERSION;
                                ESIO_POINT_VERSION; t; nc; nb; na; n0])]> c]>
                     (disk w))
    | Ret _ => False
    | Crash => True
    end) as Hrest.
  { intros w2 Hids Hdisk Hnext. unfold io.
    destruct (H5LTset_attribute_int _ _ _ w2) as [r w3] eqn:Eset.
    intros [= <- <-].
    apply H5LTset_attribute_int_cases in Eset as (Hi & Hx & Hcase).
    rewrite Hi, Hx, Hids, Hnext. split; [done|]. split; [done|].
    destruct Hcase as [[-> Hd]|(path & d & c & -> & Hl & Hc & Hd & Hdisk')].
    - left. by rewrite Hd, Hdisk.
    - right. exists path, d, c, n. rewrite Hids in Hl. rewrite Hdisk in Hc, Hdisk'.
      done. }
  destruct Hn as [Hn|[reason Hn]]; rewrite Hn; intros Hrun;
    by apply Hrest in Hrun.
Qed.

Lemma field_create_cases (s : esio_state_s) (nc nb na : Z) (name : string)
    (type_id : h5type) w o w_a :
  esio_field_create esio_layout s nc nb na name type_id w = (o, w_a) →
  match o with
  | Ok dset_id =>
      ∃ path c n,
        layout_tag s = 0 ∧ dset_id = next_id w
        ∧ ids w !! file_id s = Some (ObjFile path true)
        ∧ disk w !! path = Some c ∧ c !! name = None
        ∧ type_ncomponents type_id = Some n
        ∧ ids w_a = <[next_id w := ObjDataset path name true]> (ids w)
        ∧ next_id w_a = next_id w + 1
        ∧ disk w_a
          = <[path := <[name := Dataset type_id [nc; nb; na] ∅
                          (Some [ESIO_MAJOR_VERSION; ESIO_MINOR_VERSION;
                                 ESIO_POINT_VERSION; 0; nc; nb; na; n])]> c]>
              (disk w)
  | Ret c => (c = ESIO_ESANITY ∨ c = ESIO_EFAILED) ∧ ids_grow w w_a
  | Crash => True
  end.
Proof.
  unfold esio_field_create. unfold bind at 1. rewrite layout_at_esio_layout.
  destruct (Z.eqb_spec (layout_tag s) 0) as [Etag|]; [|by intros [= <- <-]].
  unfold bind at 1. simpl. rewrite Etag. simpl.
  unfold esio_layout0_filespace_creator, H5Screate_simple.
  destruct (forallb _ _) eqn:Edims;
    [|intros [= <- <-]; split; [by left|]; intros i o' Hi; by left].
  unfold bind at 1. unfold io at 1.
  destruct (H5Dcreate1 (file_id s) name type_id [nc; nb; na] w) as [r w1] eqn:Ecr.
  apply H5Dcreate1_cases in Ecr
    as [(-> & Hi1 & Hd1 & Hn1)|(path & c & -> & Hfid & Hc & Hname & Hi1 & Hn1 & Hd1)].
  { unfold bind, fail_if, ESIO_ERROR. simpl. intros [= <- <-].
    split; [by left|]. intros i o' Hi. simpl in Hi. rewrite Hi1 in Hi. by left. }
  assert (ids_grow w w1) as Hgrow.
  { intros i o' Hi. rewrite Hi1 in Hi.
    apply lookup_insert_Some in Hi as [[<- _]|[_ Hi]]; [by right|by left]. }
  unfold bind at 1. unfold fail_if at 1.
  destruct (Z.ltb_spec (next_id w) 0).
  { unfold ESIO_ERROR. intros [= <- <-]. split; [by left|done]. }
  simpl. unfold bind at 1.
  destruct (esio_field_metadata_write _ _ _ _ _ _ _ w1) as [o1 w2] eqn:Emw.
  apply metadata_write_cases in Emw.
  destruct o1 as [r| |]; [|done|by intros [= <- <-]].
  destruct Emw as (Hi2 & Hn2 & Hcase).
  destruct Hcase as [[-> Hd2]|(path' & d & c' & n & -> & Hty & Hl & Hc' & Hd & Hd2)].
  { unfold bind, fail_if, ESIO_ERROR. simpl. intros [= <- <-].
    split; [by right|]. intros i o' Hi. simpl in Hi. rewrite Hi2 in Hi.
    by apply Hgrow. }
  unfold bind, fail_if, ret. simpl. intros [= <- <-].
  rewrite Hi1 in Hl.
  destruct (decide (next_id w = file_id s)) as [Eq|Hne].
  { rewrite Eq, lookup_insert_eq in Hl. done. }
  rewrite lookup_insert_ne, Hfid in Hl by done. injection Hl as <-.
  rewrite Hd1, lookup_insert_eq in Hc'. injection Hc' as <-.
  rewrite lookup_insert_eq in Hd. injection Hd as <-. simpl in Hd2.
  exists path, c, n. rewrite Hi2, Hn2, Hi1, Hn1, Hd2, Hd1.
  repeat split; try done.
  by rewrite !insert_insert_eq.
Qed.
Lemma find_dataset_disk (path name : string) w w' :
  disk w' = disk w → find_dataset path name w' = find_dataset path name w.
Proof. intros E. unfold find_dataset. by rewrite E. Qed.

Lemma put_dataset_inj (path name : string) (d1 d2 : dataset V) w :
  is_Some (disk w !! path) →
  put_dataset path name d1 w = put_dataset path name d2 w → d1 = d2.
Proof.
  intros [c Hc] E.
  assert (find_dataset path name (put_dataset path name d1 w)
          = find_dataset path name (put_dataset path name d2 w)) as E'
    by (by rewrite E).
  rewrite !(find_put_dataset _ _ _ _ c) in E' by done. by injection E'.
Qed.

Lemma writer_call_Ok_inv (dset_id : Z) (field : list V)
    (nc cst csz nb bst bsz na ast asz : Z) (type_id : h5type) w wstat w_b :
  1 ≤ csz → 1 ≤ bsz → 1 ≤ asz →
  call (esio_layout0_field_writer dset_id field nc cst csz nb bst bsz
          na ast asz type_id) (λ _, ESIO_SUCCESS) w = (Ok wstat, w_b) →
  wstat = ESIO_SUCCESS →
  ∃ path name d data',
    ids w !! dset_id = Some (ObjDataset path name true)
    ∧ find_dataset path name w = Some d
    ∧ length (ds_dims d) = 3%nat
    ∧ file_valid (FileSpace (ds_dims d) (cst, bst, ast) (csz, bsz, asz)) = true
    ∧ H5Tfind type_id (ds_type d) = true
    ∧ w_b = put_dataset path name
              (Dataset (ds_type d) (ds_dims d) data' (ds_meta d)) w
    ∧ (csz * bsz * asz ≤ INT_MAX →
       (Z.to_nat (csz * bsz * asz) ≤ length field)%nat
       ∧ data' = foldl (store type_id (ds_type d) field) (ds_data d)
                   (slab_pairs (ds_dims d) cst csz bst bsz ast asz)).
Proof.
  intros Hc Hb Ha Hcall ->.
  assert (∃ f', esio_layout0_field_writer dset_id field nc cst csz nb bst bsz
                  na ast asz type_id w = (Ok f', w_b)) as [f' Hrun].
  { apply call_Ok_inv in Hcall as [(f' & Hrun & _)|Hret]; [by exists f'|].
    unfold esio_layout0_field_writer in Hret.
    apply kernel_Ret_inv in Hret. done. }
  pose proof Hrun as Hgen. unfold esio_layout0_field_writer in Hgen.
  apply kernel_write_Ok_inv in Hgen
    as (path & name & d & data' & Hid & Hfd & Hdims & Hfv & Hfind & ->).
  exists path, name, d, data'. do 6 (split; [done|]).
  intros Hmax. unfold esio_layout0_field_writer in Hrun.
  rewrite layout0_contiguous in Hrun by done.
  unfold contiguous_transfer, ESIO_ERROR in Hrun. rewrite Hid, Hfd in Hrun.
  rewrite Hdims, Hfv in Hrun. simpl in Hrun.
  destruct (Nat.ltb_spec (length field) (Z.to_nat (csz * bsz * asz))); [done|].
  rewrite Hfind in Hrun. cbn [andb negb] in Hrun.
  apply (f_equal snd) in Hrun. cbn [snd] in Hrun.
  split; [done|].
  apply put_dataset_inj in Hrun.
  - by injection Hrun.
  - unfold find_dataset in Hfd. destruct (disk w !! path); [by eexists|done].
Qed.

Lemma field_close_call (dset_id : Z) w :
  ∃ r w', call (esio_field_close dset_id) (λ _, ESIO_SUCCESS) w = (Ok r, w')
          ∧ disk w' = disk w.
Proof.
  unfold call, esio_field_close, bind, io, fail_if, ESIO_ERROR, ret, H5Dclose, h5_fail.
  destruct (ids w !! dset_id) as [[|p n rw]|]; simpl; eauto;
    destruct (_ =? 0); simpl; eauto.
Qed.

Lemma field_close_call_inv (dset_id : Z) w r w' :
  call (esio_field_close dset_id) (λ _, ESIO_SUCCESS) w = (Ok r, w') →
  disk w' = disk w.
Proof.
  destruct (field_close_call dset_id w) as (r0 & w0 & E & Hd). rewrite E.
  by intros [= <- <-].
Qed.

Lemma wf_not_status w w' (c : Z) o :
  wf_world w → ids_grow w w' → c = ESIO_ESANITY ∨ c = ESIO_EFAILED →
  ids w' !! c = Some o → False.
Proof.
  intros [Hnext Hids] Hgrow Hc Hl. apply Hgrow in Hl as [Hl| ->].
  - apply Hids in Hl. unfold H5I_BASE, ESIO_ESANITY, ESIO_EFAILED in *. lia.
  - unfold H5I_BASE, ESIO_ESANITY, ESIO_EFAILED in *. lia.
Qed.

(** The tail of the write path shared by its two branches. *)
Lemma write_tail_Ok_inv (dset_id : Z) (field : list V)
    (nc cst csz nb bst bsz na ast asz : Z) (type_id : h5type) (t : Z) w w1 :
  1 ≤ csz → 1 ≤ bsz → 1 ≤ asz →
  (let* l := layout_at esio_layout t in
   let* wstat :=
     call (field_writer l dset_id field nc cst csz nb bst bsz na ast asz
             type_id) (fun _ => ESIO_SUCCESS) in
   if negb (wstat =? ESIO_SUCCESS) then
     let* _ := call (esio_field_close dset_id) (fun _ => ESIO_SUCCESS) in
     ESIO_ERROR_VAL "Error writing new field" ESIO_EFAILED wstat
   else
     let* _ := call (esio_field_close dset_id) (fun _ => ESIO_SUCCESS) in
     ret tt) w = (Ok tt, w1) →
  t = 0 ∧
  ∃ path name d data',
    ids w !! dset_id = Some (ObjDataset path name true)
    ∧ find_dataset path name w = Some d
    ∧ length (ds_dims d) = 3%nat
    ∧ file_valid (FileSpace (ds_dims d) (cst, bst, ast) (csz, bsz, asz)) = true
    ∧ H5Tfind type_id (ds_type d) = true
    ∧ disk w1
      = disk (put_dataset path name
                (Dataset (ds_type d) (ds_dims d) data' (ds_meta d)) w)
    ∧ (csz * bsz * asz ≤ INT_MAX →
       (Z.to_nat (csz * bsz * asz) ≤ length field)%nat
       ∧ data' = foldl (store type_id (ds_type d) field) (ds_data d)
                   (slab_pairs (ds_dims d) cst csz bst bsz ast asz)).
Proof.
  intros Hc Hb Ha Hrun.
  apply bind_Ok_inv in Hrun as (l & w0 & Hl & Hrun).
  rewrite layout_at_esio_layout in Hl.
  destruct (Z.eqb_spec t 0) as [->|]; [|done]. injection Hl as <- <-.
  split; [done|]. simpl in Hrun.
  apply bind_Ok_inv in Hrun as (wstat & w_b & Hw & Hrun).
  destruct (Z.eqb_spec wstat ESIO_SUCCESS) as [->|]; simpl in Hrun.
  2: { apply bind_Ok_inv in Hrun as (? & ? & _ & Hrun). done. }
  apply writer_call_Ok_inv in Hw
    as (path & name & d & data' & ? & ? & ? & ? & ? & -> & ?); [|done..].
  apply bind_Ok_inv in Hrun as (r & w_c & Hclose & Hrun).
  apply field_close_call_inv in Hclose. injection Hrun as <-.
  exists path, name, d, data'. rewrite Hclose. repeat (split; [done|]). done.
Qed.

Lemma sentinel_intact_short (data : list Z) :
  (length data ≤ 8)%nat → sentinel_intact data = true.
Proof.
  intros Hlen. unfold sentinel_intact, ESIO_FIELD_METADATA_SIZE.
  rewrite (proj2 (lookup_ge_None data 8)) by lia. by apply bool_decide_eq_true_2.
Qed.

(** A write that returns ESIO_SUCCESS leaves the field in the container
    with its metadata, and with the buffer stored in the local block. *)
Lemma write_Ok_stored (s : esio_state_s) (name : string) (field : list V)
    (nc cst csz nb bst bsz na ast asz : Z) (type_id : h5type) w w1
    (path : string) (rw : bool) :
  wf_world w → ids w !! file_id s = Some (ObjFile path rw) →
  esio_field_write_internal esio_layout (Some s) (Some name) (Some field)
    nc cst csz nb bst bsz na ast asz type_id w = (Ok tt, w1) →
  valid_request (file_id s) nc cst csz nb bst bsz na ast asz
  ∧ field_stored (csz * bsz * asz ≤ INT_MAX)
      (stored_metadata (file_id s) name w = None) path name
      type_id field nc cst csz nb bst bsz na ast asz w1.
Proof.
  intros Hwf Hfid Hrun. unfold esio_field_write_internal in Hrun.
  apply bind_Ok_inv in Hrun as ([[s0 n0] f0] & w0 & Hchk & Hrun).
  apply check_arguments_Ok_inv in Hchk as ([= <-] & [= <-] & [= <-] & -> & Hvalid).
  split; [done|].
  pose proof Hvalid as (_ & _ & _ & Hc & _ & _ & Hb & _ & _ & Ha).
  simpl in Hrun.
  apply bind_Ok_inv in Hrun as ([mstat m] & wp & Hprobe & Hrun).
  rewrite metadata_read_eq in Hprobe. unfold metadata_probe in Hprobe.
  (* the branch that creates the field *)
  assert (stored_metadata (file_id s) name w = None →
          (let* dset_id :=
             call (esio_field_create esio_layout s nc nb na name type_id) id in
           let* l := layout_at esio_layout (layout_tag s) in
           let* wstat :=
             call (field_writer l dset_id field nc cst csz nb bst bsz
                     na ast asz type_id) (fun _ => ESIO_SUCCESS) in
           if negb (wstat =? ESIO_SUCCESS) then
             let* _ := call (esio_field_close dset_id) (fun _ => ESIO_SUCCESS) in
             ESIO_ERROR_VAL "Error writing new field" ESIO_EFAILED wstat
           else
             let* _ := call (esio_field_close dset_id) (fun _ => ESIO_SUCCESS) in
             ret tt) w = (Ok tt, w1) →
          field_stored (csz * bsz * asz ≤ INT_MAX)
            (stored_metadata (file_id s) name w = None) path name
            type_id field nc cst csz nb bst bsz na ast asz w1) as Hnew.
  { clear Hrun Hprobe. intros Habsent Hrun.
    apply bind_Ok_inv in Hrun as (dset_id & w_a & Hcreate & Hrun).
    apply write_tail_Ok_inv in Hrun
      as (Htag & path' & name' & d & data' & Hid & Hfd & Hdims & Hfv & Hfind
          & Hdisk & Hexact);
      [|done..].
    apply call_Ok_inv in Hcreate as [(a & Hcreate & ->)|Hcreate];
      apply field_create_cases in Hcreate.
    - destruct Hcreate
        as (path0 & c & n & _ & -> & Hfid0 & Hc0 & Hname & Hty & Hids & Hnext & Hdk).
      rewrite Hfid in Hfid0. injection Hfid0 as <- ->.
      unfold id in Hid. rewrite Hids, lookup_insert_eq in Hid.
      injection Hid as <- <-.
      unfold find_dataset in Hfd. rewrite Hdk, lookup_insert_eq in Hfd.
      simpl in Hfd. rewrite lookup_insert_eq in Hfd. injection Hfd as <-.
      simpl in *.
      eexists _, _, n, ∅. split.
      { unfold find_dataset. rewrite Hdisk. simpl. rewrite Hdk.
        rewrite lookup_alter_eq, lookup_insert_eq. simpl.
        by rewrite lookup_insert_eq. }
      simpl. split; [done|]. split; [simpl; lia|].
      split; [by apply sentinel_intact_short; simpl; lia|].
      do 10 (split; [done|]).
      intros Hmax. destruct (Hexact Hmax) as [Hlen ->]. done.
    - destruct Hcreate as [Hcode Hgrow]. exfalso.
      by eapply (wf_not_status w w_a dset_id). }
  unfold stored_metadata in Hprobe. rewrite Hfid in Hprobe.
  destruct (find_dataset path name w) as [d|] eqn:Efd; simpl in Hprobe.
  2: { injection Hprobe as <- <- <-. simpl in Hrun. apply Hnew; [|done].
       unfold stored_metadata. by rewrite Hfid, Efd. }
  destruct (ds_meta d) as [data|] eqn:Emeta.
  2: { injection Hprobe as <- <- <-. simpl in Hrun. apply Hnew; [|done].
       unfold stored_metadata. rewrite Hfid, Efd. done. }
  clear Hnew.
  destruct (Nat.ltb_spec 9 (length data)) as [|Hlen9]; [done|].
  destruct (sentinel_intact data) eqn:Esent; simpl in Hprobe.
  2: { injection Hprobe as <- <- <-. simpl in Hrun. done. }
  destruct (data !! 3%nat) as [t|] eqn:E3; [|done].
  destruct (data !! 4%nat) as [mc|] eqn:E4; [|done].
  destruct (data !! 5%nat) as [mb|] eqn:E5; [|done].
  destruct (data !! 6%nat) as [ma|] eqn:E6; [|done].
  destruct (data !! 7%nat) as [mn|] eqn:E7; [|done].
  injection Hprobe as <- <- Hwp. simpl in Hrun.
  assert (ids wp = ids w ∧ disk wp = disk w ∧ next_id wp = next_id w) as (Hi & Hd & Hn).
  { subst wp. by destruct (_ || _). }
  clear Hwp.
  apply bind_Ok_inv in Hrun as ([] & ? & [Hnc ->]%fail_if_Ok_inv & Hrun).
  apply bind_Ok_inv in Hrun as ([] & ? & [Hnb ->]%fail_if_Ok_inv & Hrun).
  apply bind_Ok_inv in Hrun as ([] & ? & [Hna ->]%fail_if_Ok_inv & Hrun).
  apply bind_Ok_inv in Hrun as (ncomp & w2 & Hncomp & Hrun).
  apply ncomponents_call_Ok_inv in Hncomp as [Hty Hw2].
  assert (ids w2 = ids w ∧ disk w2 = disk w ∧ next_id w2 = next_id w) as (Hi2 & Hd2 & Hn2).
  { destruct Hw2 as [->|[reason ->]]; simpl; done. }
  clear Hw2.
  apply bind_Ok_inv in Hrun as ([] & ? & [Hcomp ->]%fail_if_Ok_inv & Hrun).
  apply bind_Ok_inv in Hrun as (dset_id & w3 & Hopen%io_Ok_inv & Hrun).
  unfold H5Dopen in Hopen. rewrite Hi2, Hfid in Hopen.
  rewrite (find_dataset_disk path name w w2), Efd in Hopen by done.
  injection Hopen as <- <-.
  apply bind_Ok_inv in Hrun as ([] & ? & [_ ->]%fail_if_Ok_inv & Hrun).
  apply bind_Ok_inv in Hrun as (d' & ? & Hd'%io_Ok_inv & Hrun).
  injection Hd' as <- <-.
  apply bind_Ok_inv in Hrun as ([] & ? & [Hfind0 ->]%fail_if_Ok_inv & Hrun).
  apply write_tail_Ok_inv in Hrun
    as (-> & path' & name' & d' & data' & Hid & Hfd' & Hdims & Hfv & Hfind
        & Hdisk & Hexact);
    [|done..].
  simpl in Hid. rewrite lookup_insert_eq in Hid.
  injection Hid as Hp' Hn' Hrw. subst path' name' rw.
  rewrite (find_dataset_disk path name w2) in Hfd' by done.
  rewrite (find_dataset_disk path name w w2), Efd in Hfd' by done.
  injection Hfd' as <-.
  apply negb_false_iff, Z.eqb_eq in Hnc, Hnb, Hna, Hcomp. subst mc mb ma mn.
  assert (is_Some (disk w !! path)) as [c Hc'].
  { unfold find_dataset in Efd. destruct (disk w !! path); [by eexists|done]. }
  eexists _, data, ncomp, (ds_data d). split.
  { unfold find_dataset. rewrite Hdisk. simpl. rewrite Hd2.
    rewrite lookup_alter_eq, Hc'. simpl. by rewrite lookup_insert_eq. }
  simpl. do 10 (split; [done|]). split.
  { unfold stored_metadata. rewrite Hfid, Efd. simpl. by rewrite Emeta. }
  do 2 (split; [done|]).
  intros Hmax. destruct (Hexact Hmax) as [Hlen ->]. done.
Qed.

Lemma fail_if_pass (c : bool) (reason : string) (code : Z) w :
  c = false → fail_if c reason code w = (Ok tt, w).
Proof. by intros ->. Qed.

Lemma metadata_read_stored (loc : Z) (name path : string) (rw : bool) w
    (d : dataset V) (data : list Z) (nc nb na n : Z) :
  ids w !! loc = Some (ObjFile path rw) →
  find_dataset path name w = Some d → ds_meta d = Some data →
  (length data ≤ 9)%nat → sentinel_intact data = true →
  data !! 3%nat = Some 0 → data !! 4%nat = Some nc → data !! 5%nat = Some nb →
  data !! 6%nat = Some na → data !! 7%nat = Some n →
  esio_field_metadata_read esio_layout loc name w
  = (Ok (0, Some (Metadata 0 nc nb na n)), w).
Proof.
  intros Hid Hfd Hmeta Hlen Hsent E3 E4 E5 E6 E7.
  rewrite metadata_read_eq. unfold metadata_probe, stored_metadata.
  rewrite Hid, Hfd. simpl. rewrite Hmeta.
  destruct (Nat.ltb_spec 9 (length data)); [lia|].
  rewrite Hsent, E3, E4, E5, E6, E7. done.
Qed.

(** Reading a stored field back: the read returns ESIO_SUCCESS with the
    block of the dataset loaded into the buffer. *)
Lemma read_stored (s : esio_state_s) (name : string) (field field0 : list V)
    (nc cst csz nb bst bsz na ast asz : Z) (type_id : h5type) w
    (path : string) (rw : bool) :
  valid_request (file_id s) nc cst csz nb bst bsz na ast asz →
  csz * bsz * asz ≤ INT_MAX →
  ids w !! file_id s = Some (ObjFile path rw) → 0 ≤ next_id w →
  ∀ exact fresh,
  field_stored exact fresh path name type_id field nc cst csz nb bst bsz na
    ast asz w →
  (∀ a b, H5Tfind a b = H5Tfind b a) →
  (Z.to_nat (csz * bsz * asz) ≤ length field0)%nat →
  ∃ d w',
    find_dataset path name w = Some d
    ∧ esio_field_read_internal esio_layout (Some s) (Some name) (Some field0)
        nc cst csz nb bst bsz na ast asz type_id w
      = (Ok (foldl (load (ds_type d) type_id (ds_data d)) field0
               (slab_pairs (ds_dims d) cst csz bst bsz ast asz)), w').
Proof.
  intros Hvalid Hmax Hfid Hnext exact fresh
    (d & data & n & data0 & Hfd & Hmeta & Hlen & Hsent & E3 & E4 & E5 & E6 & E7
     & Hty & Hfind & _ & Hdims & Hfv & _) Hsym Hlen0.
  pose proof Hvalid as (_ & _ & _ & Hc & _ & _ & Hb & _ & _ & Ha).
  exists d. unfold esio_field_read_internal.
  erewrite bind_step; [|by apply check_arguments_valid]. simpl.
  erewrite bind_step; [|by eapply metadata_read_stored]. cbv beta iota.
  erewrite bind_step; [|by apply fail_if_pass].
  erewrite bind_step; [|apply fail_if_pass; simpl; by rewrite Z.eqb_refl].
  erewrite bind_step; [|apply fail_if_pass; simpl; by rewrite Z.eqb_refl].
  erewrite bind_step; [|apply fail_if_pass; simpl; by rewrite Z.eqb_refl].
  pose proof (ncomponents_call type_id w) as Hn. rewrite Hty in Hn.
  assert (∀ w2, ids w2 = ids w → disk w2 = disk w → next_id w2 = next_id w →
    ∃ w',
      (let* _ := fail_if (negb (n =? m_ncomponents (Metadata 0 nc nb na n)))
                   "request ncomponents mismatch with existing field"
                   ESIO_EINVAL in
       let* dset_id := io (H5Dopen (file_id s) name) in
       let* _ := fail_if (dset_id <? 0) "Unable to open dataset" ESIO_EFAILED in
       let* d := io (fun w => (dataset_of dset_id w, w)) in
       let* _ :=
         fail_if (negb (from_option (fun d => H5Tfind type_id (ds_type d))
                          false d))
           "request type not convertible to existing field type" ESIO_EINVAL in
       let* l := layout_at esio_layout (m_layout_tag (Metadata 0 nc nb na n)) in
       let* field' :=
         ignore_status
           (field_reader l dset_id field0 nc cst csz nb bst bsz na ast asz
              type_id) field0 in
       let* _ := call (esio_field_close dset_id) (fun _ => ESIO_SUCCESS) in
       ret field') w2
      = (Ok (foldl (load (ds_type d) type_id (ds_data d)) field0
               (slab_pairs (ds_dims d) cst csz bst bsz ast asz)), w'))
    as Hrest.
  { intros w2 Hi2 Hd2 Hn2.
    erewrite bind_step; [|apply fail_if_pass; simpl; by rewrite Z.eqb_refl].
    erewrite bind_step.
    2: { unfold io, H5Dopen. rewrite Hi2, Hfid.
         rewrite (find_dataset_disk path name w w2), Hfd by done. done. }
    erewrite bind_step.
    2: { apply fail_if_pass. simpl. apply Z.ltb_ge. lia. }
    erewrite bind_step.
    2: { unfold io, dataset_of. simpl. rewrite lookup_insert_eq.
         unfold find_dataset. simpl. fold (find_dataset path name w2).
         rewrite (find_dataset_disk path name w w2), Hfd by done. done. }
    erewrite bind_step; [|apply fail_if_pass; simpl; by rewrite Hfind].
    erewrite bind_step; [|by rewrite layout_at_esio_layout].
    cbn [field_reader].
    set (w3 := set_ids _ _ w2).
    assert (ignore_status
              (esio_layout0_field_reader (next_id w2) field0 nc cst csz nb bst bsz
                 na ast asz type_id) field0 w3
            = (Ok (foldl (load (ds_type d) type_id (ds_data d)) field0
                     (slab_pairs (ds_dims d) cst csz bst bsz ast asz)), w3))
      as Hread.
    { unfold ignore_status, esio_layout0_field_reader.
      rewrite layout0_contiguous by done. unfold contiguous_transfer.
      unfold w3 at 1. simpl. rewrite lookup_insert_eq.
      unfold find_dataset. simpl. fold (find_dataset path name w2).
      rewrite (find_dataset_disk path name w w2), Hfd by done.
      rewrite Hdims, Hfv. simpl.
      destruct (Nat.ltb_spec (length field0) (Z.to_nat (csz * bsz * asz)));
        [lia|].
      rewrite Hsym, Hfind. done. }
    erewrite bind_step; [|exact Hread].
    destruct (field_close_call (next_id w2) w3) as (r & w4 & Hclose & _).
    erewrite bind_step; [|exact Hclose].
    by eexists. }
  destruct Hn as [Hn|[reason Hn]].
  - erewrite bind_step; [|exact Hn].
    destruct (Hrest w) as [w' Hw']; [done..|]. by exists w'.
  - erewrite bind_step; [|exact Hn].
    destruct (Hrest (report reason ESIO_ESANITY w)) as [w' Hw']; [done..|].
    by exists w'.
Qed.

Lemma file_open_Ok_inv (s : esio_state_s) (path : string) (rw : bool) w s' w' :
  esio_file_open (Some s) (Some path) rw w = (Ok s', w') →
  s' = set_file_id s (next_id w) ∧ 0 ≤ next_id w ∧ disk w' = disk w
  ∧ ids w' = <[next_id w := ObjFile path rw]> (ids w)
  ∧ next_id w' = next_id w + 1.
Proof.
  unfold esio_file_open, bind, fail_if, io, ret, ESIO_ERROR, H5Fopen.
  destruct (file_id s =? -1); simpl; [|discriminate].
  destruct (disk w !! path); simpl; [|discriminate].
  destruct (forallb _ _); simpl; [|discriminate].
  destruct (Z.ltb_spec (next_id w) 0); [discriminate|].
  intros [= <- <-]. done.
Qed.

Context `{!Hdf5Laws V}.

(** C1: if a field_write of [field] returns ESIO_SUCCESS, the file is then
    closed and opened again, a field_read with the same name, decomposition
    and element type returns ESIO_SUCCESS and leaves in the caller's buffer
    the elements written, each converted to the stored type and back. The
    buffer read equals the buffer written when the stored type is the
    caller's, which is the case whenever the write created the field. The
    arguments are C [int]s and the local block has at most INT_MAX
    elements, so that the kernel's products do not overflow. *)
Theorem field_round_trip (s s1 s2 : esio_state_s) (name path : string)
    (field field0 : list V) (nc cst csz nb bst bsz na ast asz : Z)
    (type_id : h5type) (rw rw' : bool) w w1 w2 w3 :
  wf_world w →
  ids w !! file_id s = Some (ObjFile path rw) →
  int_request nc cst csz nb bst bsz na ast asz →
  length field = Z.to_nat (csz * bsz * asz) →
  length field0 = length field →
  esio_field_write_internal esio_layout (Some s) (Some name) (Some field)
    nc cst csz nb bst bsz na ast asz type_id w = (Ok tt, w1) →
  esio_file_close (Some s) w1 = (Ok s1, w2) →
  esio_file_open (Some s1) (Some path) rw' w2 = (Ok s2, w3) →
  ∃ (d : dataset V) (field' : list V) w4,
    find_dataset path name w3 = Some d
    ∧ esio_field_read_internal esio_layout (Some s2) (Some name) (Some field0)
        nc cst csz nb bst bsz na ast asz type_id w3 = (Ok field', w4)
    ∧ field'
      = (λ v, H5T_convert (ds_type d) type_id
                (H5T_convert type_id (ds_type d) v)) <$> field
    ∧ (ds_type d = type_id → field' = field)
    ∧ (stored_metadata (file_id s) name w = None → field' = field).
Proof.
  intros Hwf Hfid Hint Hlen Hlen0 Hwrite Hclose Hopen.
  pose proof Hint as (_ & _ & _ & _ & _ & _ & Hmax).
  apply (write_Ok_stored _ _ _ _ _ _ _ _ _ _ _ _ _ _ _ path rw Hwf Hfid)
    in Hwrite as [Hvalid Hstored].
  apply file_close_ok_inv in Hclose as (-> & Hd2 & _).
  apply file_open_Ok_inv in Hopen as (-> & Hnext & Hd3 & Hi3 & Hn3).
  assert (field_stored (csz * bsz * asz ≤ INT_MAX)
            (stored_metadata (file_id s) name w = None) path name
            type_id field nc cst csz nb bst bsz na ast asz w3) as Hstored3.
  { destruct Hstored as (d & data & n & data0 & Hfd & Hrest).
    exists d, data, n, data0. split; [|done].
    rewrite (find_dataset_disk path name w2), (find_dataset_disk path name w1);
      done. }
  destruct (read_stored (set_file_id (set_file_id s (-1)) (next_id w2)) name
              field field0 nc cst csz nb bst bsz na ast asz type_id w3 path rw')
    with (exact := csz * bsz * asz ≤ INT_MAX)
         (fresh := stored_metadata (file_id s) name w = None)
    as (d & w4 & Hfd & Hread).
  - destruct Hvalid as (_ & Hv). split; [simpl; lia|done].
  - done.
  - simpl. by rewrite Hi3, lookup_insert_eq.
  - lia.
  - done.
  - apply H5Tfind_sym.
  - lia.
  - destruct Hstored3 as (d' & data & n & data0 & Hfd' & _ & _ & _ & _ & _ & _
                          & _ & _ & _ & _ & Hfresh & Hdims & Hfv & Hexact).
    destruct (Hexact Hmax) as [_ Hdata].
    rewrite Hfd in Hfd'. injection Hfd' as <-.
    assert (foldl (load (ds_type d) type_id (ds_data d)) field0
              (slab_pairs (ds_dims d) cst csz bst bsz ast asz)
            = (λ v, H5T_convert (ds_type d) type_id
                      (H5T_convert type_id (ds_type d) v)) <$> field) as Hround.
    { rewrite Hdata. unfold slab_pairs. rewrite <-Hlen.
      apply store_load_roundtrip; [apply file_selected_NoDup| |done].
      rewrite file_selected_length. simpl.
      destruct Hvalid as (_ & _ & _ & ? & _ & _ & ? & _ & _ & ?).
      rewrite Hlen, !Z2Nat.inj_mul; lia. }
    assert (ds_type d = type_id →
            (λ v, H5T_convert (ds_type d) type_id
                    (H5T_convert type_id (ds_type d) v)) <$> field = field)
      as Hsame.
    { intros ->. rewrite <-(list_fmap_id field) at 2.
      apply list_fmap_ext. intros i v _. simpl. by rewrite !H5T_convert_same. }
    eexists d, _, w4. split; [done|]. split; [exact Hread|].
    split; [done|]. rewrite Hround. split; [done|].
    intros Habsent. by apply Hsame, Hfresh.
Qed.
End Engine.

(** ** The layout dispatched for a field that exists *)

Section StoredLayout.
Context {V : Type} `{!Hdf5 V}.
Implicit Types (w : world V).

Lemma ncomponents_call_pos (type_id : h5type) (n : Z) w :
  type_ncomponents type_id = Some n → 0 < n →
  call (esio_type_ncomponents type_id) id w = (Ok n, w).
Proof.
  unfold type_ncomponents, esio_type_ncomponents, call.
  destruct type_id as [| | |base dims|[]]; simpl;
    try (by intros [= <-]); try (intros [= <-]; lia).
  destruct (one_dimension dims) as [m|]; simpl; [|done].
  destruct ((0 <? m) && (m <=? INT_MAX)); simpl; [by intros [= <-]|done].
Qed.

Lemma metadata_read_known (table : list layout) (loc : Z) (name path : string)
    (rw : bool) w (d : dataset V) (v0 v1 v2 t nc nb na n : Z) :
  ids w !! loc = Some (ObjFile path rw) →
  find_dataset path name w = Some d →
  ds_meta d = Some [v0; v1; v2; t; nc; nb; na; n] →
  0 ≤ t < esio_nlayout table →
  esio_field_metadata_read table loc name w
  = (Ok (0, Some (Metadata t nc nb na n)), w).
Proof.
  intros Hid Hfd Hmeta Ht.
  rewrite metadata_read_eq. unfold metadata_probe, stored_metadata.
  rewrite Hid, Hfd. simpl. rewrite Hmeta. simpl.
  destruct (Z.ltb_spec t 0); [lia|].
  destruct (Z.leb_spec (esio_nlayout table) t); [lia|]. done.
Qed.

(** C2: on a field that exists, the read and the write run the reader and
    the writer of the registry entry found at the layout tag stored in the
    field's metadata, on the dataset just opened: the outcome is the one of
    that entry's function, for any registry and any entry. The active tag
    of the handle plays no part: the transfer is the same for every value
    of it, so a read after the active tag was changed returns what it
    returned before. *)
Theorem transfer_uses_stored_layout (table : list layout) (l : layout)
    (s : esio_state_s) (name path : string) (rw : bool) (field : list V)
    (nc cst csz nb bst bsz na ast asz : Z) (type_id : h5type) w
    (d : dataset V) (v0 v1 v2 t n : Z) :
  valid_request (file_id s) nc cst csz nb bst bsz na ast asz →
  ids w !! file_id s = Some (ObjFile path rw) → 0 ≤ next_id w →
  find_dataset path name w = Some d →
  ds_meta d = Some [v0; v1; v2; t; nc; nb; na; n] →
  0 ≤ t → table !! Z.to_nat t = Some l →
  type_ncomponents type_id = Some n → 0 < n →
  H5Tfind type_id (ds_type d) = true →
  let dset_id := next_id w in
  let opened :=
    set_ids (<[dset_id := ObjDataset path name rw]> (ids w)) (dset_id + 1) w in
  (∀ active,
     esio_field_read_internal table (Some (set_layout_tag s active))
       (Some name) (Some field) nc cst csz nb bst bsz na ast asz type_id w
     = (let* field' :=
          ignore_status
            (field_reader l dset_id field nc cst csz nb bst bsz na ast asz
               type_id) field in
        let* _ := call (esio_field_close dset_id) (fun _ => ESIO_SUCCESS) in
        ret field') opened)
  ∧ (∀ active,
       esio_field_write_internal table (Some (set_layout_tag s active))
         (Some name) (Some field) nc cst csz nb bst bsz na ast asz type_id w
       = (let* wstat :=
            call (field_writer l dset_id field nc cst csz nb bst bsz na ast asz
                    type_id) (fun _ => ESIO_SUCCESS) in
          if negb (wstat =? ESIO_SUCCESS) then
            let* _ := call (esio_field_close dset_id) (fun _ => ESIO_SUCCESS) in
            ESIO_ERROR_VAL "Error writing new field" ESIO_EFAILED wstat
          else
            let* _ := call (esio_field_close dset_id) (fun _ => ESIO_SUCCESS) in
            ret tt) opened)
  ∧ (∀ active (buffer : option (list V)) cst' csz' bst' bsz' ast' asz' type_id',
       esio_field_read_internal table (Some (set_layout_tag s active))
         (Some name) buffer nc cst' csz' nb bst' bsz' na ast' asz' type_id' w
       = esio_field_read_internal table (Some s)
           (Some name) buffer nc cst' csz' nb bst' bsz' na ast' asz' type_id' w
       ∧ esio_field_write_internal table (Some (set_layout_tag s active))
           (Some name) buffer nc cst' csz' nb bst' bsz' na ast' asz' type_id' w
         = esio_field_write_internal table (Some s)
             (Some name) buffer nc cst' csz' nb bst' bsz' na ast' asz' type_id' w).
Proof.
  intros Hvalid Hfid Hnext Hfd Hmeta Ht Hl Hty Hn Hfind dset_id opened.
  assert (0 ≤ t < esio_nlayout table) as Htag.
  { split; [done|]. apply lookup_lt_Some in Hl. unfold esio_nlayout. lia. }
  assert (layout_at table t = ret l) as Hlayout.
  { unfold layout_at. destruct (Z.ltb_spec t 0); [lia|]. by rewrite Hl. }
  assert (∀ active,
            valid_request (file_id (set_layout_tag s active))
              nc cst csz nb bst bsz na ast asz) as Hvalid' by done.
  split; [|split].
  - intros active. unfold esio_field_read_internal.
    erewrite bind_step; [|by apply check_arguments_valid]. simpl file_id.
    cbv beta iota.
    erewrite bind_step; [|by eapply metadata_read_known]. cbv beta iota.
    erewrite bind_step; [|by apply fail_if_pass].
    erewrite bind_step; [|apply fail_if_pass; simpl; by rewrite Z.eqb_refl].
    erewrite bind_step; [|apply fail_if_pass; simpl; by rewrite Z.eqb_refl].
    erewrite bind_step; [|apply fail_if_pass; simpl; by rewrite Z.eqb_refl].
    erewrite bind_step; [|by apply ncomponents_call_pos].
    erewrite bind_step; [|apply fail_if_pass; simpl; by rewrite Z.eqb_refl].
    erewrite bind_step; [|unfold io, H5Dopen; simpl file_id; by rewrite Hfid, Hfd].
    erewrite bind_step; [|apply fail_if_pass; simpl; apply Z.ltb_ge; lia].
    erewrite bind_step.
    2: { unfold io, dataset_of. simpl. rewrite lookup_insert_eq.
         unfold find_dataset. simpl. fold (find_dataset path name w).
         by rewrite Hfd. }
    erewrite bind_step; [|apply fail_if_pass; simpl; by rewrite Hfind].
    simpl m_layout_tag. rewrite Hlayout.
    erewrite bind_step; [|done]. done.
  - intros active. unfold esio_field_write_internal.
    erewrite bind_step; [|by apply check_arguments_valid]. simpl file_id.
    cbv beta iota.
    erewrite bind_step; [|by eapply metadata_read_known]. cbv beta iota.
    change (0 <? 0) with false. cbv beta iota.
    erewrite bind_step; [|apply fail_if_pass; simpl; by rewrite Z.eqb_refl].
    erewrite bind_step; [|apply fail_if_pass; simpl; by rewrite Z.eqb_refl].
    erewrite bind_step; [|apply fail_if_pass; simpl; by rewrite Z.eqb_refl].
    erewrite bind_step; [|by apply ncomponents_call_pos].
    erewrite bind_step; [|apply fail_if_pass; simpl; by rewrite Z.eqb_refl].
    erewrite bind_step; [|unfold io, H5Dopen; simpl file_id; by rewrite Hfid, Hfd].
    erewrite bind_step; [|apply fail_if_pass; simpl; apply Z.ltb_ge; lia].
    erewrite bind_step.
    2: { unfold io, dataset_of. simpl. rewrite lookup_insert_eq.
         unfold find_dataset. simpl. fold (find_dataset path name w).
         by rewrite Hfd. }
    erewrite bind_step; [|apply fail_if_pass; simpl; by rewrite Hfind].
    simpl m_layout_tag. rewrite Hlayout.
    erewrite bind_step; [|done]. done.
  - intros active buffer cst' csz' bst' bsz' ast' asz' type_id'.
    destruct (transfer_ignores_active_tag table table s active name buffer
                nc cst' csz' nb bst' bsz' na ast' asz' type_id' w
                [v0; v1; v2; t; nc; nb; na; n]) as [Hr Hw]; [|done|done|by split].
    unfold stored_metadata. rewrite Hfid, Hfd. simpl. by rewrite Hmeta.
Qed.
End StoredLayout.

Lemma transfer_uses_stored_layout_witness :
  ∃ w',
    esio_field_read_internal (esio_layout ++ [layout_mirror])
      (Some (set_layout_tag demo_handle 0)) (Some "u"%string) (Some demo_field)
      4 0 4 3 0 3 2 0 2 H5T_NATIVE_DOUBLE (tagged_world 1)
    = (Ok (rev demo_field), w').
Proof.
  destruct (transfer_uses_stored_layout (esio_layout ++ [layout_mirror])
              layout_mirror demo_handle "u" "a.h5" true demo_field
              4 0 4 3 0 3 2 0 2 H5T_NATIVE_DOUBLE (tagged_world 1)
              (Dataset H5T_NATIVE_DOUBLE [4; 3; 2] ∅
                 (Some [0; 0; 1; 1; 4; 3; 2; 1])) 0 0 1 1 1)
    as (Hread & _ & _).
  - vm_compute. repeat split; discriminate.
  - reflexivity.
  - vm_compute. discriminate.
  - reflexivity.
  - reflexivity.
  - lia.
  - reflexivity.
  - reflexivity.
  - lia.
  - reflexivity.
  - eexists. rewrite (Hread 0). vm_compute. reflexivity.
Defined.

(** ** Steps shared by the properties of a field that exists *)

Section ExistingField.
Context {V : Type} `{!Hdf5 V}.
Implicit Types (w : world V).

Lemma bind_Ret_step {A B} (m : M V A) (f : A → M V B) w (c : Z) w1 :
  m w = (Ret c, w1) → bind m f w = (Ret c, w1).
Proof. intros E. unfold bind. by rewrite E. Qed.

Lemma check_arguments_cases (s : option esio_state_s) name field
    nc cst csz nb bst bsz na ast asz w :
  match check_arguments s name field nc cst csz nb bst bsz na ast asz w with
  | (Ok (s0, n, f), w') =>
      s = Some s0 ∧ name = Some n ∧ field = Some f ∧ w' = w
      ∧ valid_request (file_id s0) nc cst csz nb bst bsz na ast asz
  | (Ret c, w') => c = ESIO_EINVAL ∧ ∃ reason, w' = report reason ESIO_EINVAL w
  | (Crash, _) => False
  end.
Proof.
  destruct (check_arguments s name field nc cst csz nb bst bsz na ast asz w)
    as [[[[s0 n] f]|c|] w'] eqn:E.
  - by apply check_arguments_Ok_inv in E.
  - revert E. unfold check_arguments, bind, fail_if, ESIO_ERROR, ret.
    destruct s as [s|]; [|intros [= <- <-]; eauto].
    destruct (file_id s =? -1); [intros [= <- <-]; eauto|].
    destruct name as [name|]; [|intros [= <- <-]; eauto].
    destruct field as [field|]; [|intros [= <- <-]; eauto].
    repeat match goal with
           | |- context [if ?c then _ else _] =>
               destruct c; [intros [= <- <-]; eauto|]
           end.
    done.
  - revert E. unfold check_arguments, bind, fail_if, ESIO_ERROR, ret.
    destruct s as [s|]; [|done].
    destruct (file_id s =? -1); [done|].
    destruct name as [name|]; [|done].
    destruct field as [field|]; [|done].
    repeat match goal with
           | |- context [if ?c then _ else _] => destruct c; [done|]
           end.
    done.
Qed.

Lemma file_valid_inside (nc nb na cst csz bst bsz ast asz : Z) :
  0 ≤ cst → 0 ≤ bst → 0 ≤ ast →
  cst + csz ≤ nc → bst + bsz ≤ nb → ast + asz ≤ na →
  file_valid (FileSpace [nc; nb; na] (cst, bst, ast) (csz, bsz, asz)) = true.
Proof.
  intros. unfold file_valid. simpl.
  repeat (apply andb_true_iff; split); apply Z.leb_le; lia.
Qed.

End ExistingField.

(** ** The demonstration driver *)

Lemma numeric_H5Tfind_refl (t : h5type) : numeric_H5Tfind t t = true.
Proof.
  induction t as [| | |base IH dims|c]; simpl; try done.
  - rewrite IH. by rewrite bool_decide_eq_true_2.
  - by apply bool_decide_eq_true_2.
Qed.

Lemma numeric_H5Tfind_sym (a b : h5type) :
  numeric_H5Tfind a b = numeric_H5Tfind b a.
Proof.
  revert b. induction a as [| | |base IH dims|c]; intros [| | |base' dims'|c'];
    simpl; try done;
    try (by destruct c'); try (by destruct c).
  - rewrite IH. f_equal. apply bool_decide_ext. naive_solver.
  - apply bool_decide_ext. naive_solver.
Qed.

#[global] Instance Z_hdf5_laws : Hdf5Laws Z.
Proof.
  split.
  - apply numeric_H5Tfind_refl.
  - apply numeric_H5Tfind_sym.
  - done.
Qed.

Lemma wf_demo_world : wf_world demo_world.
Proof.
  split; [unfold demo_world, H5I_BASE; simpl; lia|].
  intros i o Hi. unfold demo_world in Hi. simpl in Hi.
  apply lookup_singleton_Some in Hi as [<- _]. done.
Qed.

Lemma field_round_trip_witness :
  ∃ w4,
    esio_field_read_internal esio_layout
      (Some (set_file_id demo_handle (H5I_BASE + 2))) (Some "u"%string)
      (Some (replicate 24 0)) 4 0 4 3 0 3 2 0 2 H5T_NATIVE_DOUBLE demo_reopened
    = (Ok demo_field, w4).
Proof.
  destruct (field_round_trip demo_handle (set_file_id demo_handle (-1))
              (set_file_id demo_handle (H5I_BASE + 2)) "u" "a.h5" demo_field
              (replicate 24 0) 4 0 4 3 0 3 2 0 2 H5T_NATIVE_DOUBLE true false
              demo_world demo_written demo_closed demo_reopened)
    as (d & field' & w4 & _ & Hread & _ & _ & Hsame).
  - apply wf_demo_world.
  - reflexivity.
  - unfold int_request, INT_MAX. lia.
  - reflexivity.
  - reflexivity.
  - vm_compute. reflexivity.
  - vm_compute. reflexivity.
  - vm_compute. reflexivity.
  - exists w4. rewrite Hread, Hsame; reflexivity.
Defined.

(** * Further properties of restart_nextindex *)

Lemma strtoul_digits_nonneg (s : cstr) (pos : nat) (acc : Z) (ovf : bool)
    (fuel : nat) :
  0 ≤ acc → 0 ≤ (strtoul_digits s pos acc ovf fuel).1.1.
Proof.
  revert pos acc ovf. induction fuel as [|fuel IH]; intros pos acc ovf Hacc;
    [done|].
  cbn [strtoul_digits]. destruct (isdigit (s @@ pos)) eqn:Hd; [|done].
  apply IH. destruct (isdigit_plain _ Hd) as (_ & _ & _ & _ & ?). lia.
Qed.

Lemma strtoul_nonneg (s : cstr) (start : nat) : 0 ≤ (strtoul s start).1.
Proof.
  unfold strtoul.
  set (p := skip_space s start (length s)).
  match goal with
  | |- context [strtoul_digits s ?q 0 false _] => set (p' := q)
  end.
  pose proof (strtoul_digits_nonneg s p' 0 false (length s)) as Hv.
  destruct (strtoul_digits s p' 0 false (length s)) as [[v ovf] e].
  simpl in Hv. specialize (Hv ltac:(lia)).
  destruct (e =? p')%nat; [done|].
  destruct ovf; [done|].
  destruct (Ascii.eqb (s @@ p) "-"); [|done].
  simpl. apply Z.mod_pos_bound. done.
Qed.

(** The answer of restart_nextindex is [errval], or an [int] that is not
    negative: the increment never leaves the range of [int]. *)
Theorem nextindex_range (tmpl name : cstr) (errval : Z) :
  restart_nextindex tmpl name errval = errval
  ∨ 0 ≤ restart_nextindex tmpl name errval ≤ INT_MAX.
Proof.
  unfold restart_nextindex.
  destruct (is_nul _); [by left|].
  destruct (negb (is_hash _)); [by right|].
  destruct (negb (isdigit _)); [by right|].
  destruct (final_hash _ _ _ _) as [j k].
  destruct (scan_back _ _ _ _ _ _ _) as [k' l'].
  destruct (negb (is_hash _)); [by right|].
  pose proof (strtoul_nonneg name
                (advance_both tmpl name 0 (S (length tmpl)))) as Hv.
  destruct (strtoul name _) as [curr endptr]. simpl in Hv.
  destruct (negb (endptr =? l' + 1)%nat); [by right|].
  destruct (Z.ltb_spec (INT_MAX - 1) curr); [by left|].
  destruct (negb (single_hash_run _ _ _ _)); [by left|].
  right. lia.
Qed.

Lemma advance_both_stop (tmpl name : cstr) (i fuel : nat) :
  (length tmpl - i < fuel)%nat →
  let i' := advance_both tmpl name i fuel in
  (i ≤ i')%nat
  ∧ (∀ m, (i ≤ m < i')%nat →
       tmpl @@ m ≠ NUL ∧ tmpl @@ m = name @@ m)
  ∧ (tmpl @@ i' = NUL ∨ name @@ i' = NUL ∨ tmpl @@ i' ≠ name @@ i').
Proof.
  revert i. induction fuel as [|fuel IH]; intros i Hf; [lia|].
  cbn [advance_both].
  destruct (is_nul (tmpl @@ i)) eqn:Ht.
  { simpl. split; [lia|]. split; [intros; lia|].
    left. unfold is_nul in Ht. by apply Ascii.eqb_eq in Ht. }
  destruct (is_nul (name @@ i)) eqn:Hn.
  { simpl. split; [lia|]. split; [intros; lia|].
    right. left. unfold is_nul in Hn. by apply Ascii.eqb_eq in Hn. }
  destruct (Ascii.eqb_spec (tmpl @@ i) (name @@ i)) as [He|Hne].
  2: { simpl. split; [lia|]. split; [intros; lia|]. by right; right. }
  simpl.
  assert (i < length tmpl)%nat as Hi.
  { destruct (Nat.lt_ge_cases i (length tmpl)); [done|].
    rewrite char_at_eq, (proj2 (lookup_ge_None tmpl i)) in Ht by lia.
    done. }
  destruct (IH (S i) ltac:(lia)) as (H1 & H2 & H3).
  split; [lia|]. split; [|done].
  intros m Hm. destruct (decide (m = i)) as [->|].
  - split; [|done]. intros E. unfold is_nul in Ht. rewrite E in Ht. done.
  - apply H2. lia.
Qed.

Lemma advance_both_prefix_of (tmpl name : list ascii) :
  Forall (λ c, c ≠ NUL) tmpl →
  let i := advance_both tmpl name 0 (S (length tmpl)) in
  (i ≤ length tmpl)%nat ∧ (i = length tmpl ↔ tmpl `prefix_of` name)
  ∧ take i tmpl = take i name ∧ (i ≤ length name)%nat.
Proof.
  intros Ht.
  destruct (advance_both_stop tmpl name 0 (S (length tmpl)) ltac:(lia))
    as (_ & Heq & Hstop).
  set (i := advance_both _ _ _ _) in *. cbv zeta.
  assert (i ≤ length tmpl)%nat as Hle.
  { destruct (Nat.le_gt_cases i (length tmpl)); [done|].
    destruct (Heq (length tmpl) ltac:(lia)) as [Hn _].
    by rewrite char_at_end in Hn. }
  assert (∀ m, (m < i)%nat → name !! m = tmpl !! m ∧ is_Some (tmpl !! m)) as Hlk.
  { intros m Hm. destruct (Heq m ltac:(lia)) as [Hn He].
    rewrite !char_at_eq in He, Hn.
    destruct (tmpl !! m) as [c|] eqn:Et; simpl in He, Hn; [|done].
    rewrite (char_at_eq name) in He.
    destruct (name !! m) as [c'|] eqn:En; simpl in He;
      [subst; split; [done|by eexists]|].
    by subst. }
  assert (i ≤ length name)%nat as Hlen.
  { destruct (Nat.le_gt_cases i (length name)); [done|].
    destruct (Hlk (length name) ltac:(lia)) as [E [c Hc]].
    rewrite Hc in E. apply lookup_lt_Some in E. lia. }
  assert (take i tmpl = take i name) as Htake.
  { apply list_eq. intros m. destruct (decide (m < i)%nat).
    - rewrite !lookup_take_lt by done. symmetry. by apply Hlk.
    - rewrite !lookup_take_ge by lia. done. }
  split; [done|]. split; [|done].
  split.
  - intros Hi. exists (drop i name).
    rewrite <-(take_drop i name) at 1. rewrite <-Htake, Hi.
    by rewrite firstn_all.
  - intros [k ->].
    destruct (decide (i = length tmpl)); [done|]. exfalso.
    assert (i < length tmpl)%nat as Hlt by lia.
    destruct (lookup_lt_is_Some_2 tmpl i Hlt) as [c Hc].
    assert (c ≠ NUL) as Hcn
      by exact (Forall_lookup_1 (λ c, c ≠ NUL) tmpl i c Ht Hc).
    rewrite char_at_app_l in Hstop by done.
    rewrite !char_at_eq, Hc in Hstop. simpl in Hstop.
    destruct Hstop as [|[|]]; done.
Qed.

(** A template without ['#'] never yields an index: the answer is
    [errval] when the name begins with the whole template, and 0 for any
    other name. *)
Theorem nextindex_template_without_hash (tmpl name : cstr) (errval : Z) :
  Forall plain tmpl →
  restart_nextindex tmpl name errval
  = if bool_decide (tmpl `prefix_of` name) then errval else 0.
Proof.
  intros Hp.
  assert (Forall (λ c, c ≠ NUL) tmpl) as Ht
    by (eapply Forall_impl; [done|by intros ? []]).
  destruct (advance_both_prefix_of tmpl name Ht) as (Hle & Hiff & _).
  unfold restart_nextindex.
  set (i := advance_both _ _ _ _) in *.
  case_bool_decide as Hpre.
  - apply Hiff in Hpre. rewrite Hpre, char_at_end. done.
  - assert (i < length tmpl)%nat as Hlt.
    { destruct (decide (i = length tmpl)) as [E|]; [|lia].
      by apply Hiff in E. }
    destruct (char_at_Forall plain tmpl i Hp Hlt) as [Hn Hh].
    by rewrite is_nul_false, is_hash_false.
Qed.

Lemma nextindex_template_without_hash_witness :
  restart_nextindex (chars "chk") (chars "chk7") (-1) = -1
  ∧ restart_nextindex (chars "chk") (chars "abc") (-1) = 0.
Proof.
  split.
  - apply (nextindex_template_without_hash (chars "chk") (chars "chk7") (-1)).
    repeat constructor; discriminate.
  - apply (nextindex_template_without_hash (chars "chk") (chars "abc") (-1)).
    repeat constructor; discriminate.
Defined.

(** A name that does not begin with the template's text before the first
    ['#'] is answered with 0, whatever follows in the template. *)
Theorem nextindex_prefix_mismatch (p t name : list ascii) (errval : Z) :
  Forall plain p → ¬ p `prefix_of` name →
  restart_nextindex (p ++ t) name errval = 0.
Proof.
  intros Hp Hpre.
  destruct (advance_both_stop (p ++ t) name 0 (S (length (p ++ t)))
              ltac:(lia)) as (_ & Heq & Hstop).
  unfold restart_nextindex.
  set (i := advance_both _ _ _ _) in *.
  assert (i < length p)%nat as Hlt.
  { destruct (Nat.lt_ge_cases i (length p)); [done|]. exfalso. apply Hpre.
    exists (drop (length p) name).
    rewrite <-(take_drop (length p) name) at 1. f_equal.
    apply list_eq. intros m. destruct (decide (m < length p)%nat) as [Hm|Hm].
    - destruct (Heq m ltac:(lia)) as [Hn He].
      rewrite char_at_app_l in He, Hn by done.
      rewrite lookup_take_lt by done.
      rewrite !char_at_eq in He, Hn.
      destruct (p !! m) as [c|] eqn:Ep; simpl in He, Hn; [|done].
      rewrite (char_at_eq name) in He.
      destruct (name !! m) as [c'|] eqn:En; simpl in He; by subst.
    - rewrite lookup_take_ge by lia. by rewrite (proj2 (lookup_ge_None p m)) by lia. }
  rewrite char_at_app_l by done.
  destruct (char_at_Forall plain p i Hp Hlt) as [Hn Hh].
  by rewrite is_nul_false, is_hash_false.
Qed.

Lemma nextindex_prefix_mismatch_witness :
  restart_nextindex (chars "chk###.h5") (chars "chx001.h5") (-1) = 0.
Proof.
  apply (nextindex_prefix_mismatch (chars "chk") (chars "###.h5")
           (chars "chx001.h5") (-1)).
  - repeat constructor; discriminate.
  - intros [k Hk]. discriminate Hk.
Defined.

(** A name that agrees with the template up to the first ['#'] and goes on
    with a character that is neither a decimal digit nor ['#'] (a sign, a
    blank, or the end of the name) is answered with 0. *)
Theorem nextindex_nondigit_rejected (p t n : cstr) (errval : Z) :
  Forall plain p → isdigit (n @@ 0) = false → n @@ 0 ≠ "#"%char →
  restart_nextindex (p ++ "#"%char :: t) (p ++ n) errval = 0.
Proof.
  intros Hp Hd Hh.
  assert (Forall (λ c, c ≠ NUL) p) as Hp0
    by (eapply Forall_impl; [done|by intros ? []]).
  unfold restart_nextindex.
  rewrite (advance_both_prefix p); [|done| |lia|rewrite length_app; simpl; lia].
  2: { change (("#"%char :: t) @@ 0) with "#"%char.
       destruct (Ascii.eqb_spec "#"%char (n @@ 0)) as [E|]; [by rewrite <-E in Hh|].
       apply andb_false_r. }
  rewrite !char_at_app_0. change (("#"%char :: t) @@ 0) with "#"%char.
  by rewrite Hd.
Qed.

Lemma nextindex_nondigit_rejected_witness :
  restart_nextindex (chars "chk###") (chars "chk  1") (-1) = 0
  ∧ restart_nextindex (chars "chk###") (chars "chk-01") (-1) = 0
  ∧ restart_nextindex (chars "chk###") (chars "chk") (-1) = 0.
Proof.
  split; [|split].
  - apply (nextindex_nondigit_rejected (chars "chk") (chars "##") (chars "  1"));
      [repeat constructor; discriminate|reflexivity|discriminate].
  - apply (nextindex_nondigit_rejected (chars "chk") (chars "##") (chars "-01"));
      [repeat constructor; discriminate|reflexivity|discriminate].
  - apply (nextindex_nondigit_rejected (chars "chk") (chars "##") []);
      [repeat constructor; discriminate|reflexivity|discriminate].
Defined.

Lemma last_hash_app (x y : cstr) (j k : nat) :
  last_hash (x ++ y) j k = last_hash y (last_hash x j k) (k + length x).
Proof.
  revert j k. induction x as [|c x IH]; intros j k; simpl.
  - by rewrite Nat.add_0_r.
  - rewrite IH. f_equal. lia.
Qed.

Lemma single_hash_run_forallb (a y z : cstr) (fuel : nat) :
  (length y ≤ fuel)%nat →
  single_hash_run (a ++ y ++ z) (length a) (length a + length y) fuel
  = forallb is_hash y.
Proof.
  revert a fuel. induction y as [|c y IH]; intros a fuel Hf.
  - simpl. rewrite Nat.add_0_r. destruct fuel; [done|]. simpl.
    by rewrite Nat.eqb_refl.
  - destruct fuel as [|fuel]; simpl in Hf; [lia|].
    cbn [single_hash_run forallb length].
    destruct (Nat.eqb_spec (length a) (length a + S (length y))); [lia|].
    rewrite char_at_app_0. change (((c :: y) ++ z) @@ 0) with c.
    destruct (is_hash c); [|done]. simpl.
    replace (S (length a)) with (length (a ++ [c]))
      by (rewrite length_app; simpl; lia).
    replace (length a + S (length y))%nat
      with (length (a ++ [c]) + length y)%nat
      by (rewrite length_app; simpl; lia).
    rewrite <-(IH (a ++ [c]) fuel) by lia. by rewrite <-app_assoc.
Qed.

(** restart_nextindex on a template whose first and last ['#'] enclose the
    text [x]: for a name made of the prefix, a non-empty string of decimal
    digits and the suffix, the answer is [errval] when [x] holds a
    character other than ['#'] (two separated runs), and otherwise the
    value of the digits plus one, or [errval] past INT_MAX - 1. *)
Theorem nextindex_separated_runs (p x s d : cstr) (errval : Z) :
  Forall plain p → Forall (λ c, c ≠ NUL) x → Forall plain s →
  isdigit (s @@ 0) = false → d ≠ [] → Forall (λ c, isdigit c = true) d →
  restart_nextindex (p ++ "#"%char :: x ++ "#"%char :: s) (p ++ d ++ s) errval
  = if (INT_MAX - 1 <? dec_value d) || negb (forallb is_hash x) then errval
    else dec_value d + 1.
Proof.
  intros Hp Hx Hs Hs0 Hd0 Hd.
  destruct d as [|c d]; [done|]. clear Hd0.
  pose proof Hd as [Hc Hd']%Forall_cons.
  destruct (isdigit_plain c Hc) as ([Hcn Hch] & Hsp & Hminus & Hplus & _).
  assert (Forall (λ c, c ≠ NUL) p) as Hp0
    by (eapply Forall_impl; [done|by intros ? []]).
  assert (Forall (λ c, c ≠ NUL) s) as Hs1
    by (eapply Forall_impl; [done|by intros ? []]).
  assert (Forall (λ c, c ≠ NUL) (c :: d)) as Hd1.
  { eapply Forall_impl; [exact Hd|]. intros y Hy.
    by destruct (isdigit_plain y Hy) as ([? _] & _). }
  set (run := "#"%char :: x ++ ["#"%char]).
  assert (length run = S (S (length x))) as Hlr
    by (unfold run; simpl; rewrite length_app; simpl; lia).
  assert (p ++ "#"%char :: x ++ "#"%char :: s = (p ++ run) ++ s) as Htmpl.
  { unfold run. rewrite <-!app_assoc. simpl. by rewrite <-app_assoc. }
  assert (p ++ (c :: d) ++ s = (p ++ c :: d) ++ s) as Hname
    by by rewrite <-app_assoc.
  unfold restart_nextindex.
  rewrite (advance_both_prefix p).
  2: done.
  2: { change (("#"%char :: x ++ "#"%char :: s) @@ 0) with "#"%char.
       change (((c :: d) ++ s) @@ 0) with c.
       destruct (Ascii.eqb_spec "#"%char c) as [<-|]; [done|].
       apply andb_false_r. }
  2: lia.
  2: { rewrite length_app. lia. }
  rewrite !char_at_app_0.
  change (("#"%char :: x ++ "#"%char :: s) @@ 0) with "#"%char.
  change (((c :: d) ++ s) @@ 0) with c.
  rewrite Hc. simpl negb. cbv iota.
  change (is_nul "#") with false. change (is_hash "#") with true.
  simpl negb. cbv iota.
  (* the final hash *)
  replace (final_hash (p ++ "#"%char :: x ++ "#"%char :: s) (length p)
             (S (length p)) (length (p ++ "#"%char :: x ++ "#"%char :: s)))
    with ((length p + S (length x))%nat,
          (length (p ++ run) + length s)%nat).
  2: { replace (p ++ "#"%char :: x ++ "#"%char :: s)
         with ((p ++ ["#"%char]) ++ x ++ "#"%char :: s)
         by by rewrite <-app_assoc.
       replace (S (length p)) with (length (p ++ ["#"%char]))
         by (rewrite length_app; simpl; lia).
       rewrite final_hash_eq.
       - rewrite last_hash_app. simpl. change (is_hash "#") with true. cbv iota.
         rewrite last_hash_plain by done. f_equal.
         + rewrite ?length_app. simpl. lia.
         + unfold run. rewrite ?length_app. simpl. rewrite ?length_app. simpl. lia.
       - apply Forall_app. split; [done|]. by apply Forall_cons.
       - rewrite !length_app. simpl. lia. }
  (* the end of the name *)
  replace (advance_end (p ++ (c :: d) ++ s) (S (length p))
             (length (p ++ (c :: d) ++ s)))
    with (length (p ++ c :: d) + length s)%nat.
  2: { replace (p ++ (c :: d) ++ s) with ((p ++ [c]) ++ d ++ s)
         by by rewrite <-app_assoc.
       replace (S (length p)) with (length (p ++ [c]))
         by (rewrite length_app; simpl; lia).
       rewrite advance_end_eq.
       - rewrite !length_app. simpl. lia.
       - apply Forall_app. split; [|done]. by apply Forall_cons in Hd1 as [_ ?].
       - rewrite !length_app. simpl. lia. }
  (* the backward scan *)
  rewrite Htmpl, Hname.
  replace (length p + S (length x))%nat with (length (p ++ run) - 1)%nat
    by (rewrite length_app, Hlr; lia).
  rewrite scan_back_suffix.
  2: { rewrite length_app, Hlr. lia. }
  2: { rewrite length_app. simpl. lia. }
  2: lia.
  2: { rewrite !length_app. lia. }
  replace ((p ++ run) ++ s) with (p ++ ("#"%char :: x) ++ "#"%char :: s).
  replace (length (p ++ run) - 1)%nat with (length p + length ("#"%char :: x))%nat
    by (rewrite length_app, Hlr; simpl; lia).
  rewrite char_at_app_r, char_at_app_0.
  change (("#"%char :: s) @@ 0) with "#"%char.
  change (is_hash "#") with true. simpl negb. cbv iota.
  (* strtoul *)
  rewrite <-Hname.
  unfold strtoul.
  assert (∀ fuel, skip_space (p ++ (c :: d) ++ s) (length p) fuel = length p)
    as ->.
  { intros [|fuel]; [done|]. cbn [skip_space]. rewrite char_at_app_0.
    change (((c :: d) ++ s) @@ 0) with c. by rewrite Hsp. }
  rewrite !char_at_app_0. change (((c :: d) ++ s) @@ 0) with c.
  destruct (Ascii.eqb_spec c "-"); [done|].
  destruct (Ascii.eqb_spec c "+"); [done|]. simpl orb. cbv iota.
  destruct (strtoul_digits_run p (c :: d) s 0 false
              (length (p ++ (c :: d) ++ s)))
    as (ovf' & Hrun & Hov); [done|done| |lia|done|].
  { rewrite !length_app. lia. }
  rewrite Hrun. fold (dec_value (c :: d)) in Hov |- *.
  destruct (Nat.eqb_spec (length p + length (c :: d)) (length p));
    [simpl in *; lia|].
  assert ((length p + length (c :: d) =? length (p ++ c :: d) - 1 + 1)%nat
          = true) as Hend.
  { apply Nat.eqb_eq. rewrite length_app. simpl. lia. }
  pose proof (single_hash_run_forallb p ("#"%char :: x) ("#"%char :: s)
                (length (p ++ "#"%char :: x ++ "#"%char :: s))) as Hsingle.
  change (("#"%char :: x) ++ "#"%char :: s)
    with ("#"%char :: x ++ "#"%char :: s) in Hsingle.
  change (length ("#"%char :: x)) with (S (length x)) in Hsingle.
  rewrite Hsingle
    by (rewrite ?length_app; simpl; rewrite ?length_app; simpl; lia).
  change (forallb is_hash ("#"%char :: x)) with (forallb is_hash x).
  destruct ovf'.
  - specialize (Hov eq_refl). rewrite Hend. simpl negb. cbv iota.
    change (INT_MAX - 1 <? ULONG_MAX) with true. cbv iota.
    destruct (Z.ltb_spec (INT_MAX - 1) (dec_value (c :: d))); [done|].
    unfold INT_MAX, ULONG_MAX in *. lia.
  - rewrite Hend. simpl negb. cbv iota.
    destruct (Z.ltb_spec (INT_MAX - 1) (dec_value (c :: d))); [done|].
    simpl orb. by destruct (forallb is_hash x).
Qed.

Lemma nextindex_separated_runs_witness :
  restart_nextindex (chars "run#_#.h5") (chars "run12.h5") (-1) = -1.
Proof.
  apply (nextindex_separated_runs (chars "run") (chars "_") (chars ".h5")
           (chars "12") (-1)).
  - repeat constructor; discriminate.
  - repeat constructor; discriminate.
  - repeat constructor; discriminate.
  - reflexivity.
  - discriminate.
  - repeat constructor.
Defined.

(** * The Fortran binding *)

Lemma drop_while_blanks (k : nat) (l : list ascii) :
  drop_while is_blank (replicate k " "%char ++ l) = drop_while is_blank l.
Proof. induction k as [|k IH]; [done|]. simpl. exact IH. Qed.

Lemma rev_blanks (k : nat) :
  rev (replicate k " "%char) = replicate k " "%char.
Proof.
  induction k as [|k IH]; [done|]. simpl. rewrite IH.
  clear IH. induction k as [|k IH]; [done|]. simpl. by rewrite IH.
Qed.

Lemma len_trim_padded (t : list ascii) (k : nat) :
  last t ≠ Some " "%char → len_trim (t ++ replicate k " "%char) = length t.
Proof.
  intros Hl. unfold len_trim.
  rewrite rev_app_distr, rev_blanks, drop_while_blanks.
  destruct (rev t) as [|c r] eqn:Er.
  - apply (f_equal length) in Er. rewrite length_rev in Er. simpl in *. lia.
  - assert (last t = Some c) as Hc.
    { rewrite <-(rev_involutive t), Er. simpl. by rewrite last_snoc. }
    simpl. unfold is_blank. destruct (Ascii.eqb_spec c " ") as [->|].
    + by rewrite Hc in Hl.
    + rewrite <-Er, length_rev. done.
Qed.

Lemma blanks_snoc (k : nat) :
  replicate k " "%char ++ [" "%char] = " "%char :: replicate k " "%char.
Proof. induction k as [|k IH]; [done|]. simpl. by rewrite IH. Qed.

Lemma drop_while_blank_split (r : list ascii) :
  let n := length (drop_while is_blank r) in
  rev r = take n (rev r) ++ replicate (length r - n) " "%char
  ∧ last (take n (rev r)) ≠ Some " "%char
  ∧ (n ≤ length r)%nat.
Proof.
  induction r as [|c r IH]; [done|].
  cbn [drop_while]. destruct (is_blank c) eqn:Hb.
  - apply Ascii.eqb_eq in Hb as ->.
    destruct IH as (IH1 & IH2 & IH3). cbv zeta.
    set (n := length (drop_while is_blank r)) in *.
    cbn [rev length].
    rewrite take_app_le by (rewrite length_rev; lia).
    split; [|split; [done|lia]].
    rewrite IH1 at 1. rewrite <-app_assoc. f_equal.
    replace (S (length r) - n)%nat with (S (length r - n)) by lia.
    rewrite blanks_snoc. done.
  - cbv zeta. rewrite Nat.sub_diag. simpl replicate. rewrite app_nil_r.
    rewrite <-(length_rev (c :: r)), firstn_all.
    split; [done|]. split; [|done].
    cbn [rev]. rewrite last_snoc. intros [= ->]. done.
Qed.

Lemma len_trim_split (f : list ascii) :
  f = take (len_trim f) f ++ replicate (length f - len_trim f) " "%char
  ∧ last (take (len_trim f) f) ≠ Some " "%char
  ∧ (len_trim f ≤ length f)%nat.
Proof.
  pose proof (drop_while_blank_split (rev f)) as H.
  cbv zeta in H. rewrite rev_involutive, length_rev in H. exact H.
Qed.

Lemma f_c_copy_eq (f c : list ascii) (i fuel : nat) :
  (i + fuel ≤ length f)%nat → (i + fuel ≤ length c)%nat →
  f_c_copy f c i fuel
  = take i c ++ take fuel (drop i f) ++ drop (i + fuel) c.
Proof.
  revert c i. induction fuel as [|fuel IH]; intros c i Hf Hc.
  - simpl. rewrite Nat.add_0_r. by rewrite take_drop.
  - cbn [f_c_copy]. rewrite IH by (rewrite ?length_insert; lia).
    destruct (lookup_lt_is_Some_2 f i ltac:(lia)) as [x Hx].
    rewrite char_at_eq, Hx. simpl.
    rewrite (drop_S f x i Hx). simpl.
    rewrite take_S_r with (x := x) by (rewrite list_lookup_insert_eq; [done|lia]).
    rewrite take_insert_ge by lia.
    rewrite drop_insert_lt by lia.
    rewrite <-app_assoc. simpl. by rewrite Nat.add_succ_r.
Qed.

Lemma f_c_string_eq (f : list ascii) :
  esio_f_c_string f = take (len_trim f) f ++ [NUL].
Proof.
  destruct (len_trim_split f) as (_ & _ & Hle).
  unfold esio_f_c_string.
  rewrite f_c_copy_eq by (rewrite ?length_replicate; lia).
  simpl. rewrite drop_replicate.
  replace (len_trim f + 1 - len_trim f)%nat with 1%nat by lia. simpl.
  rewrite drop_0.
  rewrite insert_app_r_alt by (rewrite length_take; lia).
  rewrite length_take, Nat.min_l by lia.
  by rewrite Nat.sub_diag.
Qed.

Lemma c_f_copy_eq (c junk f : list ascii) (i fuel : nat) :
  Forall (λ x, x ≠ NUL) c → (i + fuel = length f)%nat → (i ≤ length c)%nat →
  c_f_copy (c ++ NUL :: junk) f i fuel
  = take i f ++ take fuel (drop i c) ++ drop (i + length (take fuel (drop i c))) f.
Proof.
  intros Hc. revert f i. induction fuel as [|fuel IH]; intros f i Hf Hic.
  - simpl. rewrite Nat.add_0_r. by rewrite take_drop.
  - cbn [c_f_copy].
    destruct (decide (i < length c)%nat) as [Hi|Hi].
    + rewrite char_at_app_l by done.
      rewrite is_nul_false by (by apply (char_at_Forall (λ x, x ≠ NUL))).
      rewrite IH by (rewrite ?length_insert; lia).
      destruct (lookup_lt_is_Some_2 c i Hi) as [x Hx].
      rewrite char_at_eq, Hx. simpl.
      rewrite (drop_S c x i Hx). simpl.
      rewrite take_S_r with (x := x) by (rewrite list_lookup_insert_eq; [done|lia]).
      rewrite take_insert_ge by lia.
      rewrite drop_insert_lt by lia.
      rewrite <-app_assoc. simpl. by rewrite Nat.add_succ_r.
    + rewrite drop_ge by lia. simpl. rewrite Nat.add_0_r, take_drop.
      assert (i = length c) as -> by lia.
      by rewrite char_at_app_0.
Qed.

Lemma c_f_stringcopy_eq (c junk f : list ascii) :
  Forall (λ x, x ≠ NUL) c →
  esio_c_f_stringcopy (Some (c ++ NUL :: junk)) f
  = (true, take (length f) c ++ replicate (length f - length c) " "%char).
Proof.
  intros Hc. unfold esio_c_f_stringcopy. f_equal.
  rewrite c_f_copy_eq by (rewrite ?length_replicate; (done || lia)).
  simpl. rewrite drop_0, drop_replicate, length_take. do 2 f_equal. lia.
Qed.

(** esio_f_c_string: the trailing blanks of the Fortran string are
    dropped, the other characters (blanks inside included) are kept in
    order, and a NUL ends the result. *)
Theorem f_c_string_trims (t : list ascii) (k : nat) :
  last t ≠ Some " "%char →
  esio_f_c_string (t ++ replicate k " "%char) = t ++ [NUL].
Proof.
  intros Hl. rewrite f_c_string_eq, len_trim_padded by done.
  by rewrite take_app_length.
Qed.

Lemma f_c_string_trims_witness :
  esio_f_c_string (chars "u field   ") = chars "u field" ++ [NUL].
Proof.
  apply (f_c_string_trims (chars "u field") 3). discriminate.
Defined.

(** esio_c_f_stringcopy from a C string [c]: the Fortran string receives
    the characters before the NUL, cut to its length, and is padded with
    blanks; what it held before and what lies behind the NUL do not
    matter, and the result is [.true.]. *)
Theorem c_f_stringcopy_pads (c junk f : list ascii) :
  Forall (λ x, x ≠ NUL) c →
  esio_c_f_stringcopy (Some (c ++ NUL :: junk)) f
  = (true, take (length f) c ++ replicate (length f - length c) " "%char).
Proof. apply c_f_stringcopy_eq. Qed.

Lemma c_f_stringcopy_pads_witness :
  esio_c_f_stringcopy (Some (chars "abc" ++ NUL :: chars "zz")) (chars "12345")
  = (true, chars "abc  ")
  ∧ esio_c_f_stringcopy (Some (chars "abc" ++ NUL :: chars "zz")) (chars "12")
    = (true, chars "ab").
Proof.
  split.
  - apply (c_f_stringcopy_pads (chars "abc") (chars "zz") (chars "12345")).
    repeat constructor; discriminate.
  - apply (c_f_stringcopy_pads (chars "abc") (chars "zz") (chars "12")).
    repeat constructor; discriminate.
Defined.

(** Round trip through the binding: a Fortran string without NUL,
    converted by esio_f_c_string and copied back by esio_c_f_stringcopy
    into a string of the same length, is the string again. *)
Theorem f_c_f_round_trip (f g : list ascii) :
  Forall (λ x, x ≠ NUL) f → length g = length f →
  esio_c_f_stringcopy (Some (esio_f_c_string f)) g = (true, f).
Proof.
  intros Hf Hg.
  destruct (len_trim_split f) as (Hsplit & _ & Hle).
  rewrite f_c_string_eq.
  rewrite (c_f_stringcopy_eq (take (len_trim f) f) [] g)
    by (by apply Forall_take).
  rewrite Hg, length_take, Nat.min_l by lia.
  rewrite take_ge by (rewrite length_take; lia).
  by rewrite <-Hsplit.
Qed.

Lemma f_c_f_round_trip_witness :
  esio_c_f_stringcopy (Some (esio_f_c_string (chars "outpen.1.h5         ")))
    (chars "????????????????????")
  = (true, chars "outpen.1.h5         ").
Proof.
  apply (f_c_f_round_trip (chars "outpen.1.h5         ")
           (chars "????????????????????")).
  - repeat constructor; discriminate.
  - reflexivity.
Defined.

(** * The file lifecycle *)

Section FileLifecycle.
Context {V : Type} `{!Hdf5 V}.
Implicit Types (w : world V) (s : esio_state_s).

Lemma open_modes_closed (path : string) w :
  (∀ i rw, ids w !! i ≠ Some (ObjFile path rw)) → open_modes path w = [].
Proof.
  intros Hclosed. unfold open_modes.
  assert (Forall (λ o, opened_as path o = None) (map_to_list (ids w)).*2) as Hall.
  { apply Forall_forall. intros o Ho.
    apply list_elem_of_fmap in Ho as ([i o'] & -> & Hin).
    apply elem_of_map_to_list in Hin. simpl. unfold opened_as.
    destruct o' as [p rw|]; [|done].
    destruct (String.eqb_spec p path) as [->|]; [|done].
    by specialize (Hclosed i rw). }
  induction Hall as [|o l Ho _ IH]; simpl; [done|]. by rewrite Ho.
Qed.

(** esio_file_create without overwrite on a path that exists returns
    ESIO_EFAILED through the hook; the handle is not updated, no identifier
    is issued and the containers are untouched. *)
Theorem file_create_exclusive_fails s (path : string) w c :
  file_id s = -1 → disk w !! path = Some c →
  ∃ w',
    esio_file_create (Some s) (Some path) false w = (Ret ESIO_EFAILED, w')
    ∧ disk w' = disk w ∧ ids w' = ids w ∧ next_id w' = next_id w
    ∧ errors w' = errors w ++ [("File already exists"%string, ESIO_EFAILED)].
Proof.
  intros Hs Hc. unfold esio_file_create.
  erewrite bind_step; [|apply fail_if_pass; by rewrite Hs].
  unfold bind, io, H5Fcreate. rewrite Hc.
  destruct (open_modes path w); simpl;
    (eexists; split; [done|]; unfold h5_fail; by destruct (_ =? 0)).
Qed.

(** esio_file_create with overwrite, or on a path that does not exist,
    returns ESIO_SUCCESS when no live identifier has the file at that path
    open: the handle holds a fresh identifier of a writable file, the
    container at the path is empty (fields stored there before are gone),
    and the other containers are untouched. *)
Theorem file_create_truncates s (path : string) (overwrite : bool) w :
  file_id s = -1 → 0 ≤ next_id w →
  (∀ i rw, ids w !! i ≠ Some (ObjFile path rw)) →
  overwrite = true ∨ disk w !! path = None →
  ∃ w',
    esio_file_create (Some s) (Some path) overwrite w
    = (Ok (set_file_id s (next_id w)), w')
    ∧ ids w' = <[next_id w := ObjFile path true]> (ids w)
    ∧ disk w' = <[path := ∅]> (disk w)
    ∧ (∀ name, find_dataset path name w' = None)
    ∧ errors w' = errors w.
Proof.
  intros Hs Hn Hclosed Hcase. unfold esio_file_create.
  erewrite bind_step; [|apply fail_if_pass; by rewrite Hs].
  assert (H5Fcreate path (negb overwrite) w
          = issue (ObjFile path true) (set_disk (<[path := ∅]> (disk w)) w))
    as Hcreate.
  { unfold H5Fcreate. rewrite open_modes_closed by done.
    destruct Hcase as [-> | ->]; [|done].
    simpl. by destruct (disk w !! path). }
  erewrite bind_step; [|unfold io; by rewrite Hcreate].
  erewrite bind_step; [|apply fail_if_pass; simpl; apply Z.ltb_ge; lia].
  eexists. split; [done|]. simpl. repeat split; try done.
  intros name. unfold find_dataset. simpl. by rewrite lookup_insert_eq.
Qed.

(** esio_file_open on a path that does not exist returns ESIO_EFAILED;
    the handle is not updated and no identifier is issued. *)
Theorem file_open_missing_fails s (path : string) (readwrite : bool) w :
  file_id s = -1 → disk w !! path = None →
  ∃ w',
    esio_file_open (Some s) (Some path) readwrite w = (Ret ESIO_EFAILED, w')
    ∧ disk w' = disk w ∧ ids w' = ids w ∧ next_id w' = next_id w
    ∧ errors w'
      = errors w ++ [("Unable to open existing file"%string, ESIO_EFAILED)].
Proof.
  intros Hs Hc. unfold esio_file_open.
  erewrite bind_step; [|apply fail_if_pass; by rewrite Hs].
  unfold bind, io, H5Fopen. rewrite Hc. simpl.
  eexists. split; [done|]. unfold h5_fail.
  by destruct (_ =? 0).
Qed.

(** A handle holds at most one open file: while one is open, both
    esio_file_create and esio_file_open return ESIO_EINVAL and do nothing
    but report it. *)
Theorem file_busy_rejected s (file : option string) (flag : bool) w :
  file_id s ≠ -1 →
  esio_file_create (Some s) file flag w
  = (Ret ESIO_EINVAL,
     report "Cannot create file because previous file not closed"
       ESIO_EINVAL w)
  ∧ esio_file_open (Some s) file flag w
    = (Ret ESIO_EINVAL,
       report "Cannot open new file because previous file not closed"
         ESIO_EINVAL w).
Proof.
  intros Hs. unfold esio_file_create, esio_file_open, bind, fail_if.
  destruct (Z.eqb_spec (file_id s) (-1)); [done|]. done.
Qed.

(** Opening a container that no live identifier has open, and closing it
    again, returns ESIO_SUCCESS twice and leaves the handle, the live
    identifiers and the containers as they were. *)
Theorem file_open_close_restores s (path : string) (readwrite : bool) w :
  file_id s = -1 → is_Some (disk w !! path) →
  (∀ i rw, ids w !! i ≠ Some (ObjFile path rw)) →
  0 ≤ next_id w → ids w !! next_id w = None →
  ∃ s1 w1 w2,
    esio_file_open (Some s) (Some path) readwrite w = (Ok s1, w1)
    ∧ file_id s1 = next_id w
    ∧ esio_file_close (Some s1) w1 = (Ok s, w2)
    ∧ disk w2 = disk w ∧ ids w2 = ids w ∧ errors w2 = errors w.
Proof.
  intros Hs [c Hc] Hclosed Hn Hfresh.
  assert (esio_file_open (Some s) (Some path) readwrite w
          = (Ok (set_file_id s (next_id w)),
             set_ids (<[next_id w := ObjFile path readwrite]> (ids w))
               (next_id w + 1) w)) as Hopen.
  { unfold esio_file_open.
    erewrite bind_step; [|apply fail_if_pass; by rewrite Hs].
    erewrite bind_step;
      [|unfold io, H5Fopen; by rewrite Hc, open_modes_closed by done].
    erewrite bind_step; [|apply fail_if_pass; apply Z.ltb_ge; lia]. done. }
  eexists _, _, _. split; [exact Hopen|]. split; [done|].
  unfold esio_file_close. simpl file_id.
  erewrite bind_step.
  2: { apply fail_if_pass. apply Z.eqb_neq. lia. }
  erewrite bind_step.
  2: { unfold io, H5Fclose. simpl. by rewrite lookup_insert_eq. }
  erewrite bind_step; [|by apply fail_if_pass].
  split.
  - unfold ret. do 2 f_equal. destruct s; simpl in *. by subst.
  - simpl. split; [done|]. split; [|done].
    by rewrite delete_insert_id.
Qed.

End FileLifecycle.

Lemma file_create_exclusive_fails_witness :
  ∃ w',
    esio_file_create (Some (set_file_id demo_handle (-1))) (Some "a.h5"%string)
      false demo_world = (Ret ESIO_EFAILED, w') ∧ disk w' = disk demo_world.
Proof.
  destruct (file_create_exclusive_fails (set_file_id demo_handle (-1)) "a.h5"
              demo_world ∅) as (w' & E & Hd & _); [reflexivity|reflexivity|].
  exists w'. split; [exact E|exact Hd].
Defined.

Lemma ids_demo_closed : ids demo_closed = ∅.
Proof. vm_compute. reflexivity. Qed.

Lemma file_create_truncates_witness :
  ∃ w',
    esio_file_create (Some (set_file_id demo_handle (-1))) (Some "a.h5"%string)
      true demo_closed
    = (Ok (set_file_id demo_handle (next_id demo_closed)), w')
    ∧ is_Some (find_dataset "a.h5" "u" demo_closed)
    ∧ find_dataset "a.h5" "u" w' = None.
Proof.
  destruct (file_create_truncates (set_file_id demo_handle (-1)) "a.h5" true
              demo_closed) as (w' & E & _ & _ & Hnone & _).
  - reflexivity.
  - vm_compute. discriminate.
  - intros i rw. by rewrite ids_demo_closed, lookup_empty.
  - by left.
  - exists w'. split; [exact E|]. split; [|apply Hnone].
    vm_compute. eexists. reflexivity.
Defined.

Lemma file_open_missing_fails_witness :
  ∃ w',
    esio_file_open (Some (set_file_id demo_handle (-1))) (Some "b.h5"%string)
      true demo_world = (Ret ESIO_EFAILED, w').
Proof.
  destruct (file_open_missing_fails (set_file_id demo_handle (-1)) "b.h5" true
              demo_world) as (w' & E & _); [reflexivity|reflexivity|].
  by exists w'.
Defined.

Lemma file_busy_rejected_witness :
  (esio_file_open (Some demo_handle) (Some "a.h5"%string) true demo_world).1
  = Ret ESIO_EINVAL.
Proof.
  destruct (file_busy_rejected (V:=Z) demo_handle (Some "a.h5"%string) true
              demo_world) as [_ E]; [discriminate|].
  by rewrite E.
Defined.

Lemma file_open_close_restores_witness :
  ∃ s1 w1 w2,
    esio_file_open (Some (set_file_id demo_handle (-1))) (Some "a.h5"%string)
      false demo_closed = (Ok s1, w1)
    ∧ esio_file_close (Some s1) w1 = (Ok (set_file_id demo_handle (-1)), w2)
    ∧ disk w2 = disk demo_closed ∧ ids w2 = ids demo_closed.
Proof.
  destruct (file_open_close_restores (set_file_id demo_handle (-1)) "a.h5"
              false demo_closed)
    as (s1 & w1 & w2 & E1 & _ & E2 & Hd & Hi & _).
  - reflexivity.
  - vm_compute. eexists. reflexivity.
  - intros i rw. by rewrite ids_demo_closed, lookup_empty.
  - vm_compute. discriminate.
  - vm_compute. reflexivity.
  - exists s1, w1, w2. split; [exact E1|]. split; [exact E2|].
    split; [exact Hd|exact Hi].
Defined.

(** * Blocks of a field *)

Section BlockRead.
Context {V : Type} `{!Hdf5 V}.
Implicit Types (w : world V) (s : esio_state_s).

Lemma bind_lookup_const {A B} (f : A → list B) (l : list A) (n a b : nat)
    (x : A) (y : B) :
  (∀ z, z ∈ l → length (f z) = n) → l !! a = Some x → f x !! b = Some y →
  (l ≫= f) !! (a * n + b)%nat = Some y.
Proof.
  revert a. induction l as [|z l IH]; intros a Hlen Ha Hb; [done|].
  rewrite bind_cons. destruct a as [|a]; simpl in Ha.
  - injection Ha as ->. simpl. by apply lookup_app_l_Some.
  - rewrite lookup_app_r by (rewrite (Hlen z) by left; lia).
    rewrite (Hlen z) by left.
    replace (S a * n + b - n)%nat with (a * n + b)%nat by lia.
    apply IH; [|done..]. intros z' Hz'. apply Hlen. by right.
Qed.

Lemma file_selected_lookup (dims : list Z) (cst csz bst bsz ast asz k j i : Z) :
  cst ≤ k < cst + csz → bst ≤ j < bst + bsz → ast ≤ i < ast + asz →
  file_selected (FileSpace dims (cst, bst, ast) (csz, bsz, asz))
    !! slab_index cst bst bsz ast asz k j i = Some [k; j; i].
Proof.
  intros Hk Hj Hi. unfold file_selected, slab_index. simpl.
  assert (0 ≤ (k - cst) * bsz) as H1 by (apply Z.mul_nonneg_nonneg; lia).
  assert (0 ≤ ((k - cst) * bsz + (j - bst)) * asz) as H2
    by (apply Z.mul_nonneg_nonneg; lia).
  replace (Z.to_nat (((k - cst) * bsz + (j - bst)) * asz + (i - ast)))
    with (Z.to_nat (k - cst) * (Z.to_nat bsz * Z.to_nat asz)
          + (Z.to_nat (j - bst) * Z.to_nat asz + Z.to_nat (i - ast)))%nat
    by (apply Nat2Z.inj; rewrite Z2Nat.id by lia;
        rewrite !Nat2Z.inj_add, !Nat2Z.inj_mul, !Z2Nat.id by lia; ring).
  apply bind_lookup_const with (x := k).
  - intros z _. rewrite (length_bind_const _ _ (Z.to_nat asz)).
    + by rewrite length_seqZ.
    + intros z' _. rewrite (length_bind_const _ _ 1%nat) by done.
      rewrite length_seqZ. lia.
  - rewrite lookup_seqZ. split; [lia|]. lia.
  - apply bind_lookup_const with (x := j).
    + intros z' _. rewrite (length_bind_const _ _ 1%nat) by done.
      rewrite length_seqZ. lia.
    + rewrite lookup_seqZ. split; lia.
    + replace (Z.to_nat (i - ast)) with (Z.to_nat (i - ast) * 1 + 0)%nat by lia.
      apply bind_lookup_const with (x := i); [done| |done].
      rewrite lookup_seqZ. split; lia.
Qed.

Lemma slab_index_lt (cst csz bst bsz ast asz k j i : Z) :
  cst ≤ k < cst + csz → bst ≤ j < bst + bsz → ast ≤ i < ast + asz →
  (slab_index cst bst bsz ast asz k j i < Z.to_nat (csz * bsz * asz))%nat.
Proof.
  intros Hk Hj Hi. unfold slab_index.
  assert (0 ≤ (k - cst) * bsz) as H1 by (apply Z.mul_nonneg_nonneg; lia).
  assert (0 ≤ ((k - cst) * bsz + (j - bst)) * asz) as H2
    by (apply Z.mul_nonneg_nonneg; lia).
  assert (0 ≤ csz * bsz * asz) as H3
    by (repeat apply Z.mul_nonneg_nonneg; lia).
  apply Z2Nat.inj_lt; [lia|lia|]. clear H1 H2 H3.
  assert (0 ≤ k - cst < csz) as Hk' by lia.
  assert (0 ≤ j - bst < bsz) as Hj' by lia.
  assert (0 ≤ i - ast < asz) as Hi' by lia.
  remember (k - cst) as K eqn:EK. remember (j - bst) as J eqn:EJ.
  remember (i - ast) as I eqn:EI. clear EK EJ EI Hk Hj Hi.
  assert ((K * bsz + J) * asz + I < (K * bsz + J + 1) * asz) by nia.
  assert ((K * bsz + J + 1) * asz ≤ (K + 1) * bsz * asz) by nia.
  assert ((K + 1) * (bsz * asz) ≤ csz * (bsz * asz))
    by (apply Z.mul_le_mono_nonneg_r; [apply Z.mul_nonneg_nonneg|]; lia).
  lia.
Qed.

Lemma slab_pairs_lookup (dims : list Z) (cst csz bst bsz ast asz k j i : Z) :
  cst ≤ k < cst + csz → bst ≤ j < bst + bsz → ast ≤ i < ast + asz →
  slab_pairs dims cst csz bst bsz ast asz
    !! slab_index cst bst bsz ast asz k j i
  = Some (slab_index cst bst bsz ast asz k j i, [k; j; i]).
Proof.
  intros Hk Hj Hi. unfold slab_pairs.
  apply lookup_zip_with_Some.
  exists (slab_index cst bst bsz ast asz k j i), [k; j; i].
  split; [done|]. split.
  - apply lookup_seq. split; [done|]. by apply slab_index_lt.
  - by apply file_selected_lookup.
Qed.

Lemma slab_pairs_fst (dims : list Z) (cst csz bst bsz ast asz : Z) :
  0 ≤ csz → 0 ≤ bsz → 0 ≤ asz →
  (slab_pairs dims cst csz bst bsz ast asz).*1
  = seq 0 (Z.to_nat (csz * bsz * asz)).
Proof.
  intros. unfold slab_pairs. apply fst_zip.
  rewrite length_seq, file_selected_length. simpl. nia.
Qed.

Lemma slab_pairs_snd (dims : list Z) (cst csz bst bsz ast asz : Z) :
  0 ≤ csz → 0 ≤ bsz → 0 ≤ asz →
  (slab_pairs dims cst csz bst bsz ast asz).*2
  = file_selected (FileSpace dims (cst, bst, ast) (csz, bsz, asz)).
Proof.
  intros. unfold slab_pairs. apply snd_zip.
  rewrite length_seq, file_selected_length. simpl. nia.
Qed.
End BlockRead.

(** * What the engine leaves alone *)

Section Preservation.
Context {V : Type} `{!Hdf5 V}.
Implicit Types (w : world V) (s : esio_state_s) (I : world V → Prop).

Lemma log_blind_report I reason code w :
  log_blind I → I w → I (report reason code w).
Proof. intros HI Hw. by apply (HI w reason code ""%string (0, 0)). Qed.

Lemma log_blind_h5_fail I call w : log_blind I → I w → I (h5_fail call w).
Proof. intros HI Hw. by apply (HI w ""%string 0 call (0, 0)). Qed.

Lemma log_blind_auto I h w : log_blind I → I w → I (set_h5e_auto h w).
Proof. intros HI Hw. by apply (HI w ""%string 0 ""%string h). Qed.

Ltac blind :=
  simpl;
  solve [ done
        | apply log_blind_report; done
        | apply log_blind_h5_fail; done
        | apply log_blind_auto; done
        | apply log_blind_report; apply log_blind_h5_fail; done ].

Lemma preserves_ret {A} I (a : A) : preserves I (ret a).
Proof. by intros w. Qed.

Lemma preserves_crash {A} I : preserves I (crash (A:=A)).
Proof. by intros w. Qed.

Lemma preserves_bind {A B} I (m : M V A) (f : A → M V B) :
  preserves I m → (∀ a, preserves I (f a)) → preserves I (bind m f).
Proof.
  intros Hm Hf w Hw. unfold bind. specialize (Hm w Hw).
  destruct (m w) as [[a|c|] w1]; simpl in *; [by apply Hf|done..].
Qed.

Lemma preserves_bind_run {A B} I (m : M V A) (f : A → M V B) :
  preserves I m → (∀ w a w1, m w = (Ok a, w1) → I w1 → I (f a w1).2) →
  preserves I (bind m f).
Proof.
  intros Hm Hf w Hw. unfold bind. specialize (Hm w Hw).
  destruct (m w) as [[a|c|] w1] eqn:E; simpl in *; [by eapply Hf|done..].
Qed.

Lemma preserves_call {A} I (m : M V A) (success : A → Z) :
  preserves I m → preserves I (call m success).
Proof.
  intros Hm w Hw. unfold call. specialize (Hm w Hw).
  by destruct (m w) as [[a|c|] w1].
Qed.

Lemma preserves_ignore_status I (m : M V (list V)) (field : list V) :
  preserves I m → preserves I (ignore_status m field).
Proof.
  intros Hm w Hw. unfold ignore_status. specialize (Hm w Hw).
  by destruct (m w) as [[a|c|] w1].
Qed.

Lemma preserves_io {A} I (f : world V → A * world V) :
  (∀ w, I w → I (f w).2) → preserves I (io f).
Proof. intros Hf w Hw. unfold io. specialize (Hf w Hw). by destruct (f w). Qed.

Lemma preserves_error {A} I (reason : string) (code : Z) :
  log_blind I → preserves I (ESIO_ERROR (A:=A) reason code).
Proof. intros HI w Hw. unfold ESIO_ERROR, ESIO_ERROR_VAL, ESIO_ERROR_REPORT. blind. Qed.

Lemma preserves_error_val {A} I (reason : string) (code value : Z) :
  log_blind I → preserves I (ESIO_ERROR_VAL (A:=A) reason code value).
Proof. intros HI w Hw. unfold ESIO_ERROR, ESIO_ERROR_VAL, ESIO_ERROR_REPORT. blind. Qed.

Lemma preserves_error_report I (reason : string) (code : Z) :
  log_blind I → preserves I (ESIO_ERROR_REPORT reason code).
Proof. intros HI w Hw. unfold ESIO_ERROR, ESIO_ERROR_VAL, ESIO_ERROR_REPORT. blind. Qed.

Lemma preserves_fail_if I (c : bool) (reason : string) (code : Z) :
  log_blind I → preserves I (fail_if c reason code).
Proof.
  intros HI. destruct c; [by apply preserves_error|apply preserves_ret].
Qed.

Lemma preserves_check_arguments I (s : option esio_state_s) name field
    nc cst csz nb bst bsz na ast asz :
  log_blind I →
  preserves I (check_arguments s name field nc cst csz nb bst bsz na ast asz).
Proof.
  intros HI. unfold check_arguments.
  destruct s as [s|]; [|by apply preserves_error].
  apply preserves_bind; [by apply preserves_fail_if|intros _].
  destruct name as [name|]; [|by apply preserves_error].
  destruct field as [field|]; [|by apply preserves_error].
  repeat (apply preserves_bind; [by apply preserves_fail_if|intros _]).
  apply preserves_ret.
Qed.

Lemma preserves_ncomponents I (type_id : h5type) :
  log_blind I → preserves I (esio_type_ncomponents type_id).
Proof.
  intros HI. unfold esio_type_ncomponents.
  destruct type_id as [| | |base dims|[]]; simpl;
    try apply preserves_ret; try apply preserves_crash;
    try (by apply preserves_error_val).
  destruct (one_dimension dims); [|apply preserves_crash].
  destruct (_ && _); [apply preserves_ret|apply preserves_crash].
Qed.

Lemma preserves_metadata_read I (table : list layout) (loc : Z) (name : string) :
  log_blind I → preserves I (esio_field_metadata_read table loc name).
Proof.
  intros HI w Hw. rewrite metadata_read_eq. unfold metadata_probe.
  destruct (stored_metadata loc name w) as [data|]; [|done].
  destruct (9 <? length data)%nat; [blind|].
  destruct (negb (sentinel_intact data)); [blind|].
  destruct (data !! 3%nat) as [t|]; [|done].
  destruct (data !! 4%nat) as [nc|]; [|done].
  destruct (data !! 5%nat) as [nb|]; [|done].
  destruct (data !! 6%nat) as [na|]; [|done].
  destruct (data !! 7%nat) as [ncomp|]; [|done].
  simpl. destruct (_ || _); [blind|done].
Qed.

Lemma preserves_layout_at I (table : list layout) (t : Z) :
  preserves I (layout_at table t).
Proof.
  unfold layout_at. destruct (t <? 0); [apply preserves_crash|].
  destruct (table !! Z.to_nat t); [apply preserves_ret|apply preserves_crash].
Qed.

Lemma preserves_bind_layout {B} I (t : Z) (f : layout → M V B) :
  preserves I (f (Layout 0 esio_layout0_filespace_creator
                    esio_layout0_field_writer esio_layout0_field_reader)) →
  preserves I (bind (layout_at esio_layout t) f).
Proof.
  intros Hf w Hw. unfold bind. rewrite layout_at_esio_layout.
  destruct (t =? 0); [by apply Hf|done].
Qed.

Lemma preserves_METHODNAME I (op : opfunc) (dset_id : Z) (field : list V)
    (cglobal cstart clocal cstride bglobal bstart blocal bstride
     aglobal astart alocal astride : Z) (type_id : h5type) :
  log_blind I →
  (op = OpWrite →
   ∀ w path name rw d d',
     I w → ids w !! dset_id = Some (ObjDataset path name rw) →
     find_dataset path name w = Some d →
     ds_type d' = ds_type d → ds_dims d' = ds_dims d → ds_meta d' = ds_meta d →
     I (put_dataset path name d' w)) →
  preserves I
    (METHODNAME op dset_id field cglobal cstart clocal cstride
       bglobal bstart blocal bstride aglobal astart alocal astride type_id).
Proof.
  intros HI Hput. unfold METHODNAME.
  destruct (select_runs _ _ _ _ _ _ _) as [ms|]; [|by apply preserves_error].
  intros w Hw. destruct (dataset_of dset_id w) as [d|] eqn:Ed; [|done].
  destruct (negb (length (ds_dims d) =? 3)%nat);
    [by apply (preserves_error (A:=list V) I)|].
  revert w Hw d Ed.
  assert (∀ (fs : filespace),
            preserves I
              (let* '(status, field') :=
                 OPFUNC op dset_id type_id ms fs field in
               if status <? 0 then ESIO_ERROR "Operation failed" ESIO_EFAILED
               else ret field')) as Hop.
  2: { intros w Hw d _. by apply Hop. }
  intros fs. apply preserves_bind.
  2: { intros [status field']. destruct (status <? 0);
         [by apply preserves_error|apply preserves_ret]. }
  intros w Hw. unfold OPFUNC.
  destruct (ids w !! dset_id) as [[|path name rw]|] eqn:Eid;
    try (simpl; blind).
  destruct (find_dataset path name w) as [d|] eqn:Efd; [|simpl; blind].
  destruct (negb _); [simpl; blind|].
  destruct (_ <? _)%nat; [done|].
  destruct op.
  - destruct (negb _); [simpl; blind|]. simpl.
    by eapply Hput.
  - destruct (negb _); [simpl; blind|]. done.
Qed.

Lemma preserves_field_close I (dataset_id : Z) :
  log_blind I →
  (∀ w p n rw, I w → ids w !! dataset_id = Some (ObjDataset p n rw) →
     I (set_ids (delete dataset_id (ids w)) (next_id w) w)) →
  preserves I (esio_field_close dataset_id).
Proof.
  intros HI Hdel. unfold esio_field_close.
  apply preserves_bind; [|intros r; by apply preserves_fail_if].
  apply preserves_io. intros w Hw. unfold H5Dclose.
  destruct (ids w !! dataset_id) as [[|p n rw]|] eqn:E; simpl;
    try (blind). by eapply Hdel.
Qed.

Lemma preserves_H5Dopen I (loc : Z) (name : string) :
  log_blind I →
  (∀ w path rw, I w → ids w !! loc = Some (ObjFile path rw) →
     is_Some (find_dataset path name w) →
     I (set_ids (<[next_id w := ObjDataset path name rw]> (ids w))
          (next_id w + 1) w)) →
  preserves I (io (H5Dopen loc name)).
Proof.
  intros HI Hopen. apply preserves_io. intros w Hw. unfold H5Dopen.
  destruct (ids w !! loc) as [[path rw|]|] eqn:E; simpl; try (blind).
  destruct (find_dataset path name w) eqn:Efd; simpl; [|blind].
  by eapply Hopen.
Qed.

(** The read path of the engine, for an invariant that the opening and the
    closing of a dataset keep. *)
Lemma preserves_read I (s : option esio_state_s) name field
    nc cst csz nb bst bsz na ast asz (type_id : h5type) :
  log_blind I →
  (∀ w o, I w → I (set_ids (<[next_id w := o]> (ids w)) (next_id w + 1) w)) →
  (∀ w (i : Z), I w → I (set_ids (delete i (ids w)) (next_id w) w)) →
  preserves I
    (esio_field_read_internal esio_layout s name field
       nc cst csz nb bst bsz na ast asz type_id).
Proof.
  intros HI Hins Hdel. unfold esio_field_read_internal.
  apply preserves_bind; [by apply preserves_check_arguments|].
  intros [[s0 name0] field0].
  apply preserves_bind; [by apply preserves_metadata_read|].
  intros [status m].
  apply preserves_bind; [by apply preserves_fail_if|intros _].
  destruct m as [m|]; [|apply preserves_crash].
  do 3 (apply preserves_bind; [by apply preserves_fail_if|intros _]).
  apply preserves_bind;
    [by apply preserves_call, preserves_ncomponents|intros ncomp].
  apply preserves_bind; [by apply preserves_fail_if|intros _].
  apply preserves_bind.
  { apply preserves_H5Dopen; [done|]. intros. by apply Hins. }
  intros dset_id.
  apply preserves_bind; [by apply preserves_fail_if|intros _].
  apply preserves_bind; [by apply preserves_io|intros d].
  apply preserves_bind; [by apply preserves_fail_if|intros _].
  apply preserves_bind_layout. cbn [field_reader].
  apply preserves_bind.
  { apply preserves_ignore_status, preserves_METHODNAME; [done|done]. }
  intros field'. apply preserves_bind; [|intros; apply preserves_ret].
  apply preserves_call, preserves_field_close; [done|]. intros. by apply Hdel.
Qed.

(** esio_field_read_internal never changes a container, whatever its
    arguments and however it ends. *)
Theorem read_keeps_disk (s : option esio_state_s) (name : option string)
    (field : option (list V)) (nc cst csz nb bst bsz na ast asz : Z)
    (type_id : h5type) w :
  disk (esio_field_read_internal esio_layout s name field
          nc cst csz nb bst bsz na ast asz type_id w).2 = disk w.
Proof.
  apply (preserves_read (λ w', disk w' = disk w)); try done.
  intros w' reason code call h Hw'. unfold h5_fail.
  by destruct (_ =? 0).
Qed.
(** The write path of the engine, for an invariant kept by the changes it
    makes: datasets put under the handle's file or under an open dataset,
    a dataset identifier issued for the field, a dataset identifier
    closed. *)
Lemma preserves_write I s (name : string) (field : option (list V))
    nc cst csz nb bst bsz na ast asz (type_id : h5type) :
  log_blind I →
  (∀ w path d, I w → ids w !! file_id s = Some (ObjFile path true) →
     I (put_dataset path name d w)) →
  (∀ w i path' name' rw d, I w →
     ids w !! i = Some (ObjDataset path' name' rw) →
     I (put_dataset path' name' d w)) →
  (∀ w path rw rw', I w → ids w !! file_id s = Some (ObjFile path rw) →
     I (set_ids (<[next_id w := ObjDataset path name rw']> (ids w))
          (next_id w + 1) w)) →
  (∀ w i p n rw, I w → ids w !! i = Some (ObjDataset p n rw) →
     I (set_ids (delete i (ids w)) (next_id w) w)) →
  preserves I
    (esio_field_write_internal esio_layout (Some s) (Some name) field
       nc cst csz nb bst bsz na ast asz type_id).
Proof.
  intros HI Hputf Hputd Hissue Hdel.
  assert (∀ dset_id field0,
            preserves I
              (let* wstat :=
                 call (esio_layout0_field_writer dset_id field0 nc cst csz
                         nb bst bsz na ast asz type_id)
                   (fun _ => ESIO_SUCCESS) in
               if negb (wstat =? ESIO_SUCCESS) then
                 let* _ := call (esio_field_close dset_id)
                             (fun _ => ESIO_SUCCESS) in
                 ESIO_ERROR_VAL "Error writing new field" ESIO_EFAILED wstat
               else
                 let* _ := call (esio_field_close dset_id)
                             (fun _ => ESIO_SUCCESS) in
                 ret tt)) as Htail.
  { intros dset_id field0. apply preserves_bind.
    - apply preserves_call, preserves_METHODNAME; [done|].
      intros _ w path' name' rw d d' Hw Hid _ _ _ _. by eapply Hputd.
    - intros wstat.
      assert (preserves I (call (esio_field_close dset_id)
                             (fun _ => ESIO_SUCCESS))) as Hclose.
      { apply preserves_call, preserves_field_close; [done|].
        intros. by eapply Hdel. }
      destruct (negb _); (apply preserves_bind; [done|intros _]);
        [by apply preserves_error_val|apply preserves_ret]. }
  unfold esio_field_write_internal.
  apply preserves_bind_run; [by apply preserves_check_arguments|].
  intros w0 [[s0 name0] field0] w Echk.
  apply check_arguments_Ok_inv in Echk as ([= <-] & [= <-] & _).
  revert w.
  assert (preserves I
    (let* '(mstat, m) := esio_field_metadata_read esio_layout (file_id s) name in
     if mstat <? 0 then
       let* dset_id :=
         call (esio_field_create esio_layout s nc nb na name type_id) id in
       let* l := layout_at esio_layout (layout_tag s) in
       let* wstat :=
         call (field_writer l dset_id field0 nc cst csz nb bst bsz na ast asz
                 type_id) (fun _ => ESIO_SUCCESS) in
       if negb (wstat =? ESIO_SUCCESS) then
         let* _ := call (esio_field_close dset_id) (fun _ => ESIO_SUCCESS) in
         ESIO_ERROR_VAL "Error writing new field" ESIO_EFAILED wstat
       else
         let* _ := call (esio_field_close dset_id) (fun _ => ESIO_SUCCESS) in
         ret tt
     else
       match m with
       | None => crash
       | Some m =>
           let* _ := fail_if (negb (nc =? m_nc m))
                       "request nc mismatch with existing field" ESIO_EINVAL in
           let* _ := fail_if (negb (nb =? m_nb m))
                       "request nb mismatch with existing field" ESIO_EINVAL in
           let* _ := fail_if (negb (na =? m_na m))
                       "request na mismatch with existing field" ESIO_EINVAL in
           let* ncomponents := call (esio_type_ncomponents type_id) id in
           let* _ := fail_if (negb (ncomponents =? m_ncomponents m))
                       "request ncomponents mismatch with existing field"
                       ESIO_EINVAL in
           let* dset_id := io (H5Dopen (file_id s) name) in
           let* _ := fail_if (dset_id <? 0) "Unable to open dataset"
                       ESIO_EFAILED in
           let* d := io (fun w => (dataset_of dset_id w, w)) in
           let* _ :=
             fail_if (negb (from_option (fun d => H5Tfind type_id (ds_type d))
                              false d))
               "request type not convertible to existing field type"
               ESIO_EINVAL in
           let* l := layout_at esio_layout (m_layout_tag m) in
           let* wstat :=
             call (field_writer l dset_id field0 nc cst csz nb bst bsz na ast
                     asz type_id) (fun _ => ESIO_SUCCESS) in
           if negb (wstat =? ESIO_SUCCESS) then
             let* _ := call (esio_field_close dset_id) (fun _ => ESIO_SUCCESS) in
             ESIO_ERROR_VAL "Error writing new field" ESIO_EFAILED wstat
           else
             let* _ := call (esio_field_close dset_id) (fun _ => ESIO_SUCCESS) in
             ret tt
       end)) as Hbody.
  2: { intros w Hw. by apply Hbody. }
  apply preserves_bind; [by apply preserves_metadata_read|].
  intros [mstat m]. destruct (mstat <? 0).
  - (* Field did not exist *)
    apply preserves_bind.
    2: { intros dset_id. apply preserves_bind_layout. cbn [field_writer].
         by apply Htail. }
    apply preserves_call. unfold esio_field_create.
    apply preserves_bind_layout. cbn [tag filespace_creator].
    apply preserves_bind; [by apply preserves_fail_if|intros _].
    destruct (esio_layout0_filespace_creator nc nb na) as [sp|];
      [|by apply preserves_error].
    apply preserves_bind.
    { apply preserves_io. intros w Hw. unfold H5Dcreate1.
      destruct (ids w !! file_id s) as [[path [|]|]|] eqn:Eid; try blind.
      destruct (disk w !! path) as [c|]; [|blind].
      destruct (c !! name); [blind|]. simpl.
      apply (Hissue (put_dataset path name (Dataset type_id sp ∅ None) w)
               path true true); [|done].
      by apply Hputf. }
    intros dset_id.
    apply preserves_bind; [by apply preserves_fail_if|intros _].
    apply preserves_bind; [|intros status].
    2: { apply preserves_bind; [by apply preserves_fail_if|intros _].
         apply preserves_ret. }
    unfold esio_field_metadata_write.
    apply preserves_bind;
      [by apply preserves_call, preserves_ncomponents|intros ncomp].
    apply preserves_io. intros w Hw. unfold H5LTset_attribute_int.
    destruct (ids w !! file_id s) as [[path [|]|]|] eqn:Eid; try blind.
    destruct (find_dataset path name w) as [d|]; [|blind]. simpl.
    by apply Hputf.
  - (* Field already existed *)
    destruct m as [m|]; [|apply preserves_crash].
    do 3 (apply preserves_bind; [by apply preserves_fail_if|intros _]).
    apply preserves_bind;
      [by apply preserves_call, preserves_ncomponents|intros ncomp].
    apply preserves_bind; [by apply preserves_fail_if|intros _].
    apply preserves_bind.
    { apply preserves_H5Dopen; [done|]. intros w path rw Hw Hid _.
      by eapply Hissue. }
    intros dset_id.
    apply preserves_bind; [by apply preserves_fail_if|intros _].
    apply preserves_bind; [by apply preserves_io|intros d].
    apply preserves_bind; [by apply preserves_fail_if|intros _].
    apply preserves_bind_layout. cbn [field_writer]. by apply Htail.
Qed.
Lemma write_keeps_open s (name : string) (field : option (list V))
    nc cst csz nb bst bsz na ast asz (type_id : h5type) w (o : h5obj) (fid : Z) :
  (∀ p n r, o ≠ ObjDataset p n r) →
  ids w !! fid = Some o → fid < next_id w →
  let w1 := (esio_field_write_internal esio_layout (Some s) (Some name) field
               nc cst csz nb bst bsz na ast asz type_id w).2 in
  ids w1 !! fid = Some o ∧ fid < next_id w1.
Proof.
  intros Ho Hid Hlt.
  apply (preserves_write (λ w', ids w' !! fid = Some o ∧ fid < next_id w'));
    [| | | | |done].
  - intros w' reason code call h Hw'. unfold h5_fail.
    by destruct (_ =? 0).
  - by intros.
  - by intros.
  - intros w' path rw rw' [Hw' Hn] _. simpl.
    rewrite lookup_insert_ne by lia. split; [done|lia].
  - intros w' i p n rw [Hw' Hn] Hi. simpl. split; [|done].
    rewrite lookup_delete_ne; [done|]. intros ->.
    rewrite Hw' in Hi. injection Hi as ->. by eapply Ho.
Qed.

(** esio_field_write_internal on the field [name] of the handle's file
    changes no other dataset, whatever its arguments and however it ends:
    every dataset of another container, and every other dataset of the
    same container, is as before. *)
Theorem write_keeps_other_fields s (name path : string) (rw : bool)
    (field : option (list V)) nc cst csz nb bst bsz na ast asz
    (type_id : h5type) w :
  ids w !! file_id s = Some (ObjFile path rw) → file_id s < next_id w →
  (∀ i p n r, ids w !! i = Some (ObjDataset p n r) → p = path ∧ n = name) →
  ∀ p n, (p, n) ≠ (path, name) →
    find_dataset p n
      (esio_field_write_internal esio_layout (Some s) (Some name) field
         nc cst csz nb bst bsz na ast asz type_id w).2
    = find_dataset p n w.
Proof.
  intros Hfid Hlt Hdsets p n Hpn.
  set (J := λ w' : world V,
         find_dataset p n w' = find_dataset p n w
         ∧ ids w' !! file_id s = Some (ObjFile path rw)
         ∧ file_id s < next_id w'
         ∧ ∀ i p' n' r, ids w' !! i = Some (ObjDataset p' n' r)
                        → p' = path ∧ n' = name).
  assert (∀ w' d, find_dataset p n (put_dataset path name d w')
                  = find_dataset p n w') as Hput.
  { intros w' d. unfold find_dataset, put_dataset. simpl.
    destruct (decide (p = path)) as [->|Hp].
    - rewrite lookup_alter_eq. destruct (disk w' !! path) as [c|]; [|done].
      simpl. rewrite lookup_insert_ne; [done|]. by intros ->.
    - by rewrite lookup_alter_ne. }
  apply (preserves_write J); [| | | | |done].
  - intros w' reason code call h (H1 & H2 & H3 & H4). unfold h5_fail.
    by destruct (_ =? 0).
  - intros w' path' d (H1 & H2 & H3 & H4) Hid. rewrite H2 in Hid.
    injection Hid as <- ->. unfold J. rewrite Hput. done.
  - intros w' i path' name' r d (H1 & H2 & H3 & H4) Hid.
    destruct (H4 _ _ _ _ Hid) as [-> ->]. unfold J. rewrite Hput. done.
  - intros w' path' r r' (H1 & H2 & H3 & H4) Hid. rewrite H2 in Hid.
    injection Hid as <- <-. unfold J. simpl.
    split; [done|]. split; [by rewrite lookup_insert_ne by lia|].
    split; [lia|]. intros i p' n' r0 Hi.
    destruct (decide (i = next_id w')) as [->|Hne].
    + rewrite lookup_insert_eq in Hi. by injection Hi as <- <- _.
    + rewrite lookup_insert_ne in Hi by done. by eapply H4.
  - intros w' i p' n' r (H1 & H2 & H3 & H4) Hid. unfold J. simpl.
    split; [done|]. split.
    { rewrite lookup_delete_ne; [done|]. intros ->. by rewrite H2 in Hid. }
    split; [done|]. intros i' p0 n0 r0 Hi'.
    apply lookup_delete_Some in Hi' as [_ Hi']. by eapply H4.
Qed.
End Preservation.

Lemma write_keeps_other_fields_witness :
  find_dataset "a.h5" "u"
    (esio_field_write_internal esio_layout (Some demo_handle) (Some "v"%string)
       (Some demo_field) 4 0 4 3 0 3 2 0 2 H5T_NATIVE_DOUBLE (tagged_world 0)).2
  = find_dataset "a.h5" "u" (tagged_world 0).
Proof.
  apply (write_keeps_other_fields demo_handle "v" "a.h5" true (Some demo_field)
           4 0 4 3 0 3 2 0 2 H5T_NATIVE_DOUBLE (tagged_world 0)).
  - reflexivity.
  - reflexivity.
  - intros i p n r Hi. exfalso. unfold tagged_world in Hi. simpl in Hi.
    apply lookup_singleton_Some in Hi as [_ Hi]. discriminate Hi.
  - discriminate.
Defined.

(** * Writing to a field that exists *)

Section ExistingWrite.
Context {V : Type} `{!Hdf5 V}.
Implicit Types (w : world V).

(** C5 (amended). A write to a field that already exists, whose stored
    metadata names layout 0 and the extents (mc, mb, ma) with mn
    components: when an extent or the component count of the request
    differs from the stored value, the call returns ESIO_EINVAL and the
    containers, the open identifiers and the identifier counter are what
    they were (no dataset was opened, nothing was transferred); when they all
    agree, the arguments pass validation and are C [int]s with a block of
    at most INT_MAX elements, the container is open for writing, the
    requested type converts to the stored one, the local block lies inside
    the extents and the buffer covers it, the call returns ESIO_SUCCESS and
    the dataset keeps its type, extents and metadata attribute, with the
    buffer stored in the local block; and whatever the arguments and
    however the call ends, the metadata attribute of the field is the one
    stored before. *)
Theorem write_existing_field (s : esio_state_s) (name path : string)
    (rw : bool) (d : dataset V) (v0 v1 v2 mc mb ma mn n : Z)
    (nc cst csz nb bst bsz na ast asz : Z) (type_id : h5type) w :
  ids w !! file_id s = Some (ObjFile path rw) →
  find_dataset path name w = Some d →
  ds_meta d = Some [v0; v1; v2; 0; mc; mb; ma; mn] →
  type_ncomponents type_id = Some n →
  (nc ≠ mc ∨ nb ≠ mb ∨ na ≠ ma ∨ n ≠ mn →
   ∀ field,
     let r := esio_field_write_internal esio_layout (Some s) (Some name) field
                nc cst csz nb bst bsz na ast asz type_id w in
     r.1 = Ret ESIO_EINVAL
     ∧ disk r.2 = disk w ∧ ids r.2 = ids w ∧ next_id r.2 = next_id w)
  ∧ (nc = mc → nb = mb → na = ma → n = mn →
     ∀ field : list V,
       valid_request (file_id s) nc cst csz nb bst bsz na ast asz →
       int_request nc cst csz nb bst bsz na ast asz →
       0 ≤ next_id w → rw = true → H5Tfind type_id (ds_type d) = true →
       ds_dims d = [nc; nb; na] →
       cst + csz ≤ nc → bst + bsz ≤ nb → ast + asz ≤ na →
       (Z.to_nat (csz * bsz * asz) ≤ length field)%nat →
       ∃ w1,
         esio_field_write_internal esio_layout (Some s) (Some name) (Some field)
           nc cst csz nb bst bsz na ast asz type_id w = (Ok tt, w1)
         ∧ find_dataset path name w1
           = Some (Dataset (ds_type d) (ds_dims d)
                     (foldl (store type_id (ds_type d) field) (ds_data d)
                        (slab_pairs (ds_dims d) cst csz bst bsz ast asz))
                     (ds_meta d)))
  ∧ (∀ field : option (list V),
       let r := esio_field_write_internal esio_layout (Some s) (Some name) field
                  nc cst csz nb bst bsz na ast asz type_id w in
       (d' ← find_dataset path name r.2; ds_meta d') = ds_meta d).
Proof.
  intros Hfid Hfd Hmeta Hty.
  assert (esio_field_metadata_read esio_layout (file_id s) name w
          = (Ok (0, Some (Metadata 0 mc mb ma mn)), w)) as Hprobe.
  { eapply metadata_read_stored; try done. simpl. lia. }
  pose proof (λ w, ncomponents_call (V:=V) type_id w) as Hn. rewrite Hty in Hn.
  split; [|split].
  - intros Hmis field r. subst r. unfold esio_field_write_internal.
    pose proof (check_arguments_cases (Some s) (Some name) field
                  nc cst csz nb bst bsz na ast asz w) as Hchk.
    destruct (check_arguments _ _ _ _ _ _ _ _ _ _ _ _ _)
      as [[[[s0 n0] f]|c|] w'] eqn:Echk; [| |done].
    2: { destruct Hchk as (-> & reason & ->).
         erewrite bind_Ret_step by done. by simpl. }
    destruct Hchk as ([= <-] & [= <-] & -> & -> & Hvalid).
    erewrite bind_step by done. cbv beta iota.
    erewrite bind_step by done. cbv beta iota.
    change (0 <? 0) with false. cbv beta iota.
    destruct (Z.eqb_spec nc mc) as [->|].
    2: { erewrite bind_Ret_step;
           [|unfold fail_if; simpl; by destruct (Z.eqb_spec nc mc)]. by simpl. }
    erewrite bind_step; [|apply fail_if_pass; simpl; by rewrite Z.eqb_refl].
    destruct (Z.eqb_spec nb mb) as [->|].
    2: { erewrite bind_Ret_step;
           [|unfold fail_if; simpl; by destruct (Z.eqb_spec nb mb)]. by simpl. }
    erewrite bind_step; [|apply fail_if_pass; simpl; by rewrite Z.eqb_refl].
    destruct (Z.eqb_spec na ma) as [->|].
    2: { erewrite bind_Ret_step;
           [|unfold fail_if; simpl; by destruct (Z.eqb_spec na ma)]. by simpl. }
    erewrite bind_step; [|apply fail_if_pass; simpl; by rewrite Z.eqb_refl].
    assert (n ≠ mn) as Hne by (destruct Hmis as [|[|[|]]]; done).
    destruct (Hn w) as [Hc|[reason Hc]]; erewrite bind_step by exact Hc;
      (erewrite bind_Ret_step;
         [|unfold fail_if; simpl; by destruct (Z.eqb_spec n mn)]); by simpl.
  - intros -> -> -> -> field Hvalid Hint Hnext -> Hfind Hdims Hcs Hbs Has Hlen.
    pose proof Hvalid as (_ & _ & Hcst & Hc & _ & Hbst & Hb & _ & Hast & Ha).
    pose proof Hint as (_ & _ & _ & _ & _ & _ & Hmax).
    unfold esio_field_write_internal.
    erewrite bind_step; [|by apply check_arguments_valid]. cbv beta iota.
    erewrite bind_step by done. cbv beta iota.
    change (0 <? 0) with false. cbv beta iota.
    erewrite bind_step; [|apply fail_if_pass; simpl; by rewrite Z.eqb_refl].
    erewrite bind_step; [|apply fail_if_pass; simpl; by rewrite Z.eqb_refl].
    erewrite bind_step; [|apply fail_if_pass; simpl; by rewrite Z.eqb_refl].
    assert (∀ w2, ids w2 = ids w → disk w2 = disk w → next_id w2 = next_id w →
      ∃ w1,
        (let* _ := fail_if (negb (mn =? m_ncomponents (Metadata 0 mc mb ma mn)))
                     "request ncomponents mismatch with existing field"
                     ESIO_EINVAL in
         let* dset_id := io (H5Dopen (file_id s) name) in
         let* _ := fail_if (dset_id <? 0) "Unable to open dataset" ESIO_EFAILED in
         let* d := io (fun w => (dataset_of dset_id w, w)) in
         let* _ :=
           fail_if (negb (from_option (fun d => H5Tfind type_id (ds_type d))
                            false d))
             "request type not convertible to existing field type" ESIO_EINVAL in
         let* l := layout_at esio_layout (m_layout_tag (Metadata 0 mc mb ma mn)) in
         let* wstat :=
           call (field_writer l dset_id field mc cst csz mb bst bsz ma ast asz
                   type_id) (fun _ => ESIO_SUCCESS) in
         if negb (wstat =? ESIO_SUCCESS) then
           let* _ := call (esio_field_close dset_id) (fun _ => ESIO_SUCCESS) in
           ESIO_ERROR_VAL "Error writing new field" ESIO_EFAILED wstat
         else
           let* _ := call (esio_field_close dset_id) (fun _ => ESIO_SUCCESS) in
           ret tt) w2 = (Ok tt, w1)
        ∧ find_dataset path name w1
          = Some (Dataset (ds_type d) (ds_dims d)
                    (foldl (store type_id (ds_type d) field) (ds_data d)
                       (slab_pairs (ds_dims d) cst csz bst bsz ast asz))
                    (ds_meta d))) as Hrest.
    { intros w2 Hi2 Hd2 Hn2.
      erewrite bind_step; [|apply fail_if_pass; simpl; by rewrite Z.eqb_refl].
      erewrite bind_step.
      2: { unfold io, H5Dopen. rewrite Hi2, Hfid.
           rewrite (find_dataset_disk path name w w2), Hfd by done. done. }
      erewrite bind_step.
      2: { apply fail_if_pass. simpl. apply Z.ltb_ge. lia. }
      erewrite bind_step.
      2: { unfold io, dataset_of. simpl. rewrite lookup_insert_eq.
           unfold find_dataset. simpl. fold (find_dataset path name w2).
           rewrite (find_dataset_disk path name w w2), Hfd by done. done. }
      erewrite bind_step; [|apply fail_if_pass; simpl; by rewrite Hfind].
      erewrite bind_step; [|by rewrite layout_at_esio_layout].
      cbn [field_writer].
      set (w3 := set_ids _ _ w2).
      assert (is_Some (disk w !! path)) as [c Hc'].
      { unfold find_dataset in Hfd. destruct (disk w !! path); [by eexists|done]. }
      erewrite bind_step.
      2: { unfold call, esio_layout0_field_writer.
           rewrite layout0_contiguous by done. unfold contiguous_transfer.
           unfold w3 at 1. simpl. rewrite lookup_insert_eq.
           unfold find_dataset. simpl. fold (find_dataset path name w2).
           rewrite (find_dataset_disk path name w w2), Hfd by done.
           rewrite Hdims. simpl length. simpl negb. cbv iota.
           rewrite file_valid_inside by done. simpl negb. cbv iota.
           destruct (Nat.ltb_spec (length field) (Z.to_nat (csz * bsz * asz)));
             [lia|].
           rewrite Hfind. simpl. done. }
      change (negb (ESIO_SUCCESS =? ESIO_SUCCESS)) with false. cbv iota.
      match goal with
      | |- ∃ w1, bind _ _ ?w5 = _ ∧ _ =>
          destruct (field_close_call (next_id w2) w5) as (r & w4 & Hclose & Hd4)
      end.
      erewrite bind_step by exact Hclose.
      exists w4. split; [done|].
      rewrite (find_dataset_disk path name _ w4 Hd4).
      unfold find_dataset, put_dataset. simpl. rewrite Hd2.
      rewrite lookup_alter_eq, Hc'. simpl. rewrite lookup_insert_eq.
      rewrite Hdims. done. }
    destruct (Hn w) as [Hc0|[reason Hc0]]; erewrite bind_step by exact Hc0.
    + by apply Hrest.
    + by apply Hrest.
  - intros field r. subst r. rewrite Hmeta.
    set (I := λ w' : world V,
           (d' ← find_dataset path name w'; ds_meta d')
           = Some [v0; v1; v2; 0; mc; mb; ma; mn]).
    assert (I w) as Hw by (unfold I; by rewrite Hfd).
    assert (log_blind I) as HI.
    { intros w' reason code call h Hw'. unfold h5_fail.
      by destruct (_ =? 0). }
    assert (∀ w' ids' n', I w' → I (set_ids ids' n' w')) as Hids by done.
    change (I (esio_field_write_internal esio_layout (Some s) (Some name) field
                 nc cst csz nb bst bsz na ast asz type_id w).2).
    unfold esio_field_write_internal.
    pose proof (check_arguments_cases (Some s) (Some name) field
                  nc cst csz nb bst bsz na ast asz w) as Hchk.
    destruct (check_arguments _ _ _ _ _ _ _ _ _ _ _ _ _)
      as [[[[s0 n0] f]|c|] w'] eqn:Echk; [| |done].
    2: { destruct Hchk as (-> & reason & ->).
         erewrite bind_Ret_step by done. by apply log_blind_report. }
    destruct Hchk as ([= <-] & [= <-] & -> & -> & Hvalid).
    erewrite bind_step by done. cbv beta iota.
    erewrite bind_step by done. cbv beta iota.
    change (0 <? 0) with false. cbv beta iota.
    match goal with
    | |- I (?m w).2 => assert (preserves I m) as Hp; [|by apply Hp]
    end.
    do 3 (apply preserves_bind; [by apply preserves_fail_if|intros _]).
    apply preserves_bind;
      [by apply preserves_call, preserves_ncomponents|intros ncomp].
    apply preserves_bind; [by apply preserves_fail_if|intros _].
    apply preserves_bind.
    { apply preserves_H5Dopen; [done|]. intros. by apply Hids. }
    intros dset_id.
    apply preserves_bind; [by apply preserves_fail_if|intros _].
    apply preserves_bind; [by apply preserves_io|intros d0].
    apply preserves_bind; [by apply preserves_fail_if|intros _].
    apply preserves_bind_layout. cbn [field_writer].
    assert (preserves I (call (esio_field_close dset_id)
                           (fun _ => ESIO_SUCCESS))) as Hclose.
    { apply preserves_call, preserves_field_close; [done|].
      intros. by apply Hids. }
    apply preserves_bind.
    2: { intros wstat.
         destruct (negb _); (apply preserves_bind; [done|intros _]);
           [by apply preserves_error_val|apply preserves_ret]. }
    apply preserves_call, preserves_METHODNAME; [done|].
    intros _ w' path' name' r d1 d' Hw' Hid Hfd1 _ _ Hm.
    unfold I, find_dataset, put_dataset in *. simpl.
    destruct (decide (path' = path)) as [->|Hp];
      [|by rewrite lookup_alter_ne].
    rewrite lookup_alter_eq.
    destruct (disk w' !! path) as [c|]; [|done]. simpl in *.
    destruct (decide (name' = name)) as [->|Hne];
      [|by rewrite lookup_insert_ne].
    rewrite lookup_insert_eq. simpl. rewrite Hfd1 in Hw'. simpl in Hw'.
    congruence.
Qed.
End ExistingWrite.

(** Agreement of the extents and of the component count with the stored
    metadata does not make the write succeed, even for a request that
    passes the argument checks with its block inside the extents: on a
    container opened read-only the transfer fails with ESIO_EFAILED, and
    for an element type of the stored component count that does not
    convert to the stored type the call returns ESIO_EINVAL. *)
Lemma write_matching_metadata_may_fail :
  (esio_field_write_internal esio_layout (Some demo_handle) (Some "u"%string)
     (Some demo_field) 4 0 4 3 0 3 2 0 2 H5T_NATIVE_DOUBLE
     readonly_world).1 = Ret ESIO_EFAILED
  ∧ stored_metadata (file_id demo_handle) "u" readonly_world
    = Some [0; 0; 1; 0; 4; 3; 2; 1]
  ∧ (esio_field_write_internal esio_layout (Some demo_handle) (Some "u"%string)
       (Some demo_field) 4 0 4 3 0 3 2 0 2 H5T_NATIVE_DOUBLE
       opaque_world).1 = Ret ESIO_EINVAL
  ∧ stored_metadata (file_id demo_handle) "u" opaque_world
    = Some [0; 0; 1; 0; 4; 3; 2; 1]
  ∧ type_ncomponents H5T_NATIVE_DOUBLE = Some 1
  ∧ length demo_field = 24%nat.
Proof. vm_compute. done. Qed.

Lemma write_existing_field_witness :
  (esio_field_write_internal esio_layout (Some demo_handle) (Some "u"%string)
     (Some (replicate 24 0)) 4 0 4 3 0 3 3 0 2 H5T_NATIVE_DOUBLE
     (tagged_world 0)).1 = Ret ESIO_EINVAL
  ∧ (∃ w1,
      esio_field_write_internal esio_layout (Some demo_handle) (Some "u"%string)
        (Some (seqZ 100 24)) 4 0 4 3 0 3 2 0 2 H5T_NATIVE_DOUBLE
        (tagged_world 0) = (Ok tt, w1)
      ∧ (d ← find_dataset "a.h5" "u" w1; ds_meta d)
        = Some [0; 0; 1; 0; 4; 3; 2; 1])
  ∧ (d ← find_dataset "a.h5" "u"
           (esio_field_write_internal esio_layout (Some demo_handle)
              (Some "u"%string) (Some (replicate 24 0)) 4 3 2 3 0 3 2 0 2
              H5T_NATIVE_DOUBLE (tagged_world 0)).2; ds_meta d)
    = Some [0; 0; 1; 0; 4; 3; 2; 1].
Proof.
  destruct (write_existing_field demo_handle "u" "a.h5" true
              (Dataset H5T_NATIVE_DOUBLE [4; 3; 2] ∅
                 (Some [0; 0; 1; 0; 4; 3; 2; 1]))
              0 0 1 4 3 2 1 1 4 0 4 3 0 3 2 0 2 H5T_NATIVE_DOUBLE
              (tagged_world 0)) as (_ & Hsame & _); try reflexivity.
  destruct (write_existing_field demo_handle "u" "a.h5" true
              (Dataset H5T_NATIVE_DOUBLE [4; 3; 2] ∅
                 (Some [0; 0; 1; 0; 4; 3; 2; 1]))
              0 0 1 4 3 2 1 1 4 0 4 3 0 3 3 0 2 H5T_NATIVE_DOUBLE
              (tagged_world 0)) as (Hdiff & _ & _); try reflexivity.
  destruct (write_existing_field demo_handle "u" "a.h5" true
              (Dataset H5T_NATIVE_DOUBLE [4; 3; 2] ∅
                 (Some [0; 0; 1; 0; 4; 3; 2; 1]))
              0 0 1 4 3 2 1 1 4 3 2 3 0 3 2 0 2 H5T_NATIVE_DOUBLE
              (tagged_world 0)) as (_ & _ & Hkeep); try reflexivity.
  split; [|split].
  - apply (Hdiff); right; right; left; discriminate.
  - destruct (Hsame eq_refl eq_refl eq_refl eq_refl (seqZ 100 24))
      as (w1 & Hw & Hd); try reflexivity; try (vm_compute; lia).
    + vm_compute. repeat split; discriminate.
    + unfold int_request, INT_MAX. lia.
    + vm_compute. discriminate.
    + exists w1. split; [exact Hw|]. rewrite Hd. reflexivity.
  - exact (Hkeep (Some (replicate 24 0))).
Defined.

(** * Reading fields that exist *)

Section ExistingRead.
Context {V : Type} `{!Hdf5 V}.
Implicit Types (w : world V) (s : esio_state_s).

(** The read path on a field whose metadata agrees with the request, up to
    the transfer: the dataset is open under the identifier just issued. *)
Lemma read_existing_kernel s (name path : string) (rw : bool) (field0 : list V)
    (nc cst csz nb bst bsz na ast asz : Z) (type_id : h5type) w
    (d : dataset V) (data : list Z) (n : Z) :
  valid_request (file_id s) nc cst csz nb bst bsz na ast asz →
  ids w !! file_id s = Some (ObjFile path rw) → 0 ≤ next_id w →
  find_dataset path name w = Some d → ds_meta d = Some data →
  (length data ≤ 9)%nat → sentinel_intact data = true →
  data !! 3%nat = Some 0 → data !! 4%nat = Some nc → data !! 5%nat = Some nb →
  data !! 6%nat = Some na → data !! 7%nat = Some n →
  type_ncomponents type_id = Some n → H5Tfind type_id (ds_type d) = true →
  ∃ w2,
    ids w2 = ids w ∧ disk w2 = disk w ∧ next_id w2 = next_id w
    ∧ h5e_auto w2 = h5e_auto w
    ∧ esio_field_read_internal esio_layout (Some s) (Some name) (Some field0)
        nc cst csz nb bst bsz na ast asz type_id w
      = (let* field' :=
           ignore_status
             (esio_layout0_field_reader (next_id w) field0 nc cst csz nb bst
                bsz na ast asz type_id) field0 in
         let* _ := call (esio_field_close (next_id w)) (fun _ => ESIO_SUCCESS) in
         ret field')
          (set_ids (<[next_id w := ObjDataset path name rw]> (ids w))
             (next_id w + 1) w2).
Proof.
  intros Hvalid Hfid Hnext Hfd Hmeta Hlen Hsent E3 E4 E5 E6 E7 Hty Hfind.
  pose proof Hvalid as (_ & _ & _ & Hc & _ & _ & Hb & _ & _ & Ha).
  unfold esio_field_read_internal.
  erewrite bind_step; [|by apply check_arguments_valid]. simpl.
  erewrite bind_step; [|by eapply metadata_read_stored]. cbv beta iota.
  erewrite bind_step; [|by apply fail_if_pass].
  erewrite bind_step; [|apply fail_if_pass; simpl; by rewrite Z.eqb_refl].
  erewrite bind_step; [|apply fail_if_pass; simpl; by rewrite Z.eqb_refl].
  erewrite bind_step; [|apply fail_if_pass; simpl; by rewrite Z.eqb_refl].
  pose proof (ncomponents_call (V:=V) type_id w) as Hn. rewrite Hty in Hn.
  assert (∃ w2, ids w2 = ids w ∧ disk w2 = disk w ∧ next_id w2 = next_id w
                ∧ h5e_auto w2 = h5e_auto w
                ∧ call (esio_type_ncomponents type_id) id w = (Ok n, w2))
    as (w2 & Hi2 & Hd2 & Hn2 & Ha2 & Hcall).
  { destruct Hn as [Hn|[reason Hn]];
      [exists w|exists (report reason ESIO_ESANITY w)]; by rewrite Hn. }
  exists w2. repeat (split; [done|]).
  erewrite bind_step by exact Hcall.
  erewrite bind_step; [|apply fail_if_pass; simpl; by rewrite Z.eqb_refl].
  erewrite bind_step.
  2: { unfold io, H5Dopen. rewrite Hi2, Hfid.
       rewrite (find_dataset_disk path name w w2), Hfd by done. done. }
  erewrite bind_step.
  2: { apply fail_if_pass. simpl. apply Z.ltb_ge. lia. }
  erewrite bind_step.
  2: { unfold io, dataset_of. simpl. rewrite lookup_insert_eq.
       unfold find_dataset. simpl. fold (find_dataset path name w2).
       rewrite (find_dataset_disk path name w w2), Hfd by done. done. }
  erewrite bind_step; [|apply fail_if_pass; simpl; by rewrite Hfind].
  erewrite bind_step; [|by rewrite layout_at_esio_layout].
  cbn [field_reader]. by rewrite Hn2, Hi2.
Qed.

(** The same when no product of the kernel overflows: the transfer is the
    contiguous one. *)
Lemma read_existing_run s (name path : string) (rw : bool) (field0 : list V)
    (nc cst csz nb bst bsz na ast asz : Z) (type_id : h5type) w
    (d : dataset V) (data : list Z) (n : Z) :
  valid_request (file_id s) nc cst csz nb bst bsz na ast asz →
  csz * bsz * asz ≤ INT_MAX →
  ids w !! file_id s = Some (ObjFile path rw) → 0 ≤ next_id w →
  find_dataset path name w = Some d → ds_meta d = Some data →
  (length data ≤ 9)%nat → sentinel_intact data = true →
  data !! 3%nat = Some 0 → data !! 4%nat = Some nc → data !! 5%nat = Some nb →
  data !! 6%nat = Some na → data !! 7%nat = Some n →
  type_ncomponents type_id = Some n → H5Tfind type_id (ds_type d) = true →
  ∃ w2,
    ids w2 = ids w ∧ disk w2 = disk w ∧ next_id w2 = next_id w
    ∧ h5e_auto w2 = h5e_auto w
    ∧ esio_field_read_internal esio_layout (Some s) (Some name) (Some field0)
        nc cst csz nb bst bsz na ast asz type_id w
      = (let* field' :=
           ignore_status
             (contiguous_transfer OpRead (next_id w) field0 cst csz bst bsz
                ast asz type_id) field0 in
         let* _ := call (esio_field_close (next_id w)) (fun _ => ESIO_SUCCESS) in
         ret field')
          (set_ids (<[next_id w := ObjDataset path name rw]> (ids w))
             (next_id w + 1) w2).
Proof.
  intros Hvalid Hmax Hfid Hnext Hfd Hmeta Hlen Hsent E3 E4 E5 E6 E7 Hty Hfind.
  pose proof Hvalid as (_ & _ & _ & Hc & _ & _ & Hb & _ & _ & Ha).
  destruct (read_existing_kernel s name path rw field0 nc cst csz nb bst bsz
              na ast asz type_id w d data n)
    as (w2 & Hi2 & Hd2 & Hn2 & Ha2 & Hread); try done.
  exists w2. repeat (split; [done|]). rewrite Hread.
  unfold bind at 1 3, ignore_status, esio_layout0_field_reader.
  by rewrite layout0_contiguous by done.
Qed.


Lemma file_valid_sub (dims : list Z) (cst csz bst bsz ast asz : Z)
    (cst' csz' bst' bsz' ast' asz' : Z) :
  file_valid (FileSpace dims (cst, bst, ast) (csz, bsz, asz)) = true →
  cst ≤ cst' → cst' + csz' ≤ cst + csz →
  bst ≤ bst' → bst' + bsz' ≤ bst + bsz →
  ast ≤ ast' → ast' + asz' ≤ ast + asz →
  file_valid (FileSpace dims (cst', bst', ast') (csz', bsz', asz')) = true.
Proof.
  unfold file_valid. simpl.
  destruct dims as [|nc [|nb [|na [|]]]]; try done.
  rewrite !andb_true_iff, !Z.leb_le. lia.
Qed.

Context `{!Hdf5Laws V}.

(** After a field_write of a block returned ESIO_SUCCESS, a field_read of
    any block inside it, with the same extents and an element type of the
    same component count that converts to the stored type, returns
    ESIO_SUCCESS; each element of the block read is the element written at
    the same coordinates, converted to the stored type and from it to the
    type read, whatever the two decompositions; the buffer behind the
    block read is left as it was. The arguments are C [int]s and the block
    written has at most INT_MAX elements. *)
Theorem read_sub_block s (name path : string) (rw : bool)
    (field field0 : list V) (nc nb na : Z)
    (cst csz bst bsz ast asz cst' csz' bst' bsz' ast' asz' : Z)
    (type_id type_id' : h5type) w w1 (d : dataset V) :
  wf_world w → ids w !! file_id s = Some (ObjFile path rw) →
  file_id s < next_id w →
  int_request nc cst csz nb bst bsz na ast asz →
  esio_field_write_internal esio_layout (Some s) (Some name) (Some field)
    nc cst csz nb bst bsz na ast asz type_id w = (Ok tt, w1) →
  find_dataset path name w1 = Some d →
  type_ncomponents type_id' = type_ncomponents type_id →
  H5Tfind type_id' (ds_type d) = true →
  1 ≤ csz' → 1 ≤ bsz' → 1 ≤ asz' →
  cst ≤ cst' → cst' + csz' ≤ cst + csz →
  bst ≤ bst' → bst' + bsz' ≤ bst + bsz →
  ast ≤ ast' → ast' + asz' ≤ ast + asz →
  (Z.to_nat (csz' * bsz' * asz') ≤ length field0)%nat →
  ∃ (field' : list V) w2,
    esio_field_read_internal esio_layout (Some s) (Some name) (Some field0)
      nc cst' csz' nb bst' bsz' na ast' asz' type_id' w1 = (Ok field', w2)
    ∧ length field' = length field0
    ∧ (∀ k j i,
         cst' ≤ k < cst' + csz' → bst' ≤ j < bst' + bsz' →
         ast' ≤ i < ast' + asz' →
         ∃ v,
           field !! slab_index cst bst bsz ast asz k j i = Some v
           ∧ field' !! slab_index cst' bst' bsz' ast' asz' k j i
             = Some (H5T_convert (ds_type d) type_id'
                       (H5T_convert type_id (ds_type d) v)))
    ∧ (∀ m, (Z.to_nat (csz' * bsz' * asz') ≤ m)%nat → field' !! m = field0 !! m)
    ∧ (stored_metadata (file_id s) name w = None → ds_type d = type_id).
Proof.
  intros Hwf Hfid Hlt Hint Hwrite Hfd' Hty' Hfind' Hc' Hb' Ha' Hc1 Hc2 Hb1 Hb2
    Ha1 Ha2 Hlen0.
  pose proof Hint as (_ & _ & _ & _ & _ & _ & Hmax).
  destruct (write_Ok_stored s name field nc cst csz nb bst bsz na ast asz
              type_id w w1 path rw Hwf Hfid Hwrite)
    as (Hvalid & d0 & data & n & data0 & Hfd & Hmeta & Hlen & Hsent & E3 & E4
        & E5 & E6 & E7 & Hty & Hfind & Hfresh & Hdims & Hfv & Hexact).
  destruct (Hexact Hmax) as [Hlenf Hdata].
  rewrite Hfd' in Hfd. injection Hfd as <-.
  pose proof Hvalid as (Hfile & Hnc & Hcst & Hcsz & Hnb & Hbst & Hbsz & Hna
                        & Hast & Hasz).
  assert (csz' * bsz' * asz' ≤ INT_MAX) as Hmax'.
  { assert (csz' * bsz' * asz' ≤ csz * bsz * asz); [|lia].
    assert (csz' ≤ csz) by lia. assert (bsz' ≤ bsz) by lia.
    assert (asz' ≤ asz) by lia.
    assert (csz' * bsz' ≤ csz * bsz) by nia. nia. }
  destruct (write_keeps_open s name (Some field) nc cst csz nb bst bsz na ast
              asz type_id w (ObjFile path rw) (file_id s)) as [Hfid1 Hlt1];
    [done|done|done|]. rewrite Hwrite in Hfid1, Hlt1. simpl in Hfid1, Hlt1.
  assert (0 ≤ next_id w1) as Hnext1.
  { destruct Hwf as [_ Hwf]. specialize (Hwf _ _ Hfid). unfold H5I_BASE in Hwf.
    lia. }
  destruct (read_existing_run s name path rw field0 nc cst' csz' nb bst' bsz'
              na ast' asz' type_id' w1 d data n)
    as (w2 & Hi2 & Hd2 & Hn2 & _ & Hread); try done.
  { repeat split; lia. }
  { by rewrite Hty'. }
  set (w3 := set_ids _ _ w2) in Hread.
  set (pairs := slab_pairs (ds_dims d) cst' csz' bst' bsz' ast' asz').
  assert (contiguous_transfer OpRead (next_id w1) field0 cst' csz' bst' bsz'
            ast' asz' type_id' w3
          = (Ok (foldl (load (ds_type d) type_id' (ds_data d)) field0 pairs), w3))
    as Htransfer.
  { unfold contiguous_transfer. unfold w3 at 1. simpl.
    rewrite lookup_insert_eq.
    unfold find_dataset. simpl. fold (find_dataset path name w2).
    rewrite (find_dataset_disk path name w1 w2), Hfd' by done.
    rewrite Hdims. simpl negb. cbv iota.
    rewrite (file_valid_sub (ds_dims d) cst csz bst bsz ast asz) by done.
    simpl negb. cbv iota.
    destruct (Nat.ltb_spec (length field0) (Z.to_nat (csz' * bsz' * asz')));
      [lia|].
    rewrite H5Tfind_sym, Hfind'. done. }
  destruct (field_close_call (next_id w1) w3) as (r & w4 & Hclose & _).
  exists (foldl (load (ds_type d) type_id' (ds_data d)) field0 pairs), w4.
  split.
  { rewrite Hread. unfold bind at 1, ignore_status. rewrite Htransfer.
    by erewrite bind_step by exact Hclose. }
  split; [apply foldl_load_length|].
  assert (pairs.*1 = seq 0 (Z.to_nat (csz' * bsz' * asz'))) as Hfst
    by (apply slab_pairs_fst; lia).
  split; [|split].
  - intros k j i Hk Hj Hi.
    pose proof (slab_index_lt cst csz bst bsz ast asz k j i
                  ltac:(lia) ltac:(lia) ltac:(lia)) as Hidx1.
    pose proof (slab_index_lt cst' csz' bst' bsz' ast' asz' k j i Hk Hj Hi)
      as Hidx2.
    destruct (lookup_lt_is_Some_2 field
                (slab_index cst bst bsz ast asz k j i) ltac:(lia)) as [v Hv].
    exists v. split; [done|].
    rewrite (foldl_load_lookup _ _ _ pairs field0
               (slab_index cst' bst' bsz' ast' asz' k j i)
               (slab_index cst' bst' bsz' ast' asz' k j i) [k; j; i]).
    + rewrite Hdata.
      rewrite (foldl_store_lookup _ _ _ _ data0
                 (slab_index cst bst bsz ast asz k j i)
                 (slab_index cst bst bsz ast asz k j i) [k; j; i]).
      * by rewrite Hv.
      * rewrite slab_pairs_snd by lia. apply file_selected_NoDup.
      * apply slab_pairs_lookup; lia.
    + rewrite Hfst. apply NoDup_seq.
    + by apply slab_pairs_lookup.
    + lia.
  - intros m Hm. apply foldl_load_frame. rewrite Hfst.
    intros Hin%elem_of_seq. lia.
  - done.
Qed.
End ExistingRead.

Lemma read_sub_block_witness :
  ∃ field' w2,
    esio_field_read_internal esio_layout (Some demo_handle) (Some "u"%string)
      (Some (replicate 4 0)) 4 1 2 3 2 1 2 0 2 H5T_NATIVE_FLOAT demo_written
    = (Ok field', w2)
    ∧ field' !! slab_index 1 2 1 0 2 2 2 1
      = demo_field !! slab_index 0 0 3 0 2 2 2 1.
Proof.
  destruct (read_sub_block demo_handle "u" "a.h5" true demo_field
              (replicate 4 0) 4 3 2 0 4 0 3 0 2 1 2 2 1 0 2
              H5T_NATIVE_DOUBLE H5T_NATIVE_FLOAT demo_world demo_written
              (Dataset H5T_NATIVE_DOUBLE [4; 3; 2]
                 (list_to_map (zip (file_selected
                                      (FileSpace [4; 3; 2] (0, 0, 0) (4, 3, 2)))
                                 demo_field))
                 (Some [0; 0; 1; 0; 4; 3; 2; 1])))
    as (field' & w2 & Hread & _ & Helem & _).
  - apply wf_demo_world.
  - reflexivity.
  - reflexivity.
  - unfold int_request, INT_MAX. lia.
  - vm_compute. reflexivity.
  - vm_compute. reflexivity.
  - reflexivity.
  - reflexivity.
  - lia.
  - lia.
  - lia.
  - lia.
  - lia.
  - lia.
  - lia.
  - lia.
  - lia.
  - vm_compute. lia.
  - exists field', w2. split; [exact Hread|].
    destruct (Helem 2 2 1) as (v & Hv & Hv'); [lia|lia|lia|].
    rewrite Hv, Hv'. reflexivity.
Defined.


(** * Field sizes and metadata *)

Section FieldSize.
Context {V : Type} `{!Hdf5 V}.
Implicit Types (w : world V) (s : esio_state_s).

Lemma metadata_read_into_absent (table : list (layout (V:=V))) (loc : Z) (name : string)
    (p3 p4 p5 p6 p7 : bool) w :
  stored_metadata loc name w = None →
  esio_field_metadata_read_into table loc name p3 p4 p5 p6 p7 w
  = (Ok (-1, (None, None, None, None, None)), w).
Proof.
  intros Hnone.
  unfold esio_field_metadata_read_into, bind, io, H5LTget_attribute_int.
  simpl. unfold stored_metadata in Hnone.
  destruct (ids w !! loc) as [[path rw|]|] eqn:Eid; simpl.
  2,3: by rewrite h5_fail_silenced, set_h5e_auto_restore.
  destruct (find_dataset path name w) as [[ty dims data [meta|]]|] eqn:Ed;
    simpl in *; [done|..].
  all: unfold find_dataset in Ed |- *; simpl; rewrite Ed; simpl.
  all: by rewrite h5_fail_silenced, set_h5e_auto_restore.
Qed.

Lemma metadata_read_into_extents (table : list (layout (V:=V))) (loc : Z)
    (name path : string) (rw : bool) w (d : dataset V) (data : list Z)
    (t nc nb na : Z) :
  ids w !! loc = Some (ObjFile path rw) →
  find_dataset path name w = Some d → ds_meta d = Some data →
  (length data ≤ 9)%nat → sentinel_intact data = true →
  data !! 3%nat = Some t → data !! 4%nat = Some nc → data !! 5%nat = Some nb →
  data !! 6%nat = Some na → 0 ≤ t < esio_nlayout table →
  esio_field_metadata_read_into table loc name false true true true false w
  = (Ok (0, (None, Some nc, Some nb, Some na, None)), w).
Proof.
  intros Hid Hfd Hmeta Hlen Hsent E3 E4 E5 E6 Ht.
  unfold esio_field_metadata_read_into, bind, io, H5LTget_attribute_int.
  simpl. rewrite Hid.
  unfold find_dataset in Hfd |- *. simpl. rewrite Hfd.
  destruct d as [ty dims dat meta]. simpl in Hmeta. subst meta.
  destruct (Nat.ltb_spec 9 (length data)); [lia|]. simpl.
  change ([None; None; None; None; None; None; None; None; Some sentinel])
    with (replicate ESIO_FIELD_METADATA_SIZE (@None Z) ++ [Some sentinel]).
  fold (scratch data).
  rewrite slot_scratch_sentinel by done.
  unfold sentinel_intact, ESIO_FIELD_METADATA_SIZE in Hsent.
  apply bool_decide_eq_true in Hsent.
  rewrite bool_decide_eq_true_2 by congruence. simpl.
  unfold populate. rewrite !slot_scratch by lia.
  rewrite E3, E4, E5, E6. simpl.
  destruct (Z.ltb_spec t 0); [lia|].
  destruct (Z.leb_spec (esio_nlayout table) t); [lia|]. simpl.
  by rewrite set_h5e_auto_restore.
Qed.

(** esio_field_size after a field_write that returned ESIO_SUCCESS: it
    returns ESIO_SUCCESS with the three extents of the write, and changes
    nothing, the error sinks included. *)
Theorem field_size_after_write s (name path : string) (rw : bool)
    (field : list V) (nc cst csz nb bst bsz na ast asz : Z) (type_id : h5type)
    (nc0 nb0 na0 : Z) w w1 :
  wf_world w → ids w !! file_id s = Some (ObjFile path rw) →
  file_id s < next_id w →
  esio_field_write_internal esio_layout (Some s) (Some name) (Some field)
    nc cst csz nb bst bsz na ast asz type_id w = (Ok tt, w1) →
  esio_field_size esio_layout (Some s) (Some name) (Some nc0) (Some nb0)
    (Some na0) w1 = (Ok (nc, nb, na), w1).
Proof.
  intros Hwf Hfid Hlt Hwrite.
  destruct (write_Ok_stored s name field nc cst csz nb bst bsz na ast asz
              type_id w w1 path rw Hwf Hfid Hwrite)
    as (Hvalid & d & data & n & data0 & Hfd & Hmeta & Hlen & Hsent & E3 & E4
        & E5 & E6 & _).
  destruct (write_keeps_open s name (Some field) nc cst csz nb bst bsz na ast
              asz type_id w (ObjFile path rw) (file_id s)) as [Hfid1 _];
    [done|done|done|]. rewrite Hwrite in Hfid1. simpl in Hfid1.
  unfold esio_field_size.
  erewrite bind_step.
  2: { apply fail_if_pass. apply Z.eqb_neq. by destruct Hvalid. }
  erewrite bind_step.
  2: { by eapply (metadata_read_into_extents esio_layout). }
  cbv beta iota.
  erewrite bind_step; [|by apply fail_if_pass]. done.
Qed.

(** esio_field_size on a field that does not exist returns ESIO_EFAILED
    and does nothing but report it: the driver's handler does not run. *)
Theorem field_size_missing s (name : string) (nc0 nb0 na0 : Z) w :
  file_id s ≠ -1 → stored_metadata (file_id s) name w = None →
  esio_field_size esio_layout (Some s) (Some name) (Some nc0) (Some nb0)
    (Some na0) w
  = (Ret ESIO_EFAILED,
     report "Unable to open field's ESIO metadata" ESIO_EFAILED w).
Proof.
  intros Hs Hnone. unfold esio_field_size.
  erewrite bind_step; [|apply fail_if_pass; by apply Z.eqb_neq].
  erewrite bind_step; [|by apply metadata_read_into_absent].
  done.
Qed.

(** Round trip of the metadata attribute: what esio_field_metadata_write
    stored for a layout tag of the registry, esio_field_metadata_read
    gives back, with the component count of the element type, without
    touching anything. *)
Theorem metadata_write_read (table : list (layout (V:=V))) (loc : Z) (name : string)
    (t nc nb na : Z) (type_id : h5type) w (r : Z) w1 :
  esio_field_metadata_write loc name t nc nb na type_id w = (Ok r, w1) →
  0 ≤ r → 0 ≤ t < esio_nlayout table →
  ∃ n,
    type_ncomponents type_id = Some n
    ∧ esio_field_metadata_read table loc name w1
      = (Ok (0, Some (Metadata t nc nb na n)), w1).
Proof.
  intros Hwrite Hr Ht.
  apply metadata_write_cases in Hwrite as (Hids & _ & [[-> _]|Hok]); [lia|].
  destruct Hok as (path & d & c & n & -> & Hty & Hid & Hc & Hd & Hdisk).
  exists n. split; [done|].
  rewrite metadata_read_eq. unfold metadata_probe, stored_metadata.
  rewrite Hids, Hid. unfold find_dataset. rewrite Hdisk.
  rewrite lookup_insert_eq. simpl. rewrite lookup_insert_eq. simpl.
  destruct (Z.ltb_spec t 0); [lia|].
  destruct (Z.leb_spec (esio_nlayout table) t); [lia|]. done.
Qed.
End FieldSize.

Lemma field_size_after_write_witness :
  esio_field_size esio_layout (Some demo_handle) (Some "u"%string) (Some 0)
    (Some 0) (Some 0) demo_written = (Ok (4, 3, 2), demo_written).
Proof.
  apply (field_size_after_write demo_handle "u" "a.h5" true demo_field
           4 0 4 3 0 3 2 0 2 H5T_NATIVE_DOUBLE 0 0 0 demo_world demo_written).
  - apply wf_demo_world.
  - reflexivity.
  - reflexivity.
  - vm_compute. reflexivity.
Defined.

Lemma field_size_missing_witness :
  esio_field_size esio_layout (Some demo_handle) (Some "v"%string) (Some 0)
    (Some 0) (Some 0) demo_written
  = (Ret ESIO_EFAILED,
     report "Unable to open field's ESIO metadata" ESIO_EFAILED demo_written).
Proof.
  apply (field_size_missing demo_handle "v" 0 0 0 demo_written).
  - vm_compute. discriminate.
  - vm_compute. reflexivity.
Defined.

Lemma metadata_write_read_witness :
  ∃ w1,
    esio_field_metadata_write H5I_BASE "u" 0 5 6 7 H5T_NATIVE_FLOAT
      (tagged_world 0) = (Ok 0, w1)
    ∧ esio_field_metadata_read esio_layout H5I_BASE "u" w1
      = (Ok (0, Some (Metadata 0 5 6 7 1)), w1).
Proof.
  eexists. split; [vm_compute; reflexivity|].
  destruct (metadata_write_read (V:=Z) esio_layout H5I_BASE "u" 0 5 6 7
              H5T_NATIVE_FLOAT (tagged_world 0) 0
              (esio_field_metadata_write H5I_BASE "u" 0 5 6 7 H5T_NATIVE_FLOAT
                 (tagged_world 0)).2) as (n & Hn & Hread).
  - vm_compute. reflexivity.
  - lia.
  - vm_compute. split; [discriminate|reflexivity].
  - injection Hn as <-. exact Hread.
Defined.

(** * The typed entry points *)

Section TypedEntryPoints.
Context {V : Type} `{!Hdf5 V} `{!Hdf5Laws V}.
Implicit Types (w : world V) (s : esio_state_s).

Lemma store_load_types (R S T : h5type) (field field0 : list V)
    (data : gmap (list Z) V) (coords : list (list Z)) :
  NoDup coords → length coords = length field → length field0 = length field →
  foldl (load S T (foldl (store R S field) data
                     (zip (seq 0 (length field)) coords)))
    field0 (zip (seq 0 (length field)) coords)
  = (λ v, H5T_convert S T (H5T_convert R S v)) <$> field.
Proof.
  intros Hnd Hlen Hlen0.
  set (pairs := zip (seq 0 (length field)) coords).
  assert (pairs.*1 = seq 0 (length field)) as H1.
  { apply fst_zip. rewrite length_seq. lia. }
  assert (pairs.*2 = coords) as H2.
  { apply snd_zip. rewrite length_seq. lia. }
  apply list_eq. intros i. rewrite list_lookup_fmap.
  destruct (field !! i) as [v|] eqn:Ev; simpl.
  - assert (i < length field)%nat as Hi by (by eapply lookup_lt_Some).
    destruct (lookup_lt_is_Some_2 coords i) as [c Hc]; [lia|].
    assert (pairs !! i = Some (i, c)) as Hp.
    { apply lookup_zip_Some. split; [|done]. by apply lookup_seq_lt. }
    rewrite (foldl_load_lookup _ _ _ _ _ i i c);
      [|by rewrite H1; apply NoDup_seq|done|lia].
    rewrite (foldl_store_lookup _ _ _ _ _ i i c); [|by rewrite H2|done].
    by rewrite Ev.
  - apply lookup_ge_None. rewrite foldl_load_length.
    apply lookup_ge_None in Ev. lia.
Qed.

(** The typed entry points compose through the driver's conversion: a new
    field written with esio_field_write_double and read back with
    esio_field_read_float, same extents and block, comes back as the
    buffer written with each element converted from double to float. The
    arguments are C [int]s and the block has at most INT_MAX elements. *)
Theorem written_double_read_as_float s (name path : string) (rw : bool)
    (field field0 : list V) (nc cst csz nb bst bsz na ast asz : Z) w w1 :
  wf_world w → ids w !! file_id s = Some (ObjFile path rw) →
  file_id s < next_id w →
  stored_metadata (file_id s) name w = None →
  H5Tfind H5T_NATIVE_FLOAT H5T_NATIVE_DOUBLE = true →
  int_request nc cst csz nb bst bsz na ast asz →
  length field = Z.to_nat (csz * bsz * asz) → length field0 = length field →
  esio_field_write_double (Some s) (Some name) (Some field)
    nc cst csz nb bst bsz na ast asz w = (Ok tt, w1) →
  ∃ w2,
    esio_field_read_float (Some s) (Some name) (Some field0)
      nc cst csz nb bst bsz na ast asz w1
    = (Ok (H5T_convert H5T_NATIVE_DOUBLE H5T_NATIVE_FLOAT <$> field), w2).
Proof.
  intros Hwf Hfid Hlt Hnew Hconv Hint Hlenf Hlen0 Hwrite.
  pose proof Hint as (_ & _ & _ & _ & _ & _ & Hmax).
  unfold esio_field_write_double in Hwrite. unfold esio_field_read_float.
  destruct (write_Ok_stored s name field nc cst csz nb bst bsz na ast asz
              H5T_NATIVE_DOUBLE w w1 path rw Hwf Hfid Hwrite)
    as (Hvalid & d & data & n & data0 & Hfd & Hmeta & Hlen & Hsent & E3 & E4
        & E5 & E6 & E7 & Hty & Hfind & Hfresh & Hdims & Hfv & Hexact).
  destruct (Hexact Hmax) as [_ Hdata].
  specialize (Hfresh Hnew).
  pose proof Hvalid as (Hfile & Hnc & Hcst & Hcsz & Hnb & Hbst & Hbsz & Hna
                        & Hast & Hasz).
  destruct (write_keeps_open s name (Some field) nc cst csz nb bst bsz na ast
              asz H5T_NATIVE_DOUBLE w (ObjFile path rw) (file_id s))
    as [Hfid1 Hlt1]; [done|done|done|].
  rewrite Hwrite in Hfid1, Hlt1. simpl in Hfid1, Hlt1.
  assert (0 ≤ next_id w1) as Hnext1.
  { destruct Hwf as [_ Hwf]. specialize (Hwf _ _ Hfid). unfold H5I_BASE in Hwf.
    lia. }
  destruct (read_existing_run s name path rw field0 nc cst csz nb bst bsz
              na ast asz H5T_NATIVE_FLOAT w1 d data n)
    as (w2 & Hi2 & Hd2 & Hn2 & _ & Hread); try done.
  { by rewrite Hfresh. }
  set (w3 := set_ids _ _ w2) in Hread.
  assert (contiguous_transfer OpRead (next_id w1) field0 cst csz bst bsz
            ast asz H5T_NATIVE_FLOAT w3
          = (Ok (foldl (load (ds_type d) H5T_NATIVE_FLOAT (ds_data d)) field0
                   (slab_pairs (ds_dims d) cst csz bst bsz ast asz)), w3))
    as Htransfer.
  { unfold contiguous_transfer. unfold w3 at 1. simpl.
    rewrite lookup_insert_eq.
    unfold find_dataset. simpl. fold (find_dataset path name w2).
    rewrite (find_dataset_disk path name w1 w2), Hfd by done.
    rewrite Hdims, Hfv. simpl negb. cbv iota.
    destruct (Nat.ltb_spec (length field0) (Z.to_nat (csz * bsz * asz)));
      [lia|].
    rewrite Hfresh, H5Tfind_sym, Hconv. done. }
  destruct (field_close_call (next_id w1) w3) as (r & w4 & Hclose & _).
  exists w4. rewrite Hread. unfold bind at 1, ignore_status.
  rewrite Htransfer. erewrite bind_step by exact Hclose.
  unfold ret. do 2 f_equal.
  rewrite Hdata, Hfresh. unfold slab_pairs. rewrite <-Hlenf.
  rewrite store_load_types.
  - apply list_fmap_ext. intros i v _. by rewrite H5T_convert_same.
  - apply file_selected_NoDup.
  - rewrite file_selected_length, Hlenf. simpl.
    rewrite !Z2Nat.inj_mul by lia. done.
  - done.
Qed.
End TypedEntryPoints.

Lemma written_double_read_as_float_witness :
  ∃ w2,
    esio_field_read_float (Some demo_handle) (Some "u"%string)
      (Some (replicate 24 0)) 4 0 4 3 0 3 2 0 2 demo_written
    = (Ok demo_field, w2).
Proof.
  destruct (written_double_read_as_float demo_handle "u" "a.h5" true demo_field
              (replicate 24 0) 4 0 4 3 0 3 2 0 2 demo_world demo_written)
    as (w2 & Hread).
  - apply wf_demo_world.
  - reflexivity.
  - reflexivity.
  - reflexivity.
  - reflexivity.
  - unfold int_request, INT_MAX. lia.
  - reflexivity.
  - reflexivity.
  - vm_compute. reflexivity.
  - exists w2. rewrite Hread. reflexivity.
Defined.

(** * Handle creation *)

Section Handles.
Context {V : Type} `{!Hdf5 V}.
Implicit Types (w : world V) (st : mpi_state) (s : esio_state_s).

Lemma fresh_comm w :
  let c := fresh ({[MPI_COMM_NULL]} ∪ comms w) in
  c ≠ MPI_COMM_NULL ∧ c ∉ comms w.
Proof.
  pose proof (is_fresh ({[MPI_COMM_NULL]} ∪ comms w)) as Hf.
  split.
  - intros E. apply Hf. rewrite E. apply elem_of_union_l, elem_of_singleton. done.
  - intros E. apply Hf. by apply elem_of_union_r.
Qed.

Lemma fresh_info w :
  let i := fresh ({[MPI_INFO_NULL]} ∪ infos w) in
  i ≠ MPI_INFO_NULL ∧ i ∉ infos w.
Proof.
  pose proof (is_fresh ({[MPI_INFO_NULL]} ∪ infos w)) as Hf.
  split.
  - intros E. apply Hf. rewrite E. apply elem_of_union_l, elem_of_singleton. done.
  - intros E. apply Hf. by apply elem_of_union_r.
Qed.

Lemma init_live (comm size rank : Z) st w :
  comm ≠ MPI_COMM_NULL → comm ∈ comms w →
  comm_groups st !! comm = Some (size, rank) →
  let c := fresh ({[MPI_COMM_NULL]} ∪ comms w) in
  let i := fresh ({[MPI_INFO_NULL]} ∪ infos w) in
  let name := default EmptyString (comm_names st !! comm) in
  esio_init comm st w
  = (Some (EsioState c rank size i (-1) 0),
     MpiState (if (0 <? String.length name)%nat
               then <[c := name]> (delete c (comm_names st))
               else delete c (comm_names st))
       (<[c := (size, rank)]> (comm_groups st)),
     set_mpi ({[c]} ∪ comms w) ({[i]} ∪ infos w) w).
Proof.
  intros Hnull Hlive Hgroup. cbv zeta.
  destruct (fresh_comm w) as [Hc0 Hc].
  unfold esio_init.
  destruct (Z.eqb_spec comm MPI_COMM_NULL); [done|].
  unfold MPI_Comm_size, MPI_Comm_rank. rewrite Hgroup.
  destruct (decide (comm ∈ comms w)); [|done]. simpl.
  unfold esio_MPI_Comm_dup_with_name.
  destruct (Z.eqb_spec comm MPI_COMM_NULL); [done|].
  unfold MPI_Comm_get_name, MPI_Comm_dup. simpl.
  destruct (decide (comm ∈ comms w)); [|done]. simpl.
  rewrite Hgroup.
  set (c := fresh ({[MPI_COMM_NULL]} ∪ comms w)) in *.
  destruct (0 <? String.length _)%nat eqn:Ename.
  - unfold MPI_Comm_set_name. simpl.
    destruct (decide (c ∈ {[c]} ∪ comms w)) as [|Hn];
      [|exfalso; apply Hn, elem_of_union_l, elem_of_singleton; done].
    simpl. destruct (Z.eqb_spec c MPI_COMM_NULL); [done|]. done.
  - destruct (Z.eqb_spec c MPI_COMM_NULL); [done|]. done.
Qed.

(** esio_init on a live communicator returns a handle with no file open
    and layout 0, holding the size of the group and the rank of the caller,
    a new communicator (neither NULL nor the caller's, which stays live)
    carrying the caller's name when that is not empty, and a new info
    object; nothing is reported and no container or identifier changes. *)
Theorem init_gives_fresh_handle (parent size rank : Z) st w :
  parent ≠ MPI_COMM_NULL → parent ∈ comms w →
  comm_groups st !! parent = Some (size, rank) →
  ∃ s st' w',
    esio_init parent st w = (Some s, st', w')
    ∧ file_id s = -1 ∧ layout_tag s = 0
    ∧ comm_size s = size ∧ comm_rank s = rank
    ∧ comm s ≠ parent ∧ comm s ≠ MPI_COMM_NULL
    ∧ (comm s ∉ comms w) ∧ info s ≠ MPI_INFO_NULL ∧ (info s ∉ infos w)
    ∧ comms w' = {[comm s]} ∪ comms w
    ∧ infos w' = {[info s]} ∪ infos w
    ∧ (∀ name, comm_names st !! parent = Some name → name ≠ EmptyString →
         comm_names st' !! comm s = Some name)
    ∧ disk w' = disk w ∧ ids w' = ids w ∧ errors w' = errors w.
Proof.
  intros Hnull Hlive Hgroup.
  destruct (fresh_comm w) as [Hc0 Hc]. destruct (fresh_info w) as [Hi0 Hi].
  eexists _, _, _. split; [by apply init_live|]. simpl.
  repeat split; try done.
  - intros E. simpl in E. rewrite E in Hc. done.
  - intros name Hname Hne. rewrite Hname. simpl.
    destruct name as [|a name]; [done|]. simpl. by rewrite lookup_insert_eq.
Qed.

(** Handle creation and finalization balance: esio_finalize on the handle
    that esio_init returned gives ESIO_SUCCESS and leaves the live
    communicators and info objects exactly as they were before esio_init,
    without reporting anything. *)
Theorem init_finalize_balance (parent size rank : Z) st w :
  parent ≠ MPI_COMM_NULL → parent ∈ comms w →
  comm_groups st !! parent = Some (size, rank) →
  ∃ s st' w' w'',
    esio_init parent st w = (Some s, st', w')
    ∧ esio_finalize (Some s) w' = (Ok tt, w'')
    ∧ comms w'' = comms w ∧ infos w'' = infos w
    ∧ disk w'' = disk w ∧ ids w'' = ids w ∧ errors w'' = errors w.
Proof.
  intros Hnull Hlive Hgroup.
  destruct (fresh_comm w) as [Hc0 Hc]. destruct (fresh_info w) as [Hi0 Hi].
  eexists _, _, _, _. split; [by apply init_live|].
  set (c := fresh ({[MPI_COMM_NULL]} ∪ comms w)) in *.
  set (i := fresh ({[MPI_INFO_NULL]} ∪ infos w)) in *.
  unfold esio_finalize. simpl.
  destruct (Z.eqb_spec c MPI_COMM_NULL); [done|].
  destruct (Z.eqb_spec i MPI_INFO_NULL); [done|]. simpl.
  unfold bind, io, MPI_Comm_free, MPI_Info_free, ESIO_MPICHKR, ret. simpl.
  destruct (decide (c ∈ {[c]} ∪ comms w)) as [|Hn];
    [|exfalso; apply Hn, elem_of_union_l, elem_of_singleton; done].
  simpl.
  destruct (decide (i ∈ {[i]} ∪ infos w)) as [|Hn];
    [|exfalso; apply Hn, elem_of_union_l, elem_of_singleton; done].
  simpl. split; [done|]. simpl.
  repeat split; try done.
  - apply leibniz_equiv. intros x. rewrite elem_of_difference, elem_of_union,
      elem_of_singleton. split; [intros [[->|?] ?]; done|].
    intros Hx. split; [by right|]. intros ->. done.
  - apply leibniz_equiv. intros x. rewrite elem_of_difference, elem_of_union,
      elem_of_singleton. split; [intros [[->|?] ?]; done|].
    intros Hx. split; [by right|]. intros ->. done.
Qed.
End Handles.

Lemma init_gives_fresh_handle_witness :
  ∃ s st' w',
    esio_init 91 demo_mpi demo_world = (Some s, st', w')
    ∧ comm_size s = 4 ∧ comm_rank s = 2 ∧ comm s ≠ 91
    ∧ comm_names st' !! comm s = Some "solver"%string.
Proof.
  destruct (init_gives_fresh_handle 91 4 2 demo_mpi demo_world)
    as (s & st' & w' & E & _ & _ & Hsz & Hrk & Hc & _ & _ & _ & _ & _ & _ & Hn & _).
  - vm_compute. discriminate.
  - vm_compute. reflexivity.
  - reflexivity.
  - exists s, st', w'. split; [exact E|]. split; [exact Hsz|].
    split; [exact Hrk|]. split; [exact Hc|].
    apply Hn; [reflexivity|discriminate].
Defined.

Lemma init_finalize_balance_witness :
  ∃ s st' w' w'',
    esio_init 91 demo_mpi demo_world = (Some s, st', w')
    ∧ esio_finalize (Some s) w' = (Ok tt, w'')
    ∧ comms w'' = comms demo_world ∧ infos w'' = infos demo_world.
Proof.
  destruct (init_finalize_balance 91 4 2 demo_mpi demo_world)
    as (s & st' & w' & w'' & E & F & Hc & Hi & _).
  - vm_compute. discriminate.
  - vm_compute. reflexivity.
  - reflexivity.
  - exists s, st', w', w''. split; [exact E|]. split; [exact F|].
    split; [exact Hc|exact Hi].
Defined.

(** * Rotation of restart files *)

Lemma rename_status old new w :
  (rename old new w).1 = 0 ∨ (rename old new w).1 = -1.
Proof.
  unfold rename. destruct (fs_lookup old w); [|by right].
  destruct (dirs w !! _); [|by right]. destruct (decide _); by left.
Qed.

Lemma rename_fs_errors old new w :
  fs_errors (rename old new w).2 = fs_errors w.
Proof.
  unfold rename. destruct (fs_lookup old w); [|done].
  destruct (dirs w !! _); [|done]. by destruct (decide _).
Qed.

Lemma rename_installs old new w :
  (rename old new w).1 = 0 →
  fs_lookup new (rename old new w).2 = fs_lookup old w ∧ is_Some (fs_lookup old w).
Proof.
  unfold rename. destruct (fs_lookup old w) as [content|] eqn:Eold; [|done].
  destruct (dirs w !! str (dirname new)) as [d|] eqn:Enew; [|done].
  destruct (decide _) as [[Ed Eb]|Hne]; simpl; intros _.
  - split; [|eauto]. rewrite <-Eold. unfold fs_lookup. by rewrite Ed, Eb.
  - split; [|eauto]. unfold fs_lookup. simpl. rewrite lookup_alter_eq.
    assert (is_Some (alter (delete (str (basename old))) (str (dirname old)) (dirs w)
                       !! str (dirname new))) as [d' ->].
    { apply lookup_alter_is_Some. eauto. }
    simpl. by rewrite lookup_insert_eq.
Qed.

Lemma grow_ge len n fuel : (len ≤ grow len n fuel)%nat.
Proof.
  revert len. induction fuel as [|fuel IH]; intros len; cbn [grow]; [lia|].
  destruct (len <? n)%nat; [|lia]. specialize (IH (2 * len)%nat). lia.
Qed.

Section Entries.
Variables (tmpl_dirname tmpl_basename prefix suffix : cstr).
Variables (ndigits keep_howmany : Z).

(** What the loop over the entries guarantees, whatever it renames. *)
Lemma rename_entries_contract entries srclen dstlen w r dl w1 :
  rename_entries tmpl_dirname tmpl_basename prefix suffix
    ndigits keep_howmany entries srclen dstlen w = (r, dl, w1) →
  (dstlen ≤ dl)%nat
  ∧ ((r = ESIO_SUCCESS ∧ fs_errors w1 = fs_errors w)
     ∨ (r = ESIO_EFAILED
        ∧ ∃ reason, fs_errors w1 = esio_error reason ESIO_EFAILED (fs_errors w))).
Proof.
  revert srclen dstlen w.
  induction entries as [|name rest IH]; intros srclen dstlen w.
  { simpl. intros [= <- <- <-]. split; [lia|]. by left. }
  cbn [rename_entries].
  destruct (_ || _); [apply IH|].
  unfold snprintf_grow. cbn zeta.
  set (src := take _ (path_of _ _)).
  set (text := index_path _ _ _ _ _).
  pose proof (grow_ge dstlen (length text) (length text)) as Hgrow.
  set (dstlen' := grow dstlen _ _) in *.
  set (dst := take _ text).
  pose proof (rename_status src dst w) as Hst.
  pose proof (rename_fs_errors src dst w) as Herr.
  destruct (rename src dst w) as [r0 w']. simpl in Hst, Herr.
  destruct Hst as [-> | ->]; simpl.
  - intros Hrest. apply IH in Hrest as (Hl & Hs).
    split; [lia|]. by rewrite <-Herr.
  - intros [= <- <- <-]. split; [done|]. right. split; [done|].
    eexists. unfold fs_report. simpl. by rewrite Herr.
Qed.
End Entries.

(** restart_rename calls the error hook exactly when it does not return
    ESIO_SUCCESS, once, and with the status that it returns. *)
Theorem rename_reports_what_it_returns src_filename dst_template keep_howmany w :
  let out := restart_rename src_filename dst_template keep_howmany w in
  (out.1 = ESIO_SUCCESS ∧ fs_errors out.2 = fs_errors w)
  ∨ (out.1 ≠ ESIO_SUCCESS
     ∧ ∃ reason, fs_errors out.2 = fs_errors w ++ [(reason, out.1)]).
Proof.
  cbn zeta. unfold restart_rename.
  destruct src_filename as [src|]; [|right; split; [done|by eexists]].
  destruct dst_template as [tmpl|]; [|right; split; [done|by eexists]].
  destruct (keep_howmany <? 1); [right; split; [done|by eexists]|].
  destruct (stat src w <? 0); [right; split; [done|by eexists]|].
  destruct (split_template _) as [[[prefix run] suffix]|];
    [|right; split; [done|by eexists]].
  destruct (existsb is_hash suffix); [right; split; [done|by eexists]|].
  destruct (scandir _ _ _ w) as [namelist|]; [|right; split; [done|by eexists]].
  destruct (rename_entries _ _ _ _ _ _ _ _ _ w) as [[r dstlen] w1] eqn:Hloop.
  apply rename_entries_contract in Hloop as (_ & Hs).
  destruct Hs as [[-> He] | [-> [reason He]]]; simpl.
  - unfold snprintf_grow. cbn zeta.
    set (dst := take _ (index_path _ _ _ _ _)).
    pose proof (rename_status src dst w1) as Hst.
    pose proof (rename_fs_errors src dst w1) as Herr.
    destruct (rename src dst w1) as [r' w2]. simpl in Hst, Herr.
    destruct Hst as [-> | ->]; simpl.
    + left. split; [done|]. by rewrite Herr.
    + right. split; [done|]. eexists. unfold esio_error. by rewrite Herr, He.
  - right. split; [done|]. by eexists.
Qed.

(** A call that returns ESIO_EFAULT or ESIO_EINVAL has renamed nothing:
    the arguments are checked before any file is touched. *)
Theorem rename_argument_errors_touch_nothing
    src_filename dst_template keep_howmany w :
  let out := restart_rename src_filename dst_template keep_howmany w in
  out.1 = ESIO_EFAULT ∨ out.1 = ESIO_EINVAL → dirs out.2 = dirs w.
Proof.
  cbn zeta. unfold restart_rename.
  destruct src_filename as [src|]; [|done].
  destruct dst_template as [tmpl|]; [|done].
  destruct (keep_howmany <? 1); [done|].
  destruct (stat src w <? 0); [done|].
  destruct (split_template _) as [[[prefix run] suffix]|]; [|done].
  destruct (existsb is_hash suffix); [done|].
  destruct (scandir _ _ _ w) as [namelist|]; [|done].
  destruct (rename_entries _ _ _ _ _ _ _ _ _ w) as [[r dstlen] w1] eqn:Hloop.
  apply rename_entries_contract in Hloop as (_ & Hs).
  destruct Hs as [[-> He] | [-> [reason He]]]; simpl.
  - unfold snprintf_grow. cbn zeta.
    set (dst := take _ (index_path _ _ _ _ _)).
    pose proof (rename_status src dst w1) as Hst.
    destruct (rename src dst w1) as [r' w2]. simpl in Hst.
    destruct Hst as [-> | ->]; simpl; intros [?|?]; done.
  - intros [?|?]; done.
Qed.

Lemma rename_argument_errors_touch_nothing_witness :
  dirs (restart_rename (Some (chars "new")) (Some (chars "chk")) 3 chk_world).2
  = dirs chk_world.
Proof.
  apply (rename_argument_errors_touch_nothing
           (Some (chars "new")) (Some (chars "chk")) 3 chk_world).
  right. vm_compute. reflexivity.
Defined.

(** When restart_rename returns ESIO_SUCCESS, keep_howmany was at least 1,
    the source file existed, the template's last component had one run of
    '#', and a file now stands at the path of index 0 (when that path is
    shorter than NAME_MAX, so that the first buffer holds it). *)
Theorem rename_success_installs src tmpl keep_howmany w w' :
  restart_rename (Some src) (Some tmpl) keep_howmany w = (ESIO_SUCCESS, w') →
  1 ≤ keep_howmany ∧ stat src w = 0
  ∧ ∃ prefix run suffix,
      split_template (basename tmpl) = Some (prefix, run, suffix)
      ∧ existsb is_hash suffix = false
      ∧ let dst := index_path (dirname tmpl) prefix
                     (index_width run keep_howmany) 0 suffix in
        (length dst < NAME_MAX)%nat → stat dst w' = 0.
Proof.
  unfold restart_rename.
  destruct (Z.ltb_spec keep_howmany 1); [done|].
  destruct (Z.ltb_spec (stat src w) 0) as [|Hstat]; [done|].
  assert (stat src w = 0) as Hsrc.
  { revert Hstat. unfold stat. destruct (fs_lookup src w); [done|lia]. }
  destruct (split_template _) as [[[prefix run] suffix]|]; [|done].
  destruct (existsb is_hash suffix) eqn:Ehash; [done|].
  destruct (scandir _ _ _ w) as [namelist|]; [|done].
  destruct (rename_entries _ _ _ _ _ _ _ _ _ w) as [[r dstlen] w1] eqn:Hloop.
  apply rename_entries_contract in Hloop as (Hlen & _).
  destruct (Z.eqb_spec r ESIO_SUCCESS) as [->|Hr]; simpl;
    [|intros [= E]; by rewrite E in Hr].
  unfold snprintf_grow. cbn zeta.
  set (text := index_path _ _ _ _ _).
  pose proof (grow_ge dstlen (length text) (length text)) as Hgrow.
  pose proof (rename_installs src (take (grow dstlen (length text) (length text) - 1) text) w1)
    as Hinst.
  destruct (rename src _ w1) as [r' w2]. simpl in Hinst.
  destruct (Z.eqb_spec r' 0) as [->|]; [|done]. simpl. intros [= <-].
  split; [lia|]. split; [done|].
  exists prefix, run, suffix. split; [done|]. split; [done|].
  cbn zeta. fold text. intros Hshort.
  destruct Hinst as [Hdst [content Hc]]; [done|].
  rewrite take_ge in Hdst by lia.
  unfold stat. by rewrite Hdst, Hc.
Qed.

Lemma rename_success_installs_witness :
  stat (chars "./chk0") (restart_rename (Some (chars "new")) (Some (chars "chk#")) 2 new_only).2 = 0.
Proof.
  destruct (rename_success_installs (chars "new") (chars "chk#") 2 new_only
              (restart_rename (Some (chars "new")) (Some (chars "chk#")) 2 new_only).2)
    as (_ & _ & prefix & run & suffix & Hsplit & _ & Hdst).
  - vm_compute. reflexivity.
  - vm_compute in Hsplit. injection Hsplit as <- <- <-.
    apply Hdst. vm_compute. lia.
Defined.
